(** * testrules: discovery, execution and exit status of the test runner

    A shallow embedding of [testrules.py].  Python [str] values are
    [string]s (byte strings; comparing UTF-8 bytes lexicographically agrees
    with Python's code-point order), Python [int]s are [Z], [None]-able
    values are [option]s, [set]s are [gset]s and the dictionaries of the
    configuration are [gmap]s.  What the runner gets from its surroundings
    (the file system, the JSON decoder, the module loader, the unittest
    runner, the clock) enters the functions as explicit arguments. *)

From Stdlib Require Import ZArith QArith String Ascii List Lia.
From stdpp Require Import base option list sorting gmap sets strings.
Import ListNotations.

Local Open Scope Z_scope.

(** ** Data model *)

(** Python truthiness of the values the runner tests with [if x]. *)
Definition str_truthy (s : string) : bool :=
  negb (String.eqb s "").

Definition opt_str_truthy (o : option string) : bool :=
  match o with
  | Some s => str_truthy s
  | None => false
  end.

Definition list_truthy {A} (l : list A) : bool :=
  match l with
  | [] => false
  | _ :: _ => true
  end.

Record TestMethod := mkTestMethod {
  tm_name : string;
  tm_module : string;
  tm_class_name : option string;
  tm_file_path : option string;
  tm_full_name : string
}.

(** [TestMethod.__init__] *)
Definition TestMethod_init (name module : string)
    (class_name file_path : option string) : TestMethod :=
  {| tm_name := name;
     tm_module := module;
     tm_class_name := class_name;
     tm_file_path := file_path;
     tm_full_name :=
       match class_name with
       | Some c =>
           if str_truthy c then module +:+ "." +:+ c +:+ "." +:+ name
           else module +:+ "." +:+ name
       | None => module +:+ "." +:+ name
       end |}.

Record MethodResult := mkMethodResult {
  method : TestMethod;
  status : string;
  mr_duration : Q;
  error : option string;
  traceback_str : option string
}.

Record TestResult := mkTestResult {
  total : Z;
  passed : Z;
  failed : Z;
  errors : Z;
  method_results : list MethodResult;
  duration : Q;
  start_time : option Q;
  end_time : option Q
}.

(** [TestResult.__init__] *)
Definition TestResult_init : TestResult :=
  {| total := 0; passed := 0; failed := 0; errors := 0;
     method_results := [];
     duration := 0%Q; start_time := None; end_time := None |}.

(** [TestResult.add_result]: append, count, then bump the counter the
    status names; a status that is none of the three bumps nothing. *)
Definition add_result (self : TestResult) (method_result : MethodResult)
    : TestResult :=
  let results' := method_results self ++ [method_result] in
  let total' := total self + 1 in
  let st := status method_result in
  if String.eqb st "pass" then
    {| total := total'; passed := passed self + 1; failed := failed self;
       errors := errors self; method_results := results';
       duration := duration self; start_time := start_time self;
       end_time := end_time self |}
  else if String.eqb st "fail" then
    {| total := total'; passed := passed self; failed := failed self + 1;
       errors := errors self; method_results := results';
       duration := duration self; start_time := start_time self;
       end_time := end_time self |}
  else if String.eqb st "error" then
    {| total := total'; passed := passed self; failed := failed self;
       errors := errors self + 1; method_results := results';
       duration := duration self; start_time := start_time self;
       end_time := end_time self |}
  else
    {| total := total'; passed := passed self; failed := failed self;
       errors := errors self; method_results := results';
       duration := duration self; start_time := start_time self;
       end_time := end_time self |}.

(** The state of a [TestResult] after a sequence of [add_result] calls. *)
Definition add_results (self : TestResult) (ms : list MethodResult)
    : TestResult :=
  fold_left add_result ms self.

Definition valid_status (s : string) : Prop :=
  s = "pass" \/ s = "fail" \/ s = "error".

Definition counters_consistent (r : TestResult) : Prop :=
  total r = passed r + failed r + errors r /\
  passed r + failed r + errors r = Z.of_nat (List.length (method_results r)).

(** ** Exceptions and console output *)

(** The [Exception] subclasses the runner tells apart, each with the text
    [str(e)] gives.  Every handler of the runner is an [except Exception]
    or narrower, so these are the exceptions it catches.  What is no
    [Exception] ([SystemExit], [KeyboardInterrupt]) passes all of them and
    ends the process: the functions below describe the calls in which the
    code under test raises none of these. *)
Inductive PyExc :=
  | ImportError (msg : string)
  | SyntaxError (msg : string)
  | JSONDecodeError (msg : string)
  | OSError (msg : string)
  | AttributeError (msg : string)
  | ValueError (msg : string)
  | OtherException (msg : string).

Definition str_exc (e : PyExc) : string :=
  match e with
  | ImportError m | SyntaxError m | JSONDecodeError m | OSError m
  | AttributeError m | ValueError m | OtherException m => m
  end.

(** A computation that returns or raises. *)
Definition result (A : Type) : Type := PyExc + A.

(** The lines the modelled functions [print], by what they say. *)
Inductive event :=
  | LoadedConfiguration (config_file : string)
  | NoConfigurationFile (config_file : string)
  | ErrorParsingConfiguration (config_file msg : string)
  | ErrorLoadingConfiguration (config_file msg : string)
  | UsingDefaultConfiguration
  | UnknownTestType (test_type : string)
  | ModuleFileNotFound (module_name : string)
  | GroupNotFound (group_name : string)
  | GroupContains (group_name : string) (modules : list string)
  | DiscoveringModules (modules : list string)
  | DiscoveringGroup (group : string)
  | NoModulesInGroup (group : string)
  | DiscoveringType (test_type : string)
  | DiscoveringAll
  | FoundTestFiles (n : nat)
  | FailedToImport (module_name msg : string)
  | ErrorAccessingMethod (method_name class_name msg : string)
  | ErrorAccessingAttribute (attr_name module_name msg : string)
  | ErrorAccessingFunction (attr_name module_name msg : string).

(** The lines that tell the user the defaults are in use. *)
Definition announces_defaults (e : event) : bool :=
  match e with
  | NoConfigurationFile _ | UsingDefaultConfiguration => true
  | _ => false
  end.

(** A value together with what was printed on the way to it. *)
Definition Out (A : Type) : Type := A * list event.

Definition out_ret {A} (a : A) : Out A := (a, []).

Definition out_bind {A B} (m : Out A) (k : A -> Out B) : Out B :=
  let '(a, w1) := m in
  let '(b, w2) := k a in
  (b, w1 ++ w2).

Definition print (e : event) : Out unit := (tt, [e]).

Arguments out_bind : simpl never.

Notation "'do' x <- m ; k" := (out_bind m (fun x => k))
  (at level 10, x name, m at level 100, k at level 200).
Notation "'say' e ; k" := (out_bind (print e) (fun _ => k))
  (at level 10, e at level 100, k at level 200).

(** ** Configuration *)

(** The JSON object of [testrules.json] after decoding, its recognised
    keys at the types of the schema; [None] is a key the document leaves
    out.  Keys the runner does not know are kept by name only, nothing
    reads their values. *)
Record ConfigData := mkConfigData {
  cd_test_patterns : option (gmap string (list string));
  cd_test_groups : option (gmap string (list string));
  cd_coverage_enabled : option bool;
  cd_html_coverage : option bool;
  cd_html_coverage_dir : option string;
  cd_other_keys : list string
}.

(** The empty dictionary [{}]. *)
Definition empty_data : ConfigData :=
  {| cd_test_patterns := None; cd_test_groups := None;
     cd_coverage_enabled := None; cd_html_coverage := None;
     cd_html_coverage_dir := None; cd_other_keys := [] |}.

(** A dictionary is falsy exactly when it has no key. *)
Definition data_truthy (d : ConfigData) : bool :=
  match cd_test_patterns d, cd_test_groups d, cd_coverage_enabled d,
        cd_html_coverage d, cd_html_coverage_dir d, cd_other_keys d with
  | None, None, None, None, None, [] => false
  | _, _, _, _, _, _ => true
  end.

(** What [json.load] returns: an object, or a value of another JSON type
    (null, a boolean, a number, a string, an array), of which the runner
    only ever sees the truth value and that it has no [get]. *)
Inductive json_doc :=
  | DocObject (d : ConfigData)
  | DocOther (truthy : bool).

Record Config := mkConfig {
  data : ConfigData;
  test_patterns : gmap string (list string);
  test_groups : gmap string (list string);
  coverage_enabled : bool;
  html_coverage : bool;
  html_coverage_dir : string
}.

Definition default_test_patterns : gmap string (list string) :=
  <["unit" := ["test_*.py"; "*_test.py"] ]>
  (<["integration" := ["integration_test_*.py"; "*_integration_test.py"] ]>
  (<["e2e" := ["e2e_test_*.py"; "*_e2e_test.py"] ]>
  (<["regression" := ["regression_test_*.py"; "*_regression_test.py"] ]> ∅))).

Definition default_test_groups : gmap string (list string) :=
  <["all" := [] ]> ∅.

(** The body of [Config.__init__] once [self.data] is a dictionary: each
    field is [self.data.get(key, default)]. *)
Definition Config_of_data (d : ConfigData) : Config :=
  {| data := d;
     test_patterns := default default_test_patterns (cd_test_patterns d);
     test_groups := default default_test_groups (cd_test_groups d);
     coverage_enabled := default true (cd_coverage_enabled d);
     html_coverage := default true (cd_html_coverage d);
     html_coverage_dir := default "htmlcov" (cd_html_coverage_dir d) |}.

(** [Config.__init__(data)]: [self.data = data or {}], then the [get]s,
    which a truthy value that is no dictionary does not have (the message
    is given without the name of the value's type). *)
Definition Config_init (d : option json_doc) : result Config :=
  match d with
  | None => inr (Config_of_data empty_data)
  | Some (DocObject o) =>
      inr (Config_of_data (if data_truthy o then o else empty_data))
  | Some (DocOther false) => inr (Config_of_data empty_data)
  | Some (DocOther true) =>
      inl (AttributeError "object has no attribute 'get'")
  end.

(** [Config()] *)
Definition Config_default : Config := Config_of_data empty_data.

(** [Config.get_test_types]: the keys of the patterns dictionary, in the
    order of the map and not in the order of insertion. *)
Definition get_test_types (self : Config) : list string :=
  (map_to_list (test_patterns self)).*1.

(** [Config.get_patterns_for_test_type] *)
Definition get_patterns_for_test_type (self : Config) (test_type : string)
    : list string :=
  default [] (test_patterns self !! test_type).

(** [Config.has_test_type] *)
Definition has_test_type (self : Config) (test_type : string) : bool :=
  bool_decide (is_Some (test_patterns self !! test_type)).

(** The file system as the runner reads it, and the JSON decoder. *)
Record FileSystem := mkFileSystem {
  path_exists : string -> bool;            (* os.path.exists *)
  glob_recursive : string -> list string;  (* glob.glob(_, recursive=True) *)
  read_text : string -> result string      (* open(_, 'r') and read *)
}.

(** [json.load] on the text of a file: the document, or the message of
    the [JSONDecodeError] it raises. *)
Definition JsonDecoder : Type := string -> string + json_doc.

(** The [try] block of [load_config].  When [Config(data)] raises, the
    line "Loaded configuration" printed just before it is not kept. *)
Definition load_config_try (fs : FileSystem) (json_load : JsonDecoder)
    (config_file : string) : result (Out Config) :=
  if path_exists fs config_file then
    match read_text fs config_file with
    | inl e => inl e
    | inr text =>
        match json_load text with
        | inl msg => inl (JSONDecodeError msg)
        | inr d =>
            match Config_init (Some d) with
            | inl e => inl e
            | inr c => inr (c, [LoadedConfiguration config_file])
            end
        end
    end
  else
    inr (Config_default, [NoConfigurationFile config_file]).

(** [load_config]: the [try] block under its two handlers. *)
Definition load_config (fs : FileSystem) (json_load : JsonDecoder)
    (config_file : string) : Out Config :=
  match load_config_try fs json_load config_file with
  | inr r => r
  | inl (JSONDecodeError m) =>
      (Config_default,
       [ErrorParsingConfiguration config_file m; UsingDefaultConfiguration])
  | inl e =>
      (Config_default,
       [ErrorLoadingConfiguration config_file (str_exc e);
        UsingDefaultConfiguration])
  end.

(** ** Strings and paths *)

(** [s.startswith(p)] *)
Definition startswith (s p : string) : bool := String.prefix p s.

(** [s.endswith(p)]: some suffix of [s] is [p]. *)
Fixpoint endswith (s p : string) : bool :=
  String.eqb s p ||
  match s with
  | EmptyString => false
  | String _ rest => endswith rest p
  end.

(** [needle in hay] *)
Fixpoint str_contains (needle hay : string) : bool :=
  String.prefix needle hay ||
  match hay with
  | EmptyString => false
  | String _ rest => str_contains needle rest
  end.

(** [os.path.join(a, *p)] of [posixpath]: a component that starts with the
    separator restarts the path, an empty path or one that ends with the
    separator takes the component as it is. *)
Definition join_step (path b : string) : string :=
  if startswith b "/" then b
  else if String.eqb path "" || endswith path "/" then path +:+ b
  else path +:+ "/" +:+ b.

Definition path_join (a : string) (p : list string) : string :=
  fold_left join_step p a.

(** [sorted(list(set(xs)))]: the set forgets order and repetition, the
    sort puts its elements in ascending order of [str]. *)
Definition sorted_set (xs : list string) : list string :=
  merge_sort String.le (elements (list_to_set (C := gset string) xs)).

(** ** Discovery *)

Definition opt_list_truthy {A} (o : option (list A)) : bool :=
  match o with
  | Some l => list_truthy l
  | None => false
  end.

(** [get_test_files_by_type] *)
Definition get_test_files_by_type (fs : FileSystem) (test_type : string)
    (config : Config) (search_path : string) : Out (list string) :=
  if negb (has_test_type config test_type) then
    say UnknownTestType test_type;
    out_ret []
  else
    let patterns := get_patterns_for_test_type config test_type in
    let test_files :=
      fold_left
        (fun test_files pattern =>
           let search_pattern := path_join search_path ["**"; pattern] in
           let matching_files := glob_recursive fs search_pattern in
           test_files ++ matching_files)
        patterns [] in
    out_ret (sorted_set test_files).

(** [get_all_test_files]: the types that have files, with their files. *)
Definition get_all_test_files (fs : FileSystem) (config : Config)
    (search_path : string) : Out (gmap string (list string)) :=
  fold_left
    (fun acc test_type =>
       do all_test_files <- acc;
       do test_files <- get_test_files_by_type fs test_type config search_path;
       out_ret (if list_truthy test_files
                then <[test_type := test_files]> all_test_files
                else all_test_files))
    (get_test_types config) (out_ret ∅).

(** The three places [discover_files_by_modules] looks for a module. *)
Definition possible_paths (module_name search_path : string) : list string :=
  [ module_name +:+ ".py";
    path_join search_path [module_name +:+ ".py"];
    path_join search_path ["**"; module_name +:+ ".py"] ].

(** The inner loop of [discover_files_by_modules]: the first path that is
    there ends the loop; the result is the grown [test_files] and [found]. *)
Fixpoint try_paths (fs : FileSystem) (paths : list string)
    (test_files : list string) : list string * bool :=
  match paths with
  | [] => (test_files, false)
  | path :: rest =>
      if str_contains "**" path then
        let matching_files := glob_recursive fs path in
        if list_truthy matching_files
        then (test_files ++ matching_files, true)
        else try_paths fs rest test_files
      else
        if path_exists fs path
        then (test_files ++ [path], true)
        else try_paths fs rest test_files
  end.

(** [discover_files_by_modules] *)
Definition discover_files_by_modules (fs : FileSystem)
    (module_names : list string) (search_path : string) : Out (list string) :=
  do test_files <-
    fold_left
      (fun acc module_name =>
         do test_files <- acc;
         let '(test_files', found) :=
           try_paths fs (possible_paths module_name search_path) test_files in
         if found then out_ret test_files'
         else say ModuleFileNotFound module_name; out_ret test_files')
      module_names (out_ret []);
  out_ret (sorted_set test_files).

(** [resolve_test_group] *)
Definition resolve_test_group (group_name : string) (config : Config)
    : Out (list string) :=
  match test_groups config !! group_name with
  | None =>
      say GroupNotFound group_name;
      out_ret []
  | Some modules =>
      say GroupContains group_name modules;
      out_ret modules
  end.

(** [discover_tests] *)
Definition discover_tests (fs : FileSystem) (test_type : option string)
    (modules : option (list string)) (group : option string)
    (config : option Config) (search_path : string) : Out (list string) :=
  let config := default Config_default config in
  do test_files <-
    (if opt_list_truthy modules then
       say DiscoveringModules (default [] modules);
       discover_files_by_modules fs (default [] modules) search_path
     else if opt_str_truthy group then
       say DiscoveringGroup (default "" group);
       do group_modules <- resolve_test_group (default "" group) config;
       if list_truthy group_modules then
         discover_files_by_modules fs group_modules search_path
       else
         say NoModulesInGroup (default "" group);
         out_ret []
     else if opt_str_truthy test_type then
       say DiscoveringType (default "" test_type);
       get_test_files_by_type fs (default "" test_type) config search_path
     else
       say DiscoveringAll;
       do all_test_files <- get_all_test_files fs config search_path;
       let test_files :=
         fold_left (fun test_files files => test_files ++ files)
                   (map_to_list all_test_files).*2 [] in
       out_ret (sorted_set test_files));
  say FoundTestFiles (length test_files);
  out_ret test_files.

(** ** Loading modules *)

(** What [dir] and [getattr] show of a class member and of a module
    attribute; [getattr] may raise. *)
Inductive Member :=
  | MemberCallable
  | MemberPlain
  | MemberRaises (e : PyExc).

Inductive Attr :=
  | TestCaseClass (members : list (string * Member))
      (* a type deriving from unittest.TestCase, not TestCase itself *)
  | OtherType
  | Function
  | PlainValue
  | AttrRaises (e : PyExc).

(** A loaded module: its attributes in the order of [dir(module)]. *)
Record Module := mkModule {
  mod_dir : list (string * Attr)
}.

(** The import machinery.  Running a module's code reads [sys.path] (that
    is what the prepended directory is for) and, being arbitrary code, may
    leave it changed: [exec_module] and [import_module] take [sys.path] as
    it is when they start and give it back as the module's code left it. *)
Record Loader := mkLoader {
  spec_from_file_location : string -> string -> bool;
    (* a spec with a loader could be made *)
  module_dir_of : string -> string;
    (* os.path.dirname(os.path.abspath(file_path)) *)
  exec_module : string -> string -> list string -> result Module * list string;
  import_module : string -> list string -> result Module * list string
}.

(** [l.remove(x)]: drops the first [x], raises [ValueError] (here [None])
    when there is none. *)
Fixpoint py_list_remove (x : string) (l : list string) : option (list string) :=
  match l with
  | [] => None
  | y :: l' =>
      if decide (x = y) then Some l'
      else cons y <$> py_list_remove x l'
  end.

(** What [safe_import_module] returns: [(module, success_flag, error_message)]. *)
Definition import_triple : Type := option Module * bool * option string.

Definition loaded (r : result Module) : result import_triple :=
  match r with
  | inr m => inr (Some m, true, None)
  | inl e => inl e
  end.

(** The outer [try] block of [safe_import_module], with the [finally] of
    the inner one: the value or exception it ends with, and [sys.path]
    afterwards. *)
Definition safe_import_module_try (fs : FileSystem) (ld : Loader)
    (module_name : string) (file_path : option string)
    (sys_path : list string) : result import_triple * list string :=
  if opt_str_truthy file_path && path_exists fs (default "" file_path) then
    let file_path := default "" file_path in
    if spec_from_file_location ld module_name file_path then
      let module_dir := module_dir_of ld file_path in
      let path_added := negb (bool_decide (module_dir ∈ sys_path)) in
      let sys_path1 :=
        if path_added then module_dir :: sys_path else sys_path in
      let '(r, sys_path2) := exec_module ld module_name file_path sys_path1 in
      if path_added then
        match py_list_remove module_dir sys_path2 with
        | Some sys_path3 => (loaded r, sys_path3)
        | None => (inl (ValueError "list.remove(x): x not in list"), sys_path2)
        end
      else (loaded r, sys_path2)
    else
      (inr (None, false,
            Some ("Could not create module spec for " +:+ module_name
                  +:+ " at " +:+ file_path)),
       sys_path)
  else
    let '(r, sys_path') := import_module ld module_name sys_path in
    (loaded r, sys_path').

(** [safe_import_module]: the [try] block under its three handlers. *)
Definition safe_import_module (fs : FileSystem) (ld : Loader)
    (module_name : string) (file_path : option string)
    (sys_path : list string) : import_triple * list string :=
  let '(r, sys_path') :=
    safe_import_module_try fs ld module_name file_path sys_path in
  match r with
  | inr t => (t, sys_path')
  | inl (ImportError m) =>
      ((None, false, Some ("ImportError: " +:+ m)), sys_path')
  | inl (SyntaxError m) =>
      ((None, false,
        Some ("SyntaxError in " +:+ module_name +:+ ": " +:+ m)), sys_path')
  | inl e =>
      ((None, false,
        Some ("Unexpected error importing " +:+ module_name +:+ ": "
              +:+ str_exc e)), sys_path')
  end.

(** The test methods of one class: the inner loop of the first pass of
    [inspect_module_for_tests]. *)
Definition class_test_methods (module_name : string) (file_path : option string)
    (class_name : string) (members : list (string * Member))
    : Out (list TestMethod) :=
  fold_left
    (fun acc '(method_name, member) =>
       do test_methods <- acc;
       if startswith method_name "test" then
         match member with
         | MemberCallable =>
             out_ret (test_methods ++
               [TestMethod_init method_name module_name (Some class_name) file_path])
         | MemberPlain => out_ret test_methods
         | MemberRaises e =>
             say ErrorAccessingMethod method_name class_name (str_exc e);
             out_ret test_methods
         end
       else out_ret test_methods)
    members (out_ret []).

(** [inspect_module_for_tests]: the methods of the test-case classes, then
    the standalone test functions; [sys.path] is touched by the import only. *)
Definition inspect_module_for_tests (fs : FileSystem) (ld : Loader)
    (module_name : string) (file_path : option string)
    (sys_path : list string) : Out (list TestMethod) * list string :=
  let '((module, success, error_msg), sys_path') :=
    safe_import_module fs ld module_name file_path sys_path in
  match success, module with
  | true, Some module =>
      (do in_classes <-
         fold_left
           (fun acc '(attr_name, attr) =>
              do test_methods <- acc;
              match attr with
              | TestCaseClass members =>
                  do ms <- class_test_methods module_name file_path attr_name members;
                  out_ret (test_methods ++ ms)
              | AttrRaises e =>
                  say ErrorAccessingAttribute attr_name module_name (str_exc e);
                  out_ret test_methods
              | _ => out_ret test_methods
              end)
           (mod_dir module) (out_ret []);
       fold_left
         (fun acc '(attr_name, attr) =>
            do test_methods <- acc;
            if startswith attr_name "test" then
              match attr with
              | Function =>
                  out_ret (test_methods ++
                    [TestMethod_init attr_name module_name None file_path])
              | AttrRaises e =>
                  say ErrorAccessingFunction attr_name module_name (str_exc e);
                  out_ret test_methods
              | _ => out_ret test_methods
              end
            else out_ret test_methods)
         (mod_dir module) (out_ret in_classes),
       sys_path')
  | _, _ =>
      (say FailedToImport module_name (default "" error_msg); out_ret [],
       sys_path')
  end.

(** ** Running one test method *)

(** The [unittest.TestResult] a suite run fills in, as far as the runner
    reads it: the entries are pairs of a test and its formatted traceback. *)
Record FrameworkResult := mkFrameworkResult {
  fr_failures : list (string * string);
  fr_errors : list (string * string);
  fr_unexpectedSuccesses : list string
}.

(** [unittest.TestResult.wasSuccessful]: no failure, no error and no
    unexpected success. *)
Definition wasSuccessful (r : FrameworkResult) : bool :=
  Nat.eqb (length (fr_failures r)) (length (fr_errors r))
  && Nat.eqb (length (fr_errors r)) 0
  && Nat.eqb (length (fr_unexpectedSuccesses r)) 0.

(** Building the single-method suite and running it: looking the class or
    the function up in the module, instantiating the class on the method
    name, [suite.run].  Either step may raise.  The code of the test is
    taken to leave [sys.path] alone: what it would do to it is not
    followed. *)
Record Runner := mkRunner {
  run_class_method : Module -> string -> string -> result FrameworkResult;
  run_function : Module -> string -> result FrameworkResult;
  format_exc : PyExc -> string  (* traceback.format_exc() *)
}.

(** The status and the diagnostics [run_single_test_method] reads off the
    framework result. *)
Definition method_result_of (test_method : TestMethod) (duration : Q)
    (result : FrameworkResult) : MethodResult :=
  if wasSuccessful result then
    {| method := test_method; status := "pass"; mr_duration := duration;
       error := None; traceback_str := None |}
  else
    match fr_failures result with
    | failure :: _ =>
        {| method := test_method; status := "fail"; mr_duration := duration;
           error := Some (snd failure); traceback_str := Some (snd failure) |}
    | [] =>
        match fr_errors result with
        | error :: _ =>
            {| method := test_method; status := "error";
               mr_duration := duration;
               error := Some (snd error); traceback_str := Some (snd error) |}
        | [] =>
            {| method := test_method; status := "error";
               mr_duration := duration;
               error := Some "Unknown test result state";
               traceback_str := None |}
        end
    end.

(** [run_single_test_method]; [t0] and [t1] are the two readings of the
    clock, on entry and on the way out. *)
Definition run_single_test_method (fs : FileSystem) (ld : Loader)
    (rn : Runner) (t0 t1 : Q) (test_method : TestMethod)
    (sys_path : list string) : MethodResult * list string :=
  let duration := (t1 - t0)%Q in
  let '((module, success, error_msg), sys_path') :=
    safe_import_module fs ld (tm_module test_method)
      (tm_file_path test_method) sys_path in
  match success, module with
  | true, Some module =>
      let ran :=
        if opt_str_truthy (tm_class_name test_method) then
          run_class_method rn module (default "" (tm_class_name test_method))
            (tm_name test_method)
        else run_function rn module (tm_name test_method) in
      match ran with
      | inr result => (method_result_of test_method duration result, sys_path')
      | inl e =>
          ({| method := test_method; status := "error";
              mr_duration := duration;
              error := Some (str_exc e);
              traceback_str := Some (format_exc rn e) |}, sys_path')
      end
  | _, _ =>
      ({| method := test_method; status := "error"; mr_duration := duration;
          error := Some ("Failed to import module: " +:+ default "None" error_msg);
          traceback_str := None |}, sys_path')
  end.

(** ** Command line and exit status *)

Inductive Action := Help | Lint | Check | Test.

Record ParsedArgs := mkParsedArgs {
  action : Action;
  pa_test_type : option string;
  pa_modules : option (list string);
  pa_group : option string
}.

(** [parse_arguments] (the description of the command is left out). *)
Definition parse_arguments (args : list string) (config : Config) : ParsedArgs :=
  match args with
  | [] => mkParsedArgs Test None None None
  | [command] =>
      if bool_decide (command ∈ ["help"; "--help"; "-h"]) then
        mkParsedArgs Help None None None
      else if String.eqb command "lint" then mkParsedArgs Lint None None None
      else if String.eqb command "check" then mkParsedArgs Check None None None
      else if bool_decide (command ∈ get_test_types config) then
        mkParsedArgs Test (Some command) None None
      else if bool_decide (is_Some (test_groups config !! command)) then
        mkParsedArgs Test None None (Some command)
      else mkParsedArgs Test None (Some [command]) None
  | _ => mkParsedArgs Test None (Some args) None
  end.

(** [report_lint_results], by which of its three messages it prints: the
    count -1 stands for an error (its docstring: "-1 if error occurred"). *)
Inductive LintReport :=
  | LintingFailedDueToError
  | NoStyleViolationsFound
  | FoundStyleViolations (violation_count : Z).

Definition report_lint_results (violation_count : Z) : LintReport :=
  if violation_count =? -1 then LintingFailedDueToError
  else if violation_count =? 0 then NoStyleViolationsFound
  else FoundStyleViolations violation_count.

(** The sub-activities [main] starts and whose outcome it reads. *)
Record Activities := mkActivities {
  run_lint : Z;
    (* -1 without flake8 or on an error, else the number of violations *)
  discover_test_methods : list string -> list (string * list TestMethod);
  run_tests : list (string * list TestMethod) -> TestResult
}.

(** The first steps of [main]: the configuration, the parsed arguments, the
    files discovered for them, and the count of the methods found. *)
Definition main_config (fs : FileSystem) (json_load : JsonDecoder) : Config :=
  fst (load_config fs json_load "testrules.json").

Definition main_parsed_args (fs : FileSystem) (json_load : JsonDecoder)
    (args : list string) : ParsedArgs :=
  parse_arguments args (main_config fs json_load).

Definition main_discovered_files (fs : FileSystem) (json_load : JsonDecoder)
    (args : list string) : list string :=
  let parsed_args := main_parsed_args fs json_load args in
  fst (discover_tests fs (pa_test_type parsed_args) (pa_modules parsed_args)
         (pa_group parsed_args) (Some (main_config fs json_load)) ".").

Definition total_methods (test_methods_by_module : list (string * list TestMethod))
    : Z :=
  fold_left (fun n methods => n + Z.of_nat (length methods.2))
            test_methods_by_module 0.

(** The exit code [main] returns for the arguments [args] (reports and
    coverage, which do not bear on it, are left out). *)
Definition main (fs : FileSystem) (json_load : JsonDecoder)
    (acts : Activities) (args : list string) : Z :=
  let parsed_args := main_parsed_args fs json_load args in
  match action parsed_args with
  | Help => 0
  | Lint =>
      let violation_count := run_lint acts in
      if 0 <? violation_count then 1 else 0
  | _ =>
      let lint_failed :=
        match action parsed_args with
        | Check => 0 <? run_lint acts
        | _ => false
        end in
      let discovered_files := main_discovered_files fs json_load args in
      if negb (list_truthy discovered_files) then 1
      else
        let test_methods_by_module :=
          discover_test_methods acts discovered_files in
        if total_methods test_methods_by_module =? 0 then 1
        else
          let test_results := run_tests acts test_methods_by_module in
          if (0 <? failed test_results) || (0 <? errors test_results)
             || lint_failed
          then 1 else 0
  end.

(** ** Vocabulary of the properties, and sample projects *)

Definition sample_method : TestMethod :=
  TestMethod_init "test_fail" "test_with_failures" (Some "TestWithFailures")
    (Some "./test_with_failures.py").

Definition sample_results : list MethodResult :=
  [ mkMethodResult sample_method "pass" 0%Q None None;
    mkMethodResult sample_method "fail" 0%Q (Some "1 != 3") (Some "Traceback");
    mkMethodResult sample_method "error" 0%Q (Some "boom") (Some "Traceback");
    mkMethodResult sample_method "pass" 0%Q None None ].

(** The single-method suite of [test_method] was built and run, and
    [result] is the framework result of that run. *)
Definition suite_result (fs : FileSystem) (ld : Loader) (rn : Runner)
    (test_method : TestMethod) (sys_path : list string)
    (result : FrameworkResult) : Prop :=
  exists module msg sys_path',
    safe_import_module fs ld (tm_module test_method)
      (tm_file_path test_method) sys_path
    = ((Some module, true, msg), sys_path') /\
    (if opt_str_truthy (tm_class_name test_method) then
       run_class_method rn module (default "" (tm_class_name test_method))
         (tm_name test_method)
     else run_function rn module (tm_name test_method)) = inr result.

(** A small project to run the functions on: two test files in the working
    directory [/work], and a [test_deep.py] in each of two directories below
    it; no [testrules.json]. *)
Definition sample_fs : FileSystem :=
  {| path_exists := fun p =>
       bool_decide (p ∈ ["test_clean.py"; "./test_clean.py";
                         "test_with_failures.py"; "./test_with_failures.py";
                         "./pkg/test_deep.py"; "./lib/test_deep.py"]);
     glob_recursive := fun p =>
       if bool_decide (p = "./**/test_*.py")
       then ["./test_with_failures.py"; "./pkg/test_deep.py";
             "./test_clean.py"; "./lib/test_deep.py"]
       else if bool_decide (p = "./**/test_clean.py") then ["./test_clean.py"]
       else if bool_decide (p = "./**/test_with_failures.py")
       then ["./test_with_failures.py"]
       else if bool_decide (p = "./**/test_deep.py")
       then ["./pkg/test_deep.py"; "./lib/test_deep.py"]
       else [];
     read_text := fun p => inl (OSError ("No such file: " +:+ p)) |}.

Definition sample_module : Module :=
  {| mod_dir :=
       [ ("TestWithFailures",
          TestCaseClass [ ("setUp", MemberCallable);
                          ("test_fail", MemberCallable);
                          ("test_teardown", MemberCallable) ]);
         ("helper", Function);
         ("test_standalone", Function) ] |}.

Definition sample_loader : Loader :=
  {| spec_from_file_location := fun _ _ => true;
     module_dir_of := fun _ => "/work";
     exec_module := fun _ _ sys_path => (inr sample_module, sys_path);
     import_module := fun name sys_path =>
       (inl (ImportError ("No module named " +:+ name)), sys_path) |}.

(** [test_fail] fails an assertion; [test_teardown] fails one and then
    raises in [tearDown]. *)
Definition failed_only : FrameworkResult :=
  {| fr_failures := [("test_fail", "AssertionError: 2 != 3")];
     fr_errors := [];
     fr_unexpectedSuccesses := [] |}.

Definition failed_and_errored : FrameworkResult :=
  {| fr_failures := [("test_teardown", "AssertionError: 2 != 3")];
     fr_errors := [("test_teardown", "RuntimeError: tearDown")];
     fr_unexpectedSuccesses := [] |}.

Definition sample_runner : Runner :=
  {| run_class_method := fun _ _ name =>
       if String.eqb name "test_fail" then inr failed_only
       else if String.eqb name "test_teardown" then inr failed_and_errored
       else inl (ValueError ("no such test method: " +:+ name));
     run_function := fun _ _ =>
       inr (mkFrameworkResult [] [] []);
     format_exc := fun e => "Traceback (most recent call last): " +:+ str_exc e |}.

Definition sample_teardown_method : TestMethod :=
  TestMethod_init "test_teardown" "test_with_failures" (Some "TestWithFailures")
    (Some "./test_with_failures.py").

(** A list is in normal form when it came out of [sorted(list(set(_)))]. *)
Definition normal_form (l : list string) : Prop :=
  exists xs, l = sorted_set xs.

(** A configuration with the group [core] and a group whose name is the
    empty string, both holding the one module [test_clean]. *)
Definition sample_config : Config :=
  Config_of_data
    {| cd_test_patterns := None;
       cd_test_groups :=
         Some (<["core" := ["test_clean"] ]> (<["" := ["test_clean"] ]> ∅));
       cd_coverage_enabled := None; cd_html_coverage := None;
       cd_html_coverage_dir := None; cd_other_keys := [] |}.

(** Strategy 1 as a first hit over the candidates.  What a candidate hits
    follows the test the code makes on it: a candidate that contains [**]
    is a glob pattern and hits with the files it matches, any other
    candidate hits with itself when it exists.  A name yields the hit of
    its first candidate that hits; a name none of whose candidates hits is
    warned about. *)
Definition candidate_hit (fs : FileSystem) (path : string) : list string :=
  if str_contains "**" path then glob_recursive fs path
  else if path_exists fs path then [path]
  else [].

Fixpoint first_hit (fs : FileSystem) (candidates : list string) : list string :=
  match candidates with
  | [] => []
  | path :: rest =>
      match candidate_hit fs path with
      | [] => first_hit fs rest
      | hit => hit
      end
  end.

Definition spec_module_files (fs : FileSystem) (search_path module_name : string)
    : list string :=
  first_hit fs (possible_paths module_name search_path).

Definition spec_module_missing (fs : FileSystem) (search_path module_name : string)
    : bool :=
  negb (list_truthy (spec_module_files fs search_path module_name)).

Definition spec_discover_modules (fs : FileSystem) (module_names : list string)
    (search_path : string) : Out (list string) :=
  (sorted_set (concat (map (spec_module_files fs search_path) module_names)),
   map ModuleFileNotFound
       (List.filter (spec_module_missing fs search_path) module_names)).

(** Strategy 1 in the words of the specification: the first candidate and
    the second are paths, tested for existence, and the third is the
    recursive glob, whatever the name looks like. *)
Definition literal_module_files (fs : FileSystem)
    (search_path module_name : string) : list string :=
  if path_exists fs (module_name +:+ ".py")
  then [module_name +:+ ".py"]
  else if path_exists fs (path_join search_path [module_name +:+ ".py"])
  then [path_join search_path [module_name +:+ ".py"]]
  else glob_recursive fs (path_join search_path ["**"; module_name +:+ ".py"]).

Definition literal_module_missing (fs : FileSystem)
    (search_path module_name : string) : bool :=
  negb (list_truthy (literal_module_files fs search_path module_name)).

(** A module name that holds no [**] and is not an absolute path. *)
Definition plain_module_name (module_name : string) : Prop :=
  str_contains "**" module_name = false /\
  startswith module_name "/" = false.

(** A directory with [test_a.py] and [test_b.py], and [test_x.py] in the
    directory [sub]; no file has a star in its name. *)
Definition star_fs : FileSystem :=
  {| path_exists := fun p =>
       bool_decide (p ∈ ["test_a.py"; "./test_a.py"; "test_b.py";
                         "./test_b.py"; "./sub/test_x.py"]);
     glob_recursive := fun p =>
       if bool_decide (p = "test_**.py") then ["test_a.py"; "test_b.py"]
       else if bool_decide (p = "./**/test_**.py")
       then ["./test_a.py"; "./test_b.py"; "./sub/test_x.py"]
       else [];
     read_text := fun p => inl (OSError ("No such file: " +:+ p)) |}.

(** The code of the module (run by [exec_module] from a file, by
    [import_module] otherwise) hands [sys.path] back as it got it. *)
Definition load_keeps_sys_path (ld : Loader) (module_name : string)
    (file_path : option string) : Prop :=
  (forall q, (exec_module ld module_name (default "" file_path) q).2 = q) /\
  (forall q, (import_module ld module_name q).2 = q).

(** What a load that returned or raised comes to: the module with the
    success flag, or the message of the handler that takes the
    exception. *)
Definition import_outcome (module_name : string) (r : result Module)
    : import_triple :=
  match r with
  | inr module => (Some module, true, None)
  | inl (ImportError m) => (None, false, Some ("ImportError: " +:+ m))
  | inl (SyntaxError m) =>
      (None, false, Some ("SyntaxError in " +:+ module_name +:+ ": " +:+ m))
  | inl e =>
      (None, false,
       Some ("Unexpected error importing " +:+ module_name +:+ ": "
             +:+ str_exc e))
  end.

(** A loader whose module takes the directory of its file off [sys.path]
    again. *)
Definition tidying_loader : Loader :=
  {| spec_from_file_location := fun _ _ => true;
     module_dir_of := fun _ => "/work";
     exec_module := fun _ _ sys_path =>
       (inr (mkModule [("test_tidy", Function)]),
        default sys_path (py_list_remove "/work" sys_path));
     import_module := fun name sys_path =>
       (inl (ImportError ("No module named " +:+ name)), sys_path) |}.

(** The entries of [sys.path] other than [module_dir], in their order. *)
Definition other_entries (module_dir : string) (sys_path : list string)
    : list string :=
  List.filter (fun entry => negb (String.eqb entry module_dir)) sys_path.

(** A loader whose module imports a helper that lies beside it: executing
    it succeeds only with the directory of the file on [sys.path]. *)
Definition sibling_loader : Loader :=
  {| spec_from_file_location := fun _ _ => true;
     module_dir_of := fun _ => "/work";
     exec_module := fun _ _ sys_path =>
       if bool_decide ("/work" ∈ sys_path)
       then (inr (mkModule [("test_helper", Function)]), sys_path)
       else (inl (ImportError "No module named 'helpers'"), sys_path);
     import_module := fun name sys_path =>
       (inl (ImportError ("No module named " +:+ name)), sys_path) |}.

(** A loader whose module raises while it is executed. *)
Definition failing_loader : Loader :=
  {| spec_from_file_location := fun _ _ => true;
     module_dir_of := fun _ => "/work";
     exec_module := fun _ _ sys_path =>
       (inl (SyntaxError "invalid syntax (line 3)"), sys_path);
     import_module := fun name sys_path =>
       (inl (ImportError ("No module named " +:+ name)), sys_path) |}.

(** The tests of the example project start with
    [sys.path.insert(0, os.path.join(os.path.dirname(__file__), '..', 'src'))]:
    loading one leaves that entry behind. *)
Definition example_fs : FileSystem :=
  {| path_exists := fun p =>
       bool_decide (p = "./example-project/tests/test_utils.py");
     glob_recursive := fun _ => [];
     read_text := fun p => inl (OSError ("No such file: " +:+ p)) |}.

Definition example_loader : Loader :=
  {| spec_from_file_location := fun _ _ => true;
     module_dir_of := fun _ => "/work/example-project/tests";
     exec_module := fun _ _ sys_path =>
       (inr (mkModule [("TestUtils", TestCaseClass [("test_slugify", MemberCallable)])]),
        "./example-project/tests/../src" :: sys_path);
     import_module := fun name sys_path =>
       (inl (ImportError ("No module named " +:+ name)), sys_path) |}.

Definition config_file_missing (fs : FileSystem) (config_file : string) : Prop :=
  path_exists fs config_file = false.

Definition config_file_unreadable (fs : FileSystem) (config_file : string)
    : Prop :=
  path_exists fs config_file = true /\
  exists e, read_text fs config_file = inl e.

Definition config_file_unparseable (fs : FileSystem) (json_load : JsonDecoder)
    (config_file : string) : Prop :=
  path_exists fs config_file = true /\
  exists text msg,
    read_text fs config_file = inr text /\ json_load text = inl msg.

Definition config_file_holds (fs : FileSystem) (config_file text : string)
    : Prop :=
  path_exists fs config_file = true /\ read_text fs config_file = inr text.

(** Some printed line says that the defaults are in use. *)
Definition warns_of_defaults (out : list event) : Prop :=
  existsb announces_defaults out = true.

(** A directory with an empty [empty.json], a [braces.json] that holds
    [{}], a [list.json] that holds [[1]], a [locked.json] that cannot be
    opened, and no [missing.json]; the decoder knows these texts. *)
Definition config_fs : FileSystem :=
  {| path_exists := fun p =>
       bool_decide (p ∈ ["empty.json"; "braces.json"; "list.json"; "locked.json"]);
     glob_recursive := fun _ => [];
     read_text := fun p =>
       if bool_decide (p = "empty.json") then inr ""
       else if bool_decide (p = "braces.json") then inr "{}"
       else if bool_decide (p = "list.json") then inr "[1]"
       else inl (OSError ("Permission denied: " +:+ p)) |}.

Definition config_decoder : JsonDecoder := fun text =>
  if bool_decide (text = "{}") then inr (DocObject empty_data)
  else if bool_decide (text = "[1]") then inr (DocOther true)
  else inl "Expecting value: line 1 column 1 (char 0)".

(** A run without flake8 ([run_lint] gives -1) in which every file holds
    one test method and every method passes. *)
Definition passing_result (test_method : TestMethod) : MethodResult :=
  mkMethodResult test_method "pass" 0%Q None None.

Definition lint_unavailable : Activities :=
  {| run_lint := -1;
     discover_test_methods := fun files =>
       map (fun file_path =>
              (file_path,
               [TestMethod_init "test_ok" file_path (Some "TestOk") (Some file_path)]))
           files;
     run_tests := fun test_methods_by_module =>
       add_results TestResult_init
         (map passing_result (concat test_methods_by_module.*2)) |}.

(** ** More of the data model and of the configuration *)

(** [TestResult.get_failed_results] *)
Definition get_failed_results (self : TestResult) : list MethodResult :=
  List.filter (fun result => bool_decide (status result ∈ ["fail"; "error"]))
              (method_results self).

(** How many of the results carry the status [st]. *)
Definition count_status (st : string) (results : list MethodResult) : Z :=
  Z.of_nat (length (List.filter (fun result => String.eqb (status result) st)
                                results)).

(** The three counters count the results of their status, whatever
    statuses come in. *)
Definition counters_exact (r : TestResult) : Prop :=
  passed r = count_status "pass" (method_results r) /\
  failed r = count_status "fail" (method_results r) /\
  errors r = count_status "error" (method_results r).

(** [Config.add_custom_test_type]: the assignment goes into the dictionary
    [self.test_patterns]; when the configuration document had a
    [test_patterns] key that dictionary is the document's own, so
    [self.data] shows the new entry too. *)
Definition add_custom_test_type (self : Config) (test_type : string)
    (patterns : list string) : Config :=
  let test_patterns' := <[test_type := patterns]> (test_patterns self) in
  {| data :=
       match cd_test_patterns (data self) with
       | Some _ =>
           {| cd_test_patterns := Some test_patterns';
              cd_test_groups := cd_test_groups (data self);
              cd_coverage_enabled := cd_coverage_enabled (data self);
              cd_html_coverage := cd_html_coverage (data self);
              cd_html_coverage_dir := cd_html_coverage_dir (data self);
              cd_other_keys := cd_other_keys (data self) |}
       | None => data self
       end;
     test_patterns := test_patterns';
     test_groups := test_groups self;
     coverage_enabled := coverage_enabled self;
     html_coverage := html_coverage self;
     html_coverage_dir := html_coverage_dir self |}.

(** [Config.get_all_patterns]: the patterns of all the types, through a
    set. *)
Definition get_all_patterns (self : Config) : list string :=
  let all_patterns :=
    fold_left (fun all_patterns patterns => all_patterns ++ patterns)
              (map_to_list (test_patterns self)).*2 [] in
  elements (list_to_set (C := gset string) all_patterns).

(** The default configuration with the patterns of [unit] in the other
    order and one of them twice. *)
Definition reordered_config : Config :=
  add_custom_test_type Config_default "unit"
    ["*_test.py"; "test_*.py"; "*_test.py"].

(** What one member of a test-case class and one attribute of a module
    contribute to the list [inspect_module_for_tests] returns. *)
Definition member_test_methods (module_name : string)
    (file_path : option string) (class_name : string)
    (entry : string * Member) : list TestMethod :=
  if startswith entry.1 "test" then
    match entry.2 with
    | MemberCallable =>
        [TestMethod_init entry.1 module_name (Some class_name) file_path]
    | _ => []
    end
  else [].

Definition class_attr_test_methods (module_name : string)
    (file_path : option string) (entry : string * Attr) : list TestMethod :=
  match entry.2 with
  | TestCaseClass members =>
      concat (map (member_test_methods module_name file_path entry.1) members)
  | _ => []
  end.

Definition function_attr_test_methods (module_name : string)
    (file_path : option string) (entry : string * Attr) : list TestMethod :=
  if startswith entry.1 "test" then
    match entry.2 with
    | Function => [TestMethod_init entry.1 module_name None file_path]
    | _ => []
    end
  else [].

(** ** Running all the tests *)

Module Engine.

(** [time.time()]: the readings of the clock, in the order of the calls. *)
Definition Clock : Type := nat -> Q.

(** [TestResult.start_timing] *)
Definition start_timing (self : TestResult) (now : Q) : TestResult :=
  {| total := total self; passed := passed self; failed := failed self;
     errors := errors self; method_results := method_results self;
     duration := duration self;
     start_time := Some now; end_time := end_time self |}.

(** [TestResult.stop_timing]: the duration is set when [start_time] is
    truthy, that is set and not zero. *)
Definition stop_timing (self : TestResult) (now : Q) : TestResult :=
  {| total := total self; passed := passed self; failed := failed self;
     errors := errors self; method_results := method_results self;
     duration :=
       match start_time self with
       | Some t0 => if Qeq_bool t0 0 then duration self else (now - t0)%Q
       | None => duration self
       end;
     start_time := start_time self; end_time := Some now |}.

(** The state the loop of [run_tests] carries: the results so far,
    [sys.path], and how many times the clock has been read. *)
Definition RunState : Type := TestResult * list string * nat.

(** One turn of the inner loop of [run_tests]. *)
Definition run_one (fs : FileSystem) (ld : Loader) (rn : Runner)
    (clock : Clock) (st : RunState) (test_method : TestMethod) : RunState :=
  let '(test_result, sys_path, tick) := st in
  let '(method_result, sys_path') :=
    run_single_test_method fs ld rn (clock tick) (clock (S tick))
      test_method sys_path in
  (add_result test_result method_result, sys_path', S (S tick)).

(** [run_tests] (the progress lines are left out): [start_coverage_collection]
    is what starting the coverage backend gives, [None] without a backend. *)
Definition run_tests {Cov : Type} (fs : FileSystem) (ld : Loader)
    (rn : Runner) (clock : Clock)
    (start_coverage_collection : Config -> option Cov)
    (test_methods_by_module : list (string * list TestMethod))
    (collect_coverage : bool) (config : option Config)
    (sys_path : list string) : (TestResult * option Cov) * list string :=
  let test_result := start_timing TestResult_init (clock 0%nat) in
  let cov :=
    if collect_coverage
    then start_coverage_collection (default Config_default config)
    else None in
  let '(test_result, sys_path', tick) :=
    fold_left
      (fun st '(module_name, test_methods) =>
         fold_left (run_one fs ld rn clock) test_methods st)
      test_methods_by_module (test_result, sys_path, 1%nat) in
  let test_result := stop_timing test_result (clock tick) in
  ((test_result, cov), sys_path').

End Engine.

(** A clock that advances by one between readings, and a run of the
    sample project with it and without a coverage backend. *)
Definition ticking_clock : Engine.Clock := fun n => inject_Z (Z.of_nat n).

Definition no_coverage : Config -> option unit := fun _ => None.


(** The sub-activities of [main] with [run_tests] in their midst. *)
Definition engine_activities {Cov : Type} (fs : FileSystem) (ld : Loader)
    (rn : Runner) (clock : Engine.Clock)
    (start_coverage_collection : Config -> option Cov)
    (json_load : JsonDecoder) (sys_path : list string)
    (lint : Z)
    (methods_of : list string -> list (string * list TestMethod))
    : Activities :=
  {| run_lint := lint;
     discover_test_methods := methods_of;
     run_tests := fun test_methods_by_module =>
       (Engine.run_tests fs ld rn clock start_coverage_collection
          test_methods_by_module
          (coverage_enabled (main_config fs json_load))
          (Some (main_config fs json_load)) sys_path).1.1 |}.

(** The words [parse_arguments] takes for itself. *)
Definition reserved_command (command : string) : bool :=
  bool_decide (command ∈ ["help"; "--help"; "-h"; "lint"; "check"]).

(** How many of the three selectors of a parsed command line are set. *)
Definition selectors_set (p : ParsedArgs) : nat :=
  (match pa_test_type p with Some _ => 1 | None => 0 end)
  + (match pa_modules p with Some _ => 1 | None => 0 end)
  + (match pa_group p with Some _ => 1 | None => 0 end).

Definition clean_methods_of (files : list string)
    : list (string * list TestMethod) :=
  [ ("test_clean",
     [TestMethod_init "test_standalone" "test_clean" None (Some "./test_clean.py")]) ].

(** ** The missing lines of the coverage report *)

(** One turn of the loop of [generate_coverage_report] that groups the
    sorted missing lines: the state is the open range and the ranges
    closed so far. *)
Definition range_step (st : Z * Z * list (Z * Z)) (line : Z)
    : Z * Z * list (Z * Z) :=
  let '(start, end_, ranges) := st in
  if line =? end_ + 1 then (start, line, ranges)
  else (line, line, ranges ++ [(start, end_)]).

(** The ranges of consecutive lines of a list of lines. *)
Definition line_ranges (missing_lines : list Z) : list (Z * Z) :=
  match missing_lines with
  | [] => []
  | first :: rest =>
      let '(start, end_, ranges) := fold_left range_step rest (first, first, []) in
      ranges ++ [(start, end_)]
  end.

(** How a range is written: [str(start)], or [f"{start}-{end}"]. *)
Definition range_text (str_int : Z -> string) (range : Z * Z) : string :=
  if range.1 =? range.2 then str_int range.1
  else str_int range.1 +:+ "-" +:+ str_int range.2.

(** The texts after "Missing:" for a file, shown when the file has
    missing lines and at most ten of them; [str_int] is [str] on
    integers. *)
Definition missing_ranges (str_int : Z -> string) (missing_list : list Z)
    : option (list string) :=
  let missing := Z.of_nat (length missing_list) in
  if (0 <? missing) && (Z.of_nat (length missing_list) <=? 10) then
    let missing_lines := merge_sort Z.le missing_list in
    Some (map (range_text str_int) (line_ranges missing_lines))
  else None.

(** The lines a range stands for. *)
Definition range_lines (range : Z * Z) : list Z :=
  seqZ range.1 (range.2 - range.1 + 1).

(** Two ranges one after the other that could not be one. *)
Definition ranges_apart (r1 r2 : Z * Z) : Prop := r2.1 <> r1.2 + 1.

(** Two ranges one after the other with at least one line between them. *)
Definition ranges_gap (r1 r2 : Z * Z) : Prop := r1.2 + 1 < r2.1.

(** ** Linting *)

(** A directory as [os.walk] lists it: the names of its files and its
    subdirectories, each with what it holds. *)
#[warnings="-register-all"]
Inductive Dir :=
  | mkDir (dir_files : list string) (dir_dirs : list (string * Dir)).

(** The style-check backend and the directory trees [os.walk] finds. *)
Record LintBackend := mkLintBackend {
  flake8_available : bool;                      (* FLAKE8_AVAILABLE *)
  get_style_guide : option PyExc;               (* what it raises, if it does *)
  tree_at : string -> option Dir;               (* None: nothing to walk *)
  check_files : list string -> result (list string * list string * list string)
    (* the statistics for E, W and F of the report *)
}.

(** The directory names [run_lint] does not descend into. *)
Definition skipped_dirs : list string :=
  [".git"; "__pycache__"; ".pytest_cache"; "htmlcov"; ".coverage"; "venv";
   "env"; ".venv"; ".env"].

Definition skipped_dir (d : string) : bool := bool_decide (d ∈ skipped_dirs).

(** The loop over [os.walk(search_path)] in [run_lint]: the Python files
    of [root], then those of the subdirectories that are left after the
    skipped ones are taken out of [dirs]. *)
Fixpoint walk_python_files (root : string) (tree : Dir) : list string :=
  match tree with
  | mkDir files dirs =>
      map (fun file => path_join root [file])
          (List.filter (fun file => endswith file ".py") files)
      ++ concat
           (map (fun entry =>
                   let '(d, sub) := entry in
                   if skipped_dir d then []
                   else walk_python_files (path_join root [d]) sub)
                dirs)
  end.

Module Lint.

(** The files [run_lint] hands to the backend. *)
Definition python_files (fs : FileSystem) (lb : LintBackend)
    (search_path : string) (specific_files : option (list string))
    : list string :=
  if opt_list_truthy specific_files then
    List.filter (fun f => endswith f ".py" && path_exists fs f)
                (default [] specific_files)
  else
    match tree_at lb search_path with
    | Some tree => walk_python_files search_path tree
    | None => []
    end.

(** [run_lint] *)
Definition run_lint (fs : FileSystem) (lb : LintBackend)
    (search_path : string) (specific_files : option (list string)) : Z :=
  if negb (flake8_available lb) then -1
  else
    match get_style_guide lb with
    | Some e => -1
    | None =>
        let python_files := python_files fs lb search_path specific_files in
        if negb (list_truthy python_files) then 0
        else
          match check_files lb python_files with
          | inl e => -1
          | inr (error_stats, warning_stats, flake_stats) =>
              Z.of_nat (length error_stats) + Z.of_nat (length warning_stats)
              + Z.of_nat (length flake_stats)
          end
    end.

End Lint.

(** The file named [file] lies in [tree], rooted at [root], below the
    directories [via], and [path] is its path as [os.walk] builds it. *)
Inductive reaches : string -> Dir -> list string -> string -> string -> Prop :=
  | reaches_here root files dirs file :
      file ∈ files ->
      reaches root (mkDir files dirs) [] file (path_join root [file])
  | reaches_below root files dirs d sub via file path :
      (d, sub) ∈ dirs ->
      reaches (path_join root [d]) sub via file path ->
      reaches root (mkDir files dirs) (d :: via) file path.

(** A project tree: the runner and a readme at the top, one package with a
    byte-code cache, a repository directory and a virtual environment. *)
Definition sample_tree : Dir :=
  mkDir ["testrules.py"; "README.md"]
    [ ("pkg", mkDir ["a.py"; "a.pyc"]
                [("__pycache__", mkDir ["a.cpython.py"] [])]);
      (".git", mkDir ["hook.py"] []);
      ("venv", mkDir [] [("lib", mkDir ["site.py"] [])]) ].

Definition sample_lint_backend : LintBackend :=
  {| flake8_available := true;
     get_style_guide := None;
     tree_at := fun p => if String.eqb p "." then Some sample_tree else None;
     check_files := fun files => inr (["E501"], [], []) |}.

(** ** From files to test methods *)

(** [s.replace(old, new)] for an [old] that is not empty: the occurrences
    of [old] from left to right, none overlapping another; [skip] counts
    the characters of an occurrence still to pass over. *)
Fixpoint py_replace_from (old new : string) (skip : nat) (s : string) : string :=
  match s with
  | EmptyString => EmptyString
  | String c rest =>
      match skip with
      | S k => py_replace_from old new k rest
      | O =>
          if String.prefix old s
          then new +:+ py_replace_from old new (String.length old - 1) rest
          else String c (py_replace_from old new 0 rest)
      end
  end.

Definition py_replace (old new s : string) : string :=
  py_replace_from old new 0 s.

(** [while s.startswith('.'): s = s[1:]] *)
Fixpoint strip_leading_dots (s : string) : string :=
  match s with
  | EmptyString => EmptyString
  | String c rest =>
      if Ascii.eqb c "." then strip_leading_dots rest else s
  end.

(** [s[2:]] *)
Definition drop2 (s : string) : string :=
  String.substring 2 (String.length s - 2) s.

(** The module name [discover_test_methods] makes of a file path;
    [normpath] is [os.path.normpath]. *)
Definition module_name_of (normpath : string -> string) (file_path : string)
    : string :=
  let normalized_path := normpath file_path in
  let normalized_path :=
    if startswith normalized_path "./" then drop2 normalized_path
    else normalized_path in
  let module_name :=
    py_replace ".py" ""
      (py_replace "\" "." (py_replace "/" "." normalized_path)) in
  strip_leading_dots module_name.

(** [d[k] = v] on a dictionary kept in insertion order: a key that is
    there keeps its place and takes the new value, a new key goes last. *)
Fixpoint dict_set {V : Type} (k : string) (v : V) (d : list (string * V))
    : list (string * V) :=
  match d with
  | [] => [(k, v)]
  | (k', v') :: rest =>
      if String.eqb k' k then (k, v) :: rest
      else (k', v') :: dict_set k v rest
  end.

Module Inspector.

(** One turn of the loop of [discover_test_methods]: the state is the
    dictionary so far and [sys.path]. *)
Definition inspect_file (fs : FileSystem) (ld : Loader)
    (normpath : string -> string)
    (st : list (string * list TestMethod) * list string) (file_path : string)
    : list (string * list TestMethod) * list string :=
  let '(test_methods_by_module, sys_path) := st in
  let module_name := module_name_of normpath file_path in
  if negb (path_exists fs file_path) then (test_methods_by_module, sys_path)
  else
    let '(found, sys_path') :=
      inspect_module_for_tests fs ld module_name (Some file_path) sys_path in
    let test_methods := found.1 in
    if list_truthy test_methods
    then (dict_set module_name test_methods test_methods_by_module, sys_path')
    else (test_methods_by_module, sys_path').

(** [discover_test_methods] (the progress lines and the summary are left
    out): the dictionary from module names to their test methods, and
    [sys.path] afterwards. *)
Definition discover_test_methods (fs : FileSystem) (ld : Loader)
    (normpath : string -> string) (test_files : list string)
    (sys_path : list string)
    : list (string * list TestMethod) * list string :=
  fold_left (inspect_file fs ld normpath) test_files ([], sys_path).

End Inspector.

(** What the loop of [discover_test_methods] keeps: no module name twice,
    no module without a test method, and only modules of files that are
    there. *)
Definition methods_dict_ok (fs : FileSystem) (normpath : string -> string)
    (test_files : list string) (d : list (string * list TestMethod)) : Prop :=
  NoDup d.*1 /\
  Forall (fun entry =>
            entry.2 <> [] /\
            exists file_path,
              file_path ∈ test_files /\ path_exists fs file_path = true /\
              entry.1 = module_name_of normpath file_path /\
              Forall (fun tm => tm_module tm = entry.1
                                /\ tm_file_path tm = Some file_path) entry.2) d.

(** * Properties *)

(** ** The counters of a [TestResult] *)

Section Counters.

Lemma counters_consistent_init : counters_consistent TestResult_init.
Proof. split; reflexivity. Qed.

Lemma add_result_length (r : TestResult) (m : MethodResult) :
  List.length (method_results (add_result r m))
  = S (List.length (method_results r)).
Proof.
  unfold add_result.
  repeat case_match; simpl; rewrite length_app; simpl; lia.
Qed.

Lemma add_result_total (r : TestResult) (m : MethodResult) :
  total (add_result r m) = total r + 1.
Proof. unfold add_result. repeat case_match; reflexivity. Qed.

(** One call keeps the counters in step with the list, as long as the
    status is one that has a counter. *)
Lemma add_result_consistent (r : TestResult) (m : MethodResult) :
  counters_consistent r ->
  valid_status (status m) ->
  counters_consistent (add_result r m).
Proof.
  intros [Htot Hlen] Hst.
  split.
  - rewrite add_result_total, Htot.
    unfold add_result.
    destruct Hst as [-> | [-> | ->]]; simpl; lia.
  - rewrite add_result_length, Nat2Z.inj_succ, <- Hlen.
    unfold add_result.
    destruct Hst as [-> | [-> | ->]]; simpl; lia.
Qed.

Lemma add_results_snoc (r : TestResult) (ms : list MethodResult)
    (m : MethodResult) :
  add_results r (ms ++ [m]) = add_result (add_results r ms) m.
Proof. unfold add_results. rewrite fold_left_app. reflexivity. Qed.

Lemma add_results_consistent (r : TestResult) (ms : list MethodResult) :
  counters_consistent r ->
  Forall (fun m => valid_status (status m)) ms ->
  counters_consistent (add_results r ms).
Proof.
  intros Hr.
  induction ms as [| m ms IH] using rev_ind; intros Hall.
  - exact Hr.
  - apply Forall_app in Hall as [Hms Hm].
    rewrite add_results_snoc.
    apply add_result_consistent; [ auto | ].
    inversion Hm; assumption.
Qed.

End Counters.

(** C2: for a [TestResult] whose counters agree with its list (a fresh one
    does) and a sequence of [add_result] calls whose statuses are all among
    pass, fail and error, after each call of the sequence
    [total == passed + failed + errors == len(method_results)]. *)
Theorem add_result_counters_invariant (r0 : TestResult)
    (ms : list MethodResult) :
  counters_consistent TestResult_init /\
  (counters_consistent r0 ->
   Forall (fun m => valid_status (status m)) ms ->
   forall k : nat,
     let r := add_results r0 (take k ms) in
     total r = passed r + failed r + errors r /\
     passed r + failed r + errors r
     = Z.of_nat (List.length (method_results r))).
Proof.
  split; [ apply counters_consistent_init | ].
  intros Hr0 Hall k.
  apply add_results_consistent; [ exact Hr0 | ].
  apply Forall_take, Hall.
Qed.

Lemma sample_results_valid :
  Forall (fun m => valid_status (status m)) sample_results.
Proof.
  unfold sample_results, valid_status.
  repeat (apply List.Forall_cons; [ simpl; tauto | ]).
  apply List.Forall_nil.
Defined.

Lemma add_result_counters_invariant_witness :
  let r := add_results TestResult_init (take 4 sample_results) in
  Forall (fun m => valid_status (status m)) sample_results /\
  (total r, passed r, failed r, errors r) = (4, 2, 1, 1) /\
  total r = passed r + failed r + errors r /\
  passed r + failed r + errors r = Z.of_nat (List.length (method_results r)).
Proof.
  split; [ | split ].
  - apply sample_results_valid.
  - reflexivity.
  - destruct (add_result_counters_invariant TestResult_init sample_results)
      as [Hinit Hsteps].
    exact (Hsteps Hinit sample_results_valid 4%nat).
Defined.

(** ** From the framework result to the method result *)

Section MethodResults.

Context (fs : FileSystem) (ld : Loader) (rn : Runner) (t0 t1 : Q).

Lemma run_single_test_method_of_result (tm : TestMethod)
    (sys_path : list string) (r : FrameworkResult) :
  suite_result fs ld rn tm sys_path r ->
  (run_single_test_method fs ld rn t0 t1 tm sys_path).1
  = method_result_of tm (t1 - t0)%Q r.
Proof.
  intros (module & msg & sys_path' & Himp & Hran).
  unfold run_single_test_method.
  rewrite Himp. simpl. rewrite Hran. reflexivity.
Qed.

Lemma wasSuccessful_true (r : FrameworkResult) :
  wasSuccessful r = true <->
  fr_failures r = [] /\ fr_errors r = [] /\ fr_unexpectedSuccesses r = [].
Proof.
  unfold wasSuccessful.
  destruct (fr_failures r), (fr_errors r), (fr_unexpectedSuccesses r);
    simpl; split; try (intros (? & ? & ?)); try discriminate; auto.
  all: rewrite ?andb_false_r; discriminate.
Qed.

Lemma method_result_of_pass_iff (tm : TestMethod) (d : Q)
    (r : FrameworkResult) :
  status (method_result_of tm d r) = "pass" <-> wasSuccessful r = true.
Proof.
  unfold method_result_of.
  destruct (wasSuccessful r); simpl; [ tauto | ].
  destruct (fr_failures r); [ destruct (fr_errors r) | ]; simpl;
    split; discriminate.
Qed.

(** Whatever branch produced it, a method result has status pass exactly
    when it carries neither an error text nor a traceback. *)
Lemma method_result_of_pass_absent (tm : TestMethod) (d : Q)
    (r : FrameworkResult) :
  let m := method_result_of tm d r in
  status m = "pass" <-> error m = None /\ traceback_str m = None.
Proof.
  unfold method_result_of.
  destruct (wasSuccessful r); simpl; [ tauto | ].
  destruct (fr_failures r); [ destruct (fr_errors r) | ]; simpl;
    split; try discriminate; intros [? ?]; discriminate.
Qed.

End MethodResults.

(** C1: when the single-method suite ran and gave a framework result,
    [run_single_test_method] returns pass without error or traceback if the
    result was successful; else fail with the text of the first failure
    entry if there is one; else error with the text of the first error
    entry if there is one; else error with "Unknown test result state". *)
Theorem run_single_test_method_maps_result (fs : FileSystem) (ld : Loader)
    (rn : Runner) (t0 t1 : Q) (tm : TestMethod) (sys_path : list string)
    (r : FrameworkResult) :
  suite_result fs ld rn tm sys_path r ->
  let m := (run_single_test_method fs ld rn t0 t1 tm sys_path).1 in
  (wasSuccessful r = true ->
     status m = "pass" /\ error m = None /\ traceback_str m = None) /\
  (wasSuccessful r = false -> forall failure,
     head (fr_failures r) = Some failure ->
     status m = "fail" /\ error m = Some failure.2
     /\ traceback_str m = Some failure.2) /\
  (wasSuccessful r = false -> fr_failures r = [] -> forall err,
     head (fr_errors r) = Some err ->
     status m = "error" /\ error m = Some err.2
     /\ traceback_str m = Some err.2) /\
  (wasSuccessful r = false -> fr_failures r = [] -> fr_errors r = [] ->
     status m = "error" /\ error m = Some "Unknown test result state").
Proof.
  intros Hrun m. subst m.
  rewrite (run_single_test_method_of_result fs ld rn t0 t1 tm sys_path r Hrun).
  unfold method_result_of.
  split; [ | split; [ | split ] ]; intros Hs; rewrite Hs; simpl.
  - auto.
  - intros failure Hf. destruct (fr_failures r); inversion Hf; subst.
    auto.
  - intros Hnil err He. rewrite Hnil.
    destruct (fr_errors r); inversion He; subst. auto.
  - intros Hnil Hnil'. rewrite Hnil, Hnil'. auto.
Qed.

(** C8: every method result [run_single_test_method] returns (after a
    failed import, after an exception on the way, or from a framework
    result) has status pass iff its error and its traceback are both
    absent. *)
Theorem run_single_test_method_pass_iff_no_diagnostic (fs : FileSystem)
    (ld : Loader) (rn : Runner) (t0 t1 : Q) (tm : TestMethod)
    (sys_path : list string) :
  let m := (run_single_test_method fs ld rn t0 t1 tm sys_path).1 in
  status m = "pass" <-> error m = None /\ traceback_str m = None.
Proof.
  unfold run_single_test_method.
  destruct (safe_import_module fs ld (tm_module tm) (tm_file_path tm) sys_path)
    as [[[module success] error_msg] sys_path'].
  destruct success, module as [module |]; simpl.
  2-4: split; [ discriminate | intros [? ?]; discriminate ].
  destruct (if opt_str_truthy (tm_class_name tm) then _ else _) as [e | r];
    simpl.
  - split; [ discriminate | intros [? ?]; discriminate ].
  - apply method_result_of_pass_absent.
Qed.

(** C10: when the framework result of the run holds both failure entries
    and error entries (and so was not successful), the method result is a
    fail with the text of the first failure entry; the error entries do not
    make it an error. *)
Theorem run_single_test_method_failure_before_error (fs : FileSystem)
    (ld : Loader) (rn : Runner) (t0 t1 : Q) (tm : TestMethod)
    (sys_path : list string) (r : FrameworkResult)
    (failure : string * string) :
  suite_result fs ld rn tm sys_path r ->
  head (fr_failures r) = Some failure ->
  fr_errors r <> [] ->
  let m := (run_single_test_method fs ld rn t0 t1 tm sys_path).1 in
  wasSuccessful r = false /\
  status m = "fail" /\ status m <> "error" /\
  error m = Some failure.2 /\ traceback_str m = Some failure.2.
Proof.
  intros Hrun Hf He m. subst m.
  rewrite (run_single_test_method_of_result fs ld rn t0 t1 tm sys_path r Hrun).
  assert (Hw : wasSuccessful r = false).
  { destruct (wasSuccessful r) eqn:E; [ | reflexivity ].
    apply wasSuccessful_true in E as (Hnil & _ & _).
    rewrite Hnil in Hf. discriminate. }
  unfold method_result_of. rewrite Hw.
  destruct (fr_failures r); inversion Hf; subst; simpl.
  repeat split; auto; discriminate.
Qed.

Lemma sample_method_ran :
  suite_result sample_fs sample_loader sample_runner sample_method
    ["/usr/lib/python3"] failed_only.
Proof. exists sample_module, None, ["/usr/lib/python3"]. split; reflexivity. Defined.

Lemma sample_teardown_method_ran :
  suite_result sample_fs sample_loader sample_runner sample_teardown_method
    ["/usr/lib/python3"] failed_and_errored.
Proof. exists sample_module, None, ["/usr/lib/python3"]. split; reflexivity. Defined.

Lemma run_single_test_method_maps_result_witness :
  let m := (run_single_test_method sample_fs sample_loader sample_runner
              0%Q 1%Q sample_method ["/usr/lib/python3"]).1 in
  suite_result sample_fs sample_loader sample_runner sample_method
    ["/usr/lib/python3"] failed_only /\
  status m = "fail" /\ error m = Some "AssertionError: 2 != 3"
  /\ traceback_str m = Some "AssertionError: 2 != 3".
Proof.
  split; [ exact sample_method_ran | ].
  destruct (run_single_test_method_maps_result sample_fs sample_loader
              sample_runner 0%Q 1%Q sample_method ["/usr/lib/python3"]
              failed_only sample_method_ran) as (_ & Hfail & _).
  exact (Hfail eq_refl ("test_fail", "AssertionError: 2 != 3") eq_refl).
Defined.

Lemma run_single_test_method_failure_before_error_witness :
  let m := (run_single_test_method sample_fs sample_loader sample_runner
              0%Q 1%Q sample_teardown_method ["/usr/lib/python3"]).1 in
  head (fr_failures failed_and_errored)
    = Some ("test_teardown", "AssertionError: 2 != 3") /\
  fr_errors failed_and_errored <> [] /\
  wasSuccessful failed_and_errored = false /\
  status m = "fail" /\ status m <> "error" /\
  error m = Some "AssertionError: 2 != 3" /\
  traceback_str m = Some "AssertionError: 2 != 3".
Proof.
  split; [ reflexivity | ].
  split; [ discriminate | ].
  apply (run_single_test_method_failure_before_error sample_fs sample_loader
           sample_runner 0%Q 1%Q sample_teardown_method ["/usr/lib/python3"]
           failed_and_errored ("test_teardown", "AssertionError: 2 != 3")
           sample_teardown_method_ran eq_refl).
  discriminate.
Defined.

(** ** Discovery returns a sorted list without repetition *)

Section SortedSet.

Lemma sorted_set_NoDup (xs : list string) : NoDup (sorted_set xs).
Proof.
  unfold sorted_set.
  rewrite merge_sort_Permutation.
  apply NoDup_elements.
Qed.

Lemma sorted_set_StronglySorted (xs : list string) :
  StronglySorted String.le (sorted_set xs).
Proof. unfold sorted_set. apply StronglySorted_merge_sort; apply _. Qed.

Lemma elem_of_sorted_set (xs : list string) (x : string) :
  x ∈ sorted_set xs <-> x ∈ xs.
Proof.
  unfold sorted_set.
  rewrite merge_sort_Permutation, elem_of_elements, elem_of_list_to_set.
  reflexivity.
Qed.

(** The order of the sort is the lexicographic order of the strings, byte
    by byte: the empty string is below every string, and two non-empty
    strings compare by their first bytes, then by their tails. *)
Lemma str_le_empty (s : string) : String.le "" s.
Proof. by destruct s. Qed.

Lemma str_le_cons (a b : ascii) (s t : string) :
  String.le (String a s) (String b t) <->
  (N_of_ascii a < N_of_ascii b)%N \/ (a = b /\ String.le s t).
Proof.
  unfold String.le, String.leb.
  cbn [String.compare].
  unfold Ascii.compare.
  destruct (N.compare_spec (N_of_ascii a) (N_of_ascii b)) as [Heq | Hlt | Hgt].
  - assert (a = b) as ->.
    { rewrite <- (ascii_N_embedding a), <- (ascii_N_embedding b).
      by rewrite Heq. }
    split; [ by right | ].
    intros [Hlt | [_ Hle]]; [ lia | exact Hle ].
  - split; [ by left | done ].
  - split; [ done | ].
    intros [Hlt | [-> _]]; lia.
Qed.

Lemma sorted_set_nil : sorted_set [] = [].
Proof. reflexivity. Qed.

Lemma normal_form_nil : normal_form [].
Proof. exists []. reflexivity. Qed.

Lemma normal_form_sorted_set (xs : list string) : normal_form (sorted_set xs).
Proof. exists xs. reflexivity. Qed.

Lemma normal_form_spec (l : list string) :
  normal_form l -> NoDup l /\ StronglySorted String.le l.
Proof.
  intros [xs ->].
  split; [ apply sorted_set_NoDup | apply sorted_set_StronglySorted ].
Qed.

End SortedSet.

Section OutLemmas.

Context {A B : Type}.

Lemma out_bind_fst (m : Out A) (k : A -> Out B) :
  (out_bind m k).1 = (k m.1).1.
Proof. unfold out_bind. destruct m as [a w1]. simpl. by destruct (k a). Qed.

Lemma out_bind_snd (m : Out A) (k : A -> Out B) :
  (out_bind m k).2 = m.2 ++ (k m.1).2.
Proof. unfold out_bind. destruct m as [a w1]. simpl. by destruct (k a). Qed.

End OutLemmas.

Section DiscoveryNormal.

Context (fs : FileSystem).

Lemma get_test_files_by_type_normal (test_type : string) (config : Config)
    (search_path : string) :
  normal_form (get_test_files_by_type fs test_type config search_path).1.
Proof.
  unfold get_test_files_by_type.
  destruct (negb (has_test_type config test_type)); simpl.
  - apply normal_form_nil.
  - apply normal_form_sorted_set.
Qed.

Lemma discover_files_by_modules_normal (module_names : list string)
    (search_path : string) :
  normal_form (discover_files_by_modules fs module_names search_path).1.
Proof.
  unfold discover_files_by_modules.
  rewrite out_bind_fst. simpl.
  apply normal_form_sorted_set.
Qed.

Lemma discover_tests_normal (test_type : option string)
    (modules : option (list string)) (group : option string)
    (config : option Config) (search_path : string) :
  normal_form
    (discover_tests fs test_type modules group config search_path).1.
Proof.
  unfold discover_tests.
  rewrite out_bind_fst, out_bind_fst. simpl.
  destruct (opt_list_truthy modules).
  { rewrite ?out_bind_fst. apply discover_files_by_modules_normal. }
  destruct (opt_str_truthy group).
  { rewrite ?out_bind_fst. simpl. rewrite ?out_bind_fst.
    destruct (list_truthy _).
    - apply discover_files_by_modules_normal.
    - rewrite ?out_bind_fst. apply normal_form_nil. }
  destruct (opt_str_truthy test_type).
  { rewrite ?out_bind_fst. apply get_test_files_by_type_normal. }
  rewrite ?out_bind_fst. simpl. rewrite ?out_bind_fst. simpl.
  apply normal_form_sorted_set.
Qed.

End DiscoveryNormal.

(** C4: whatever combination of explicit modules, group and test type it
    is called with, [discover_tests] returns a list of paths without
    repetition and in ascending order of the paths as strings (each path
    is below all the paths after it). *)
Theorem discover_tests_sorted_nodup (fs : FileSystem)
    (test_type : option string) (modules : option (list string))
    (group : option string) (config : option Config) (search_path : string) :
  let test_files :=
    (discover_tests fs test_type modules group config search_path).1 in
  NoDup test_files /\ StronglySorted String.le test_files.
Proof. apply normal_form_spec, discover_tests_normal. Qed.

(** ** Explicit modules and groups *)

Section GroupRouting.

Context (fs : FileSystem).

Lemma str_truthy_true (s : string) : s <> "" -> str_truthy s = true.
Proof.
  intros Hne. unfold str_truthy.
  destruct (String.eqb_spec s ""); [ contradiction | reflexivity ].
Qed.

Lemma discover_tests_modules (test_type : option string)
    (module_names : list string) (group : option string)
    (config : option Config) (search_path : string) :
  module_names <> [] ->
  (discover_tests fs test_type (Some module_names) group config search_path).1
  = (discover_files_by_modules fs module_names search_path).1.
Proof.
  intros Hne. unfold discover_tests.
  rewrite !out_bind_fst.
  destruct module_names; [ contradiction | ]. simpl.
  rewrite !out_bind_fst. reflexivity.
Qed.

Lemma discover_tests_group (test_type : option string) (group : string)
    (module_names : list string) (config : Config) (search_path : string) :
  group <> "" ->
  module_names <> [] ->
  test_groups config !! group = Some module_names ->
  (discover_tests fs test_type None (Some group) (Some config) search_path).1
  = (discover_files_by_modules fs module_names search_path).1.
Proof.
  intros Hg Hne Hlook. unfold discover_tests.
  rewrite !out_bind_fst. simpl.
  rewrite (str_truthy_true group Hg).
  rewrite !out_bind_fst. simpl.
  unfold resolve_test_group. rewrite Hlook.
  rewrite !out_bind_fst. simpl.
  destruct module_names; [ contradiction | ]. reflexivity.
Qed.

End GroupRouting.

(** C9, as the code has it: for a group name [G] that is not the empty
    string and that the configuration maps to the list [[M]],
    [discover_tests] with [modules=[M]] and [discover_tests] with
    [group=G] return the same list of files. *)
Theorem discover_tests_module_as_group (fs : FileSystem) (M G : string)
    (config : Config) (search_path : string)
    (test_type test_type' group' : option string) :
  G <> "" ->
  test_groups config !! G = Some [M] ->
  (discover_tests fs test_type (Some [M]) group' (Some config) search_path).1
  = (discover_tests fs test_type' None (Some G) (Some config) search_path).1.
Proof.
  intros HG Hlook.
  rewrite discover_tests_modules by discriminate.
  rewrite (discover_tests_group fs test_type' G [M]) by (auto; discriminate).
  reflexivity.
Qed.

Lemma discover_tests_module_as_group_witness :
  "core" <> "" /\
  test_groups sample_config !! "core" = Some ["test_clean"] /\
  (discover_tests sample_fs None (Some ["test_clean"]) None
     (Some sample_config) ".").1 = ["test_clean.py"] /\
  (discover_tests sample_fs None (Some ["test_clean"]) None
     (Some sample_config) ".").1
  = (discover_tests sample_fs None None (Some "core")
       (Some sample_config) ".").1.
Proof.
  split; [ discriminate | ].
  split; [ reflexivity | ].
  split; [ reflexivity | ].
  apply (discover_tests_module_as_group sample_fs "test_clean" "core"
           sample_config "." None None None);
    [ discriminate | reflexivity ].
Defined.

(** C9 as stated fails for the group named by the empty string: with
    [group=""] the [elif group:] test is false and discovery goes on to
    collect the files of every test type. *)
Lemma discover_tests_empty_group_name :
  test_groups sample_config !! "" = Some ["test_clean"] /\
  (discover_tests sample_fs None (Some ["test_clean"]) None
     (Some sample_config) ".").1 = ["test_clean.py"] /\
  (discover_tests sample_fs None None (Some "")
     (Some sample_config) ".").1
  = ["./lib/test_deep.py"; "./pkg/test_deep.py"; "./test_clean.py";
     "./test_with_failures.py"] /\
  (discover_tests sample_fs None (Some ["test_clean"]) None
     (Some sample_config) ".").1
  <> (discover_tests sample_fs None None (Some "")
        (Some sample_config) ".").1.
Proof.
  split; [ reflexivity | ].
  split; [ reflexivity | ].
  split; [ vm_compute; reflexivity | ].
  vm_compute. discriminate.
Qed.

(** ** Looking a module up by name *)

Section ModuleLookup.

Context (fs : FileSystem).

Lemma try_paths_first_hit (paths test_files : list string) :
  try_paths fs paths test_files
  = (test_files ++ first_hit fs paths, list_truthy (first_hit fs paths)).
Proof.
  induction paths as [| path rest IH]; simpl.
  - by rewrite app_nil_r.
  - unfold candidate_hit.
    destruct (str_contains "**" path).
    + destruct (glob_recursive fs path) as [| f matching]; simpl; [ apply IH | done ].
    + destruct (path_exists fs path); simpl; [ done | apply IH ].
Qed.

Lemma modules_step_spec (search_path module_name : string)
    (test_files : list string) (w : list event) :
  (do test_files <- (test_files, w);
   let '(test_files', found) :=
     try_paths fs (possible_paths module_name search_path) test_files in
   if found then out_ret test_files'
   else say ModuleFileNotFound module_name; out_ret test_files')
  = (test_files ++ spec_module_files fs search_path module_name,
     w ++ if spec_module_missing fs search_path module_name
          then [ModuleFileNotFound module_name] else []).
Proof.
  unfold out_bind, out_ret, print.
  rewrite try_paths_first_hit.
  unfold spec_module_missing, spec_module_files.
  destruct (first_hit fs (possible_paths module_name search_path));
    reflexivity.
Qed.

Lemma modules_loop_spec (search_path : string) (module_names : list string)
    (acc : Out (list string)) :
  fold_left
    (fun acc module_name =>
       do test_files <- acc;
       let '(test_files', found) :=
         try_paths fs (possible_paths module_name search_path) test_files in
       if found then out_ret test_files'
       else say ModuleFileNotFound module_name; out_ret test_files')
    module_names acc
  = (acc.1 ++ concat (map (spec_module_files fs search_path) module_names),
     acc.2 ++ map ModuleFileNotFound
                (List.filter (spec_module_missing fs search_path) module_names)).
Proof.
  revert acc.
  induction module_names as [| name names IH]; intros [test_files w];
    cbn [fold_left map concat List.filter fst snd].
  - by rewrite !app_nil_r.
  - rewrite modules_step_spec, IH.
    cbn [fst snd]. rewrite <- !app_assoc.
    by destruct (spec_module_missing fs search_path name).
Qed.

Lemma discover_files_by_modules_spec (module_names : list string)
    (search_path : string) :
  discover_files_by_modules fs module_names search_path
  = spec_discover_modules fs module_names search_path.
Proof.
  unfold discover_files_by_modules, spec_discover_modules.
  rewrite modules_loop_spec. simpl.
  unfold out_bind, out_ret. simpl.
  by rewrite app_nil_r.
Qed.

End ModuleLookup.

Section PathStrings.

Lemma prefix_empty (s : string) : String.prefix "" s = true.
Proof. by destruct s. Qed.

Lemma prefix_cons (a b : ascii) (s1 s2 : string) :
  String.prefix (String a s1) (String b s2)
  = if ascii_dec a b then String.prefix s1 s2 else false.
Proof. reflexivity. Qed.

Lemma prefix_char_cons (c x : ascii) (s : string) :
  String.prefix (String c "") (String x s) = bool_decide (c = x).
Proof.
  rewrite prefix_cons. destruct (ascii_dec c x) as [-> | Hne].
  - rewrite prefix_empty. by rewrite bool_decide_eq_true_2.
  - by rewrite bool_decide_eq_false_2.
Qed.

Lemma startswith_char_app (c : ascii) (a b : string) :
  startswith (a +:+ b) (String c "")
  = match a with
    | EmptyString => startswith b (String c "")
    | String _ _ => startswith a (String c "")
    end.
Proof.
  unfold startswith. destruct a as [| x a]; [ reflexivity | ].
  change (String x a +:+ b) with (String x (a +:+ b)).
  by rewrite !prefix_char_cons.
Qed.

Lemma str_contains_star2_cons (c : ascii) (s : string) :
  str_contains "**" (String c s)
  = bool_decide (c = "*"%char) && startswith s "*" || str_contains "**" s.
Proof.
  unfold startswith.
  change (str_contains "**" (String c s))
    with (String.prefix "**" (String c s) || str_contains "**" s).
  f_equal. rewrite prefix_cons.
  destruct (ascii_dec "*" c) as [<- | Hne].
  - by rewrite bool_decide_eq_true_2.
  - rewrite bool_decide_eq_false_2; [ reflexivity | congruence ].
Qed.

Lemma endswith_cons (x : ascii) (s p : string) :
  endswith (String x s) p = String.eqb (String x s) p || endswith s p.
Proof. reflexivity. Qed.

Lemma endswith_char_single (x c : ascii) :
  endswith (String x "") (String c "") = bool_decide (x = c).
Proof.
  rewrite endswith_cons. simpl.
  destruct (Ascii.eqb_spec x c) as [-> | Hne]; simpl.
  - by rewrite bool_decide_eq_true_2.
  - by rewrite bool_decide_eq_false_2.
Qed.

Lemma endswith_char_cons2 (x y c : ascii) (s : string) :
  endswith (String x (String y s)) (String c "")
  = endswith (String y s) (String c "").
Proof.
  rewrite endswith_cons. simpl String.eqb.
  destruct (Ascii.eqb x c); reflexivity.
Qed.

(** Two stars in a row in [a +:+ b] are in [a], in [b], or astride. *)
Lemma str_contains_star2_app (a b : string) :
  str_contains "**" (a +:+ b)
  = str_contains "**" a || str_contains "**" b
    || endswith a "*" && startswith b "*".
Proof.
  induction a as [| c a IH].
  - change ("" +:+ b) with b.
    change (str_contains "**" "") with false.
    change (endswith "" "*") with false.
    by rewrite orb_false_r.
  - change (String c a +:+ b) with (String c (a +:+ b)).
    rewrite !str_contains_star2_cons, IH, startswith_char_app.
    destruct a as [| d a].
    + rewrite endswith_char_single.
      change (str_contains "**" "") with false.
      change (startswith "" "*") with false.
      change (endswith "" "*") with false.
      destruct (bool_decide (c = "*"%char)), (startswith b "*"),
        (str_contains "**" b); reflexivity.
    + rewrite endswith_char_cons2.
      destruct (bool_decide (c = "*"%char)), (startswith (String d a) "*"),
        (str_contains "**" (String d a)), (str_contains "**" b),
        (endswith (String d a) "*"), (startswith b "*"); reflexivity.
Qed.

(** The last character of a string is one character. *)
Lemma endswith_char_app_cons (a : string) (x : ascii) (s : string) (c : ascii) :
  endswith (a +:+ String x s) (String c "") = endswith (String x s) (String c "").
Proof.
  induction a as [| y a IH]; [ reflexivity | ].
  change (String y a +:+ String x s) with (String y (a +:+ String x s)).
  destruct (a +:+ String x s) as [| z r] eqn:E.
  - destruct a; discriminate.
  - rewrite endswith_char_cons2. exact IH.
Qed.

Lemma endswith_char_unique (s : string) (c d : ascii) :
  c <> d ->
  endswith s (String c "") = true ->
  endswith s (String d "") = false.
Proof.
  intros Hne.
  induction s as [| x s IH]; [ discriminate | ].
  destruct s as [| y s].
  - rewrite !endswith_char_single.
    intros Hx%bool_decide_eq_true. subst x.
    by rewrite bool_decide_eq_false_2.
  - rewrite !endswith_char_cons2. exact IH.
Qed.

End PathStrings.

Section PlainNames.

Context (fs : FileSystem).

Lemma join_step_relative (path b : string) :
  startswith b "/" = false ->
  join_step path b
  = if String.eqb path "" || endswith path "/" then path +:+ b
    else path +:+ "/" +:+ b.
Proof. intros Hb. unfold join_step. by rewrite Hb. Qed.

(** Joining a relative component neither makes nor breaks a [**]. *)
Lemma str_contains_star2_join_step (path b : string) :
  startswith b "/" = false ->
  str_contains "**" (join_step path b)
  = str_contains "**" path || str_contains "**" b.
Proof.
  intros Hb. rewrite (join_step_relative path b Hb).
  destruct (String.eqb_spec path "") as [-> | Hne]; simpl orb.
  - reflexivity.
  - destruct (endswith path "/") eqn:Hend.
    + rewrite str_contains_star2_app.
      rewrite (endswith_char_unique path "/" "*"); [ | discriminate | done ].
      by rewrite orb_false_r.
    + rewrite str_contains_star2_app, str_contains_star2_app.
      rewrite (startswith_char_app "*" "/" b).
      change (str_contains "**" "/") with false.
      change (endswith "/" "*") with false.
      change (startswith "/" "*") with false.
      rewrite andb_false_r, !orb_false_r. reflexivity.
Qed.

Lemma module_file_relative (module_name : string) :
  startswith module_name "/" = false ->
  startswith (module_name +:+ ".py") "/" = false.
Proof.
  intros Hn. rewrite (startswith_char_app "/" module_name ".py").
  by destruct module_name.
Qed.

Lemma module_file_no_star2 (module_name : string) :
  str_contains "**" module_name = false ->
  str_contains "**" (module_name +:+ ".py") = false.
Proof.
  intros Hn. rewrite str_contains_star2_app, Hn.
  change (str_contains "**" ".py") with false.
  change (startswith ".py" "*") with false.
  by rewrite andb_false_r.
Qed.

(** For a module name and a search path that hold no [**], the name not
    starting with the separator, the first two candidates are tested for
    existence and the third is globbed. *)
Lemma spec_module_files_plain (search_path module_name : string) :
  str_contains "**" module_name = false ->
  str_contains "**" search_path = false ->
  startswith module_name "/" = false ->
  spec_module_files fs search_path module_name
  = if path_exists fs (module_name +:+ ".py")
    then [module_name +:+ ".py"]
    else if path_exists fs (path_join search_path [module_name +:+ ".py"])
    then [path_join search_path [module_name +:+ ".py"]]
    else glob_recursive fs (path_join search_path ["**"; module_name +:+ ".py"]).
Proof.
  intros Hn Hs Hrel.
  pose proof (module_file_relative module_name Hrel) as Hrel'.
  pose proof (module_file_no_star2 module_name Hn) as Hn'.
  unfold spec_module_files, possible_paths, path_join.
  cbn [fold_left first_hit]. unfold candidate_hit.
  rewrite Hn'.
  rewrite (str_contains_star2_join_step search_path _ Hrel'), Hs, Hn'.
  rewrite (str_contains_star2_join_step _ _ Hrel').
  rewrite (str_contains_star2_join_step search_path "**" eq_refl), Hs.
  change (str_contains "**" "**") with true.
  cbn [orb].
  destruct (path_exists fs (module_name +:+ ".py")); [ reflexivity | ].
  destruct (path_exists fs (join_step search_path (module_name +:+ ".py")));
    [ reflexivity | ].
  by destruct (glob_recursive fs _).
Qed.

(** With a search path that is not empty and does not end with the
    separator, the candidates are the three paths as the specification
    writes them. *)
Lemma possible_paths_literal (search_path module_name : string) :
  search_path <> "" ->
  endswith search_path "/" = false ->
  startswith module_name "/" = false ->
  possible_paths module_name search_path
  = [ module_name +:+ ".py";
      search_path +:+ "/" +:+ module_name +:+ ".py";
      (search_path +:+ "/" +:+ "**") +:+ "/" +:+ module_name +:+ ".py" ].
Proof.
  intros Hne Hend Hrel.
  pose proof (module_file_relative module_name Hrel) as Hrel'.
  assert (Hemp : String.eqb search_path "" = false).
  { by destruct (String.eqb_spec search_path ""). }
  unfold possible_paths, path_join. cbn [fold_left].
  rewrite (join_step_relative search_path _ Hrel'), Hemp, Hend.
  rewrite (join_step_relative search_path "**" eq_refl), Hemp, Hend.
  cbn [orb].
  rewrite (join_step_relative _ _ Hrel').
  change ("/" +:+ "**") with "/**".
  rewrite (endswith_char_app_cons search_path "/" "**" "/").
  change (endswith "/**" "/") with false.
  destruct search_path; [ contradiction | reflexivity ].
Qed.

End PlainNames.

(** C5, as the code has it: for a non-empty list of module names,
    discovery takes for each name, in order, the candidates [<name>.py],
    [<searchPath>/<name>.py] and [<searchPath>/**/<name>.py], emits the
    hit of the first candidate that hits and warns about each name none
    of whose candidates hits; the files emitted are returned sorted and
    without repetition.  A candidate that contains [**] is expanded as a
    recursive glob and any other is tested for existence.  So for names
    that hold no [**] and are not absolute, and a search path without
    [**], discovery is what the specification words: the first two
    candidates are tested for existence and the third is globbed. *)
Theorem discover_tests_modules_first_hit (fs : FileSystem)
    (module_names : list string) (search_path : string)
    (test_type group : option string) (config : option Config) :
  module_names <> [] ->
  (let files :=
     sorted_set (concat (map (spec_module_files fs search_path) module_names)) in
   discover_tests fs test_type (Some module_names) group config search_path
   = (files,
      DiscoveringModules module_names
      :: map ModuleFileNotFound
           (List.filter (spec_module_missing fs search_path) module_names)
      ++ [FoundTestFiles (length files)])) /\
  (Forall plain_module_name module_names ->
   str_contains "**" search_path = false ->
   let files :=
     sorted_set
       (concat (map (literal_module_files fs search_path) module_names)) in
   discover_tests fs test_type (Some module_names) group config search_path
   = (files,
      DiscoveringModules module_names
      :: map ModuleFileNotFound
           (List.filter (literal_module_missing fs search_path) module_names)
      ++ [FoundTestFiles (length files)])).
Proof.
  intros Hne.
  assert (Hrun :
    discover_tests fs test_type (Some module_names) group config search_path
    = (sorted_set (concat (map (spec_module_files fs search_path) module_names)),
       DiscoveringModules module_names
       :: map ModuleFileNotFound
            (List.filter (spec_module_missing fs search_path) module_names)
       ++ [FoundTestFiles
             (length (sorted_set
                        (concat (map (spec_module_files fs search_path)
                                     module_names))))])).
  { unfold discover_tests.
    destruct module_names as [| name names]; [ contradiction | ].
    cbn [opt_list_truthy list_truthy default from_option].
    rewrite discover_files_by_modules_spec.
    unfold spec_discover_modules, out_bind, out_ret, print, id.
    rewrite (app_nil_r [FoundTestFiles _]).
    reflexivity. }
  split; [ exact Hrun | ].
  intros Hplain Hsearch. cbv zeta. rewrite Hrun.
  assert (Hfiles : forall name, In name module_names ->
            spec_module_files fs search_path name
            = literal_module_files fs search_path name).
  { intros name Hin. rewrite List.Forall_forall in Hplain.
    destruct (Hplain name Hin) as [Hstar Hrel].
    by apply spec_module_files_plain. }
  rewrite (map_ext_in _ _ _ Hfiles).
  rewrite (filter_ext_in (spec_module_missing fs search_path)
             (literal_module_missing fs search_path)); [ reflexivity | ].
  intros name Hin. unfold spec_module_missing, literal_module_missing.
  by rewrite (Hfiles name Hin).
Qed.

Lemma discover_tests_modules_first_hit_witness :
  ["test_clean"; "test_deep"; "nope"] <> [] /\
  Forall plain_module_name ["test_clean"; "test_deep"; "nope"] /\
  str_contains "**" "." = false /\
  discover_tests sample_fs None (Some ["test_clean"; "test_deep"; "nope"])
    None None "."
  = (["./lib/test_deep.py"; "./pkg/test_deep.py"; "test_clean.py"],
     [DiscoveringModules ["test_clean"; "test_deep"; "nope"];
      ModuleFileNotFound "nope"; FoundTestFiles 3]) /\
  literal_module_files sample_fs "." "test_deep"
  = ["./pkg/test_deep.py"; "./lib/test_deep.py"].
Proof.
  assert (Hplain : Forall plain_module_name ["test_clean"; "test_deep"; "nope"]).
  { repeat (apply List.Forall_cons; [ split; reflexivity | ]).
    apply List.Forall_nil. }
  split; [ discriminate | ]. split; [ exact Hplain | ].
  split; [ reflexivity | ].
  destruct (discover_tests_modules_first_hit sample_fs
              ["test_clean"; "test_deep"; "nope"] "." None None None)
    as [_ Hliteral]; [ discriminate | ].
  split; [ | reflexivity ].
  rewrite (Hliteral Hplain eq_refl). vm_compute. reflexivity.
Defined.

(** C5 as stated fails for a name that holds [**]: for [test_**] the code
    takes the first candidate, [test_**.py], for a glob pattern and emits
    what it matches, where the specification tests that path for existence
    and goes on to the recursive glob below the search path. *)
Lemma discover_tests_modules_glob_name :
  path_exists star_fs "test_**.py" = false /\
  path_exists star_fs "./test_**.py" = false /\
  (discover_tests star_fs None (Some ["test_**"]) None None ".").1
  = ["test_a.py"; "test_b.py"] /\
  sorted_set (literal_module_files star_fs "." "test_**")
  = ["./sub/test_x.py"; "./test_a.py"; "./test_b.py"] /\
  (discover_tests star_fs None (Some ["test_**"]) None None ".").1
  <> sorted_set (literal_module_files star_fs "." "test_**").
Proof.
  split; [ reflexivity | ]. split; [ reflexivity | ].
  split; [ vm_compute; reflexivity | ].
  split; [ vm_compute; reflexivity | ].
  vm_compute. discriminate.
Qed.

(** ** [sys.path] around a load *)

Section SysPath.

Context (fs : FileSystem) (ld : Loader).

Lemma py_list_remove_head (x : string) (l : list string) :
  py_list_remove x (x :: l) = Some l.
Proof. simpl. by rewrite decide_True. Qed.

(** Removing leaves every other entry where it was. *)
Lemma py_list_remove_cons_ne (x y : string) (l : list string) :
  x <> y ->
  py_list_remove x (y :: l) = cons y <$> py_list_remove x l.
Proof. intros Hne. simpl. by rewrite decide_False. Qed.

Lemma safe_import_module_sys_path (module_name : string)
    (file_path : option string) (sys_path : list string) :
  (safe_import_module fs ld module_name file_path sys_path).2
  = (safe_import_module_try fs ld module_name file_path sys_path).2.
Proof.
  unfold safe_import_module.
  destruct (safe_import_module_try fs ld module_name file_path sys_path)
    as [[e | t] sys_path'].
  - by destruct e.
  - reflexivity.
Qed.

Lemma safe_import_module_try_restores (module_name : string)
    (file_path : option string) (sys_path : list string) :
  load_keeps_sys_path ld module_name file_path ->
  (safe_import_module_try fs ld module_name file_path sys_path).2 = sys_path.
Proof.
  intros [Hexec Himport].
  unfold safe_import_module_try.
  destruct (opt_str_truthy file_path && path_exists fs (default "" file_path)).
  - destruct (spec_from_file_location ld module_name (default "" file_path));
      [ | reflexivity ].
    set (module_dir := module_dir_of ld (default "" file_path)).
    destruct (bool_decide (module_dir ∈ sys_path)); cbn [negb].
    + specialize (Hexec sys_path).
      destruct (exec_module ld module_name (default "" file_path) sys_path)
        as [r q]. simpl in *. by subst q.
    + specialize (Hexec (module_dir :: sys_path)).
      destruct (exec_module ld module_name (default "" file_path)
                  (module_dir :: sys_path)) as [r q].
      simpl in Hexec. subst q.
      by rewrite py_list_remove_head.
  - specialize (Himport sys_path).
    destruct (import_module ld module_name sys_path) as [r q].
    simpl in *. by subst q.
Qed.

(** Removing an entry leaves the other entries as they were. *)
Lemma py_list_remove_other_entries (x : string) (l l' : list string) :
  py_list_remove x l = Some l' ->
  other_entries x l' = other_entries x l.
Proof.
  revert l'. induction l as [| y l IH]; intros l'; [ discriminate | ].
  cbn [py_list_remove]. destruct (decide (x = y)) as [<- | Hne].
  - intros [= ->]. unfold other_entries. cbn [List.filter].
    by rewrite String.eqb_refl.
  - destruct (py_list_remove x l) as [l0 |]; [ | discriminate ].
    intros [= <-]. unfold other_entries in *. cbn [List.filter].
    by rewrite (IH l0 eq_refl).
Qed.

Lemma default_remove_other_entries (x : string) (l : list string) :
  other_entries x (default l (py_list_remove x l)) = other_entries x l.
Proof.
  destruct (py_list_remove x l) as [l' |] eqn:E; [ | reflexivity ].
  by apply py_list_remove_other_entries.
Qed.

(** [sys.path] after a load from a file: what the module's code left of
    the path it was run with, less the directory when it was prepended. *)
Lemma safe_import_module_try_file (module_name : string)
    (file_path : option string) (sys_path : list string) :
  opt_str_truthy file_path && path_exists fs (default "" file_path) = true ->
  spec_from_file_location ld module_name (default "" file_path) = true ->
  let module_dir := module_dir_of ld (default "" file_path) in
  let during :=
    if bool_decide (module_dir ∈ sys_path) then sys_path
    else module_dir :: sys_path in
  let left :=
    (exec_module ld module_name (default "" file_path) during).2 in
  (safe_import_module_try fs ld module_name file_path sys_path).2
  = if bool_decide (module_dir ∈ sys_path) then left
    else default left (py_list_remove module_dir left).
Proof.
  intros Hfile Hspec. cbv zeta.
  unfold safe_import_module_try. rewrite Hfile, Hspec.
  destruct (bool_decide (module_dir_of ld (default "" file_path) ∈ sys_path));
    cbn [negb].
  - by destruct (exec_module ld module_name (default "" file_path) sys_path).
  - destruct (exec_module ld module_name (default "" file_path)
                (module_dir_of ld (default "" file_path) :: sys_path))
      as [r q].
    cbn [snd].
    by destruct (py_list_remove (module_dir_of ld (default "" file_path)) q).
Qed.

End SysPath.

(** C6, as the code has it.  A module loaded from a file is executed with
    the directory of the file at the front of [sys.path] when that
    directory was not listed, and with [sys.path] as it is when it was;
    afterwards the first entry for the directory is removed exactly when
    it was prepended, and every other entry is left as the module's code
    left it, those it added itself included.  Without a module spec
    [sys.path] is not touched, and a module imported by name leaves it as
    its code leaves it.  Hence, when the code of the loaded module leaves
    [sys.path] as it finds it, [sys.path] after [safe_import_module] (and
    after [inspect_module_for_tests], which touches it through that call
    only) equals [sys.path] before, whether the load returned a module or
    raised. *)
Theorem safe_import_module_restores_sys_path (fs : FileSystem) (ld : Loader)
    (module_name : string) (file_path : option string)
    (sys_path : list string) :
  let from_file :=
    opt_str_truthy file_path && path_exists fs (default "" file_path) in
  let after := (safe_import_module fs ld module_name file_path sys_path).2 in
  (from_file = true ->
   spec_from_file_location ld module_name (default "" file_path) = true ->
   let module_dir := module_dir_of ld (default "" file_path) in
   let during :=
     if bool_decide (module_dir ∈ sys_path) then sys_path
     else module_dir :: sys_path in
   let left :=
     (exec_module ld module_name (default "" file_path) during).2 in
   after = (if bool_decide (module_dir ∈ sys_path) then left
            else default left (py_list_remove module_dir left)) /\
   other_entries module_dir after = other_entries module_dir left) /\
  (from_file = true ->
   spec_from_file_location ld module_name (default "" file_path) = false ->
   after = sys_path) /\
  (from_file = false ->
   after = (import_module ld module_name sys_path).2) /\
  (load_keeps_sys_path ld module_name file_path ->
   after = sys_path /\
   (inspect_module_for_tests fs ld module_name file_path sys_path).2
   = sys_path).
Proof.
  cbv zeta. rewrite safe_import_module_sys_path.
  split; [ | split; [ | split ] ].
  - intros Hfile Hspec.
    pose proof (safe_import_module_try_file fs ld module_name file_path
                  sys_path Hfile Hspec) as Hafter.
    cbv zeta in Hafter. rewrite Hafter. split; [ reflexivity | ].
    destruct (bool_decide (module_dir_of ld (default "" file_path) ∈ sys_path));
      [ reflexivity | apply default_remove_other_entries ].
  - intros Hfile Hspec. unfold safe_import_module_try.
    by rewrite Hfile, Hspec.
  - intros Hfile. unfold safe_import_module_try. rewrite Hfile.
    by destruct (import_module ld module_name sys_path).
  - intros Hkeep.
    assert (H : (safe_import_module fs ld module_name file_path sys_path).2
                = sys_path).
    { rewrite safe_import_module_sys_path.
      by apply safe_import_module_try_restores. }
    rewrite <- (safe_import_module_sys_path fs ld).
    split; [ exact H | ].
    unfold inspect_module_for_tests.
    destruct (safe_import_module fs ld module_name file_path sys_path)
      as [[[module success] error_msg] sys_path'].
    simpl in H. subst sys_path'.
    by destruct success, module.
Qed.

Lemma safe_import_module_restores_sys_path_witness :
  opt_str_truthy (Some "./test_clean.py")
  && path_exists sample_fs (default "" (Some "./test_clean.py")) = true /\
  spec_from_file_location sibling_loader "test_clean" "./test_clean.py" = true /\
  load_keeps_sys_path sibling_loader "test_clean" (Some "./test_clean.py") /\
  (exec_module sibling_loader "test_clean" "./test_clean.py"
     ["/usr/lib/python3"]).1
  = inl (ImportError "No module named 'helpers'") /\
  safe_import_module sample_fs sibling_loader "test_clean"
    (Some "./test_clean.py") ["/usr/lib/python3"]
  = ((Some (mkModule [("test_helper", Function)]), true, None),
     ["/usr/lib/python3"]) /\
  (safe_import_module sample_fs sibling_loader "test_clean"
     (Some "./test_clean.py") ["/usr/lib/python3"]).2
  = default ["/work"; "/usr/lib/python3"]
      (py_list_remove "/work" ["/work"; "/usr/lib/python3"]) /\
  (safe_import_module sample_fs failing_loader "test_clean"
     (Some "./test_clean.py") ["/usr/lib/python3"]).2 = ["/usr/lib/python3"] /\
  (inspect_module_for_tests sample_fs failing_loader "test_clean"
     (Some "./test_clean.py") ["/usr/lib/python3"]).2 = ["/usr/lib/python3"] /\
  other_entries "/work/example-project/tests"
    (safe_import_module example_fs example_loader
       "example-project.tests.test_utils"
       (Some "./example-project/tests/test_utils.py") ["/usr/lib/python3"]).2
  = ["./example-project/tests/../src"; "/usr/lib/python3"].
Proof.
  assert (Hsibling : load_keeps_sys_path sibling_loader "test_clean"
                       (Some "./test_clean.py")).
  { split; intros q; [ | reflexivity ].
    cbn [exec_module sibling_loader]. by destruct (bool_decide _). }
  assert (Hfailing : load_keeps_sys_path failing_loader "test_clean"
                       (Some "./test_clean.py")).
  { split; intros q; reflexivity. }
  destruct (safe_import_module_restores_sys_path sample_fs sibling_loader
              "test_clean" (Some "./test_clean.py") ["/usr/lib/python3"])
    as (Hfile & _ & _ & _).
  destruct (safe_import_module_restores_sys_path sample_fs failing_loader
              "test_clean" (Some "./test_clean.py") ["/usr/lib/python3"])
    as (_ & _ & _ & Hkeep).
  destruct (safe_import_module_restores_sys_path example_fs example_loader
              "example-project.tests.test_utils"
              (Some "./example-project/tests/test_utils.py")
              ["/usr/lib/python3"]) as (Hexample & _ & _ & _).
  split; [ reflexivity | ]. split; [ reflexivity | ].
  split; [ exact Hsibling | ]. split; [ reflexivity | ].
  split; [ reflexivity | ].
  split; [ exact (proj1 (Hfile eq_refl eq_refl)) | ].
  split; [ exact (proj1 (Hkeep Hfailing)) | ].
  split; [ exact (proj2 (Hkeep Hfailing)) | ].
  etransitivity; [ exact (proj2 (Hexample eq_refl eq_refl)) | reflexivity ].
Defined.

(** C6 as stated fails for a module whose own code changes [sys.path]:
    the entry the module inserted is still there after the call. *)
Lemma safe_import_module_keeps_module_entries :
  (safe_import_module example_fs example_loader "example-project.tests.test_utils"
     (Some "./example-project/tests/test_utils.py") ["/usr/lib/python3"]).2
  = ["./example-project/tests/../src"; "/usr/lib/python3"] /\
  (safe_import_module example_fs example_loader "example-project.tests.test_utils"
     (Some "./example-project/tests/test_utils.py") ["/usr/lib/python3"]).2
  <> ["/usr/lib/python3"].
Proof. split; [ reflexivity | discriminate ]. Qed.

(** ** Loading the configuration *)

Section LoadConfig.

Context (fs : FileSystem) (json_load : JsonDecoder).

Lemma load_config_missing (config_file : string) :
  config_file_missing fs config_file ->
  load_config fs json_load config_file
  = (Config_default, [NoConfigurationFile config_file]).
Proof.
  intros Hmiss. unfold load_config, load_config_try. by rewrite Hmiss.
Qed.

(** Whatever the [try] block raises, a handler takes it. *)
Lemma load_config_raised (config_file : string) (e : PyExc) :
  load_config_try fs json_load config_file = inl e ->
  (load_config fs json_load config_file).1 = Config_default /\
  warns_of_defaults (load_config fs json_load config_file).2.
Proof.
  intros Htry. unfold load_config. rewrite Htry.
  by destruct e.
Qed.

Lemma load_config_unreadable (config_file : string) :
  config_file_unreadable fs config_file ->
  exists e, load_config_try fs json_load config_file = inl e.
Proof.
  intros (Hex & e & Hread). exists e.
  unfold load_config_try. by rewrite Hex, Hread.
Qed.

Lemma load_config_unparseable (config_file : string) :
  config_file_unparseable fs json_load config_file ->
  exists msg,
    load_config_try fs json_load config_file = inl (JSONDecodeError msg).
Proof.
  intros (Hex & text & msg & Hread & Hdec). exists msg.
  unfold load_config_try. by rewrite Hex, Hread, Hdec.
Qed.

Lemma load_config_object (config_file text : string) (d : ConfigData) :
  config_file_holds fs config_file text ->
  json_load text = inr (DocObject d) ->
  load_config fs json_load config_file
  = (Config_of_data (if data_truthy d then d else empty_data),
     [LoadedConfiguration config_file]).
Proof.
  intros [Hex Hread] Hdec.
  unfold load_config, load_config_try.
  by rewrite Hex, Hread, Hdec.
Qed.

End LoadConfig.

(** C7: [load_config] returns a configuration in every case.  When the
    file is missing, cannot be read or is not JSON (and whenever else its
    [try] block raises) it prints that the defaults are used and returns
    the default configuration.  A missing file, an empty file and the
    document [{}] give the same configuration, the one with every field at
    its default. *)
Theorem load_config_falls_back_to_defaults (fs : FileSystem)
    (json_load : JsonDecoder) :
  (forall config_file,
     config_file_missing fs config_file \/
     config_file_unreadable fs config_file \/
     config_file_unparseable fs json_load config_file \/
     (exists e, load_config_try fs json_load config_file = inl e) ->
     (load_config fs json_load config_file).1 = Config_default /\
     warns_of_defaults (load_config fs json_load config_file).2) /\
  (forall missing empty braces,
     (exists msg, json_load "" = inl msg) ->
     json_load "{}" = inr (DocObject empty_data) ->
     config_file_missing fs missing ->
     config_file_holds fs empty "" ->
     config_file_holds fs braces "{}" ->
     (load_config fs json_load missing).1 = (load_config fs json_load empty).1 /\
     (load_config fs json_load empty).1 = (load_config fs json_load braces).1 /\
     (load_config fs json_load braces).1 = Config_default) /\
  (test_patterns Config_default
   = {[ "unit" := ["test_*.py"; "*_test.py"];
        "integration" := ["integration_test_*.py"; "*_integration_test.py"];
        "e2e" := ["e2e_test_*.py"; "*_e2e_test.py"];
        "regression" := ["regression_test_*.py"; "*_regression_test.py"] ]} /\
   test_groups Config_default = {[ "all" := [] ]} /\
   coverage_enabled Config_default = true /\
   html_coverage Config_default = true /\
   html_coverage_dir Config_default = "htmlcov").
Proof.
  split; [ | split ].
  - intros config_file [Hmiss | [Hunr | [Hunp | [e He]]]].
    + rewrite (load_config_missing fs json_load config_file Hmiss).
      split; reflexivity.
    + destruct (load_config_unreadable fs json_load config_file Hunr) as [e He].
      exact (load_config_raised fs json_load config_file e He).
    + destruct (load_config_unparseable fs json_load config_file Hunp)
        as [msg He].
      exact (load_config_raised fs json_load config_file _ He).
    + exact (load_config_raised fs json_load config_file e He).
  - intros missing empty braces Hempty Hbraces Hmiss Hemp Hbr.
    rewrite (load_config_missing fs json_load missing Hmiss).
    rewrite (load_config_object fs json_load braces "{}" empty_data Hbr Hbraces).
    assert (He : (load_config fs json_load empty).1 = Config_default).
    { destruct Hempty as [msg Hmsg].
      destruct (load_config_unparseable fs json_load empty) as [msg' He].
      - destruct Hemp as [Hex Hread]. split; [ exact Hex | ].
        exists "", msg. split; assumption.
      - apply (load_config_raised fs json_load empty _ He). }
    rewrite He. repeat split.
  - repeat split.
Qed.

Lemma load_config_falls_back_to_defaults_witness :
  config_file_missing config_fs "missing.json" /\
  config_file_holds config_fs "empty.json" "" /\
  config_file_holds config_fs "braces.json" "{}" /\
  config_file_unreadable config_fs "locked.json" /\
  (load_config config_fs config_decoder "locked.json").1 = Config_default /\
  warns_of_defaults (load_config config_fs config_decoder "locked.json").2 /\
  (load_config config_fs config_decoder "list.json").1 = Config_default /\
  (load_config config_fs config_decoder "missing.json").1
  = (load_config config_fs config_decoder "empty.json").1 /\
  (load_config config_fs config_decoder "empty.json").1
  = (load_config config_fs config_decoder "braces.json").1 /\
  (load_config config_fs config_decoder "braces.json").1 = Config_default.
Proof.
  assert (Hmiss : config_file_missing config_fs "missing.json")
    by reflexivity.
  assert (Hemp : config_file_holds config_fs "empty.json" "")
    by (split; reflexivity).
  assert (Hbr : config_file_holds config_fs "braces.json" "{}")
    by (split; reflexivity).
  assert (Hlock : config_file_unreadable config_fs "locked.json").
  { split; [ reflexivity | ].
    exists (OSError "Permission denied: locked.json"). reflexivity. }
  destruct (load_config_falls_back_to_defaults config_fs config_decoder)
    as (Hfall & Hsame & _).
  split; [ exact Hmiss | ].
  split; [ exact Hemp | ].
  split; [ exact Hbr | ].
  split; [ exact Hlock | ].
  split; [ apply (Hfall "locked.json"); right; left; exact Hlock | ].
  split; [ apply (Hfall "locked.json"); right; left; exact Hlock | ].
  split.
  { apply (Hfall "list.json"). right; right; right.
    exists (AttributeError "object has no attribute 'get'"). reflexivity. }
  exact (Hsame "missing.json" "empty.json" "braces.json"
           (ex_intro _ "Expecting value: line 1 column 1 (char 0)" eq_refl)
           eq_refl Hmiss Hemp Hbr).
Defined.

(** ** The exit status *)

Section ExitStatus.

Context (fs : FileSystem) (json_load : JsonDecoder) (acts : Activities).

Lemma main_lint (args : list string) :
  action (main_parsed_args fs json_load args) = Lint ->
  main fs json_load acts args = if 0 <? run_lint acts then 1 else 0.
Proof. intros Hact. unfold main. by rewrite Hact. Qed.

Lemma main_tests_ran (args : list string) :
  action (main_parsed_args fs json_load args) = Check \/
  action (main_parsed_args fs json_load args) = Test ->
  main_discovered_files fs json_load args <> [] ->
  total_methods
    (discover_test_methods acts (main_discovered_files fs json_load args)) <> 0 ->
  let test_results :=
    run_tests acts
      (discover_test_methods acts (main_discovered_files fs json_load args)) in
  let lint_failed :=
    match action (main_parsed_args fs json_load args) with
    | Check => 0 <? run_lint acts
    | _ => false
    end in
  main fs json_load acts args
  = if (0 <? failed test_results) || (0 <? errors test_results) || lint_failed
    then 1 else 0.
Proof.
  intros Hact Hfiles Hmethods. cbv zeta.
  unfold main.
  destruct (main_discovered_files fs json_load args) as [| f files] eqn:Hd;
    [ contradiction | ].
  apply Z.eqb_neq in Hmethods.
  destruct Hact as [-> | ->]; cbn [list_truthy negb]; by rewrite Hmethods.
Qed.

End ExitStatus.

(** C3 on the code, at a run without a style-check backend: [run_lint]
    returns -1, [report_lint_results] reports that linting failed due to
    an error, and yet [main] takes only a positive count for a failure:
    the [lint] command exits 0, and so does [check] when every test
    passes. *)
Theorem main_lint_unavailable_exits_zero :
  run_lint lint_unavailable = -1 /\
  report_lint_results (run_lint lint_unavailable) = LintingFailedDueToError /\
  action (main_parsed_args sample_fs config_decoder ["lint"]) = Lint /\
  main sample_fs config_decoder lint_unavailable ["lint"] = 0 /\
  action (main_parsed_args sample_fs config_decoder ["check"]) = Check /\
  main sample_fs config_decoder lint_unavailable ["check"] = 0.
Proof.
  split; [ reflexivity | ]. split; [ reflexivity | ].
  split; [ reflexivity | ].
  split; [ by rewrite main_lint | ].
  split; [ reflexivity | ].
  rewrite main_tests_ran.
  - vm_compute. reflexivity.
  - left. reflexivity.
  - vm_compute. discriminate.
  - vm_compute. discriminate.
Qed.

(** * Further properties *)

(** ** Results and counters *)

Section MoreCounters.

Lemma fold_left_app_concat {A} (ls : list (list A)) (acc : list A) :
  fold_left (fun acc l => acc ++ l) ls acc = acc ++ concat ls.
Proof.
  revert acc. induction ls as [| l ls IH]; intros acc; simpl.
  - by rewrite app_nil_r.
  - by rewrite IH, <- app_assoc.
Qed.

Lemma add_result_method_results (r : TestResult) (m : MethodResult) :
  method_results (add_result r m) = method_results r ++ [m].
Proof. unfold add_result. by repeat case_match. Qed.

Lemma count_status_snoc (st : string) (results : list MethodResult)
    (m : MethodResult) :
  count_status st (results ++ [m])
  = count_status st results + (if String.eqb (status m) st then 1 else 0).
Proof.
  unfold count_status. rewrite List.filter_app, length_app. simpl.
  destruct (String.eqb (status m) st); simpl; lia.
Qed.

Lemma add_result_exact (r : TestResult) (m : MethodResult) :
  counters_exact r -> counters_exact (add_result r m).
Proof.
  intros (Hp & Hf & He). unfold counters_exact.
  rewrite add_result_method_results, !count_status_snoc.
  unfold add_result.
  destruct (String.eqb_spec (status m) "pass") as [E1 | N1].
  { rewrite E1. simpl. repeat split; lia. }
  destruct (String.eqb_spec (status m) "fail") as [E2 | N2].
  { rewrite E2. simpl. repeat split; lia. }
  destruct (String.eqb_spec (status m) "error") as [E3 | N3];
    simpl; repeat split; lia.
Qed.

Lemma add_results_exact (r : TestResult) (ms : list MethodResult) :
  counters_exact r -> counters_exact (add_results r ms).
Proof.
  intros Hr. induction ms as [| m ms IH] using rev_ind; [ exact Hr | ].
  rewrite add_results_snoc. by apply add_result_exact.
Qed.

Lemma length_get_failed_results (r : TestResult) :
  Z.of_nat (length (get_failed_results r))
  = count_status "fail" (method_results r)
    + count_status "error" (method_results r).
Proof.
  unfold get_failed_results, count_status.
  induction (method_results r) as [| m ms IH]; [ reflexivity | ].
  cbn [List.filter].
  destruct (String.eqb_spec (status m) "fail") as [E | N].
  { rewrite E. simpl. simpl in IH. lia. }
  destruct (String.eqb_spec (status m) "error") as [E' | N'].
  { rewrite E'. simpl. simpl in IH. lia. }
  rewrite bool_decide_eq_false_2; [ exact IH | ].
  intros Hin. apply elem_of_cons in Hin as [? | Hin]; [ done | ].
  apply elem_of_cons in Hin as [? | Hin]; [ done | ].
  by apply elem_of_nil in Hin.
Qed.

End MoreCounters.

(** [add_results] on the list of results and on [total]. *)
Lemma add_results_app (r : TestResult) (ms : list MethodResult) :
  method_results (add_results r ms) = method_results r ++ ms /\
  total (add_results r ms) = total r + Z.of_nat (length ms).
Proof.
  induction ms as [| m ms [IHl IHt]] using rev_ind.
  - simpl. rewrite app_nil_r. split; [ reflexivity | lia ].
  - rewrite add_results_snoc, add_result_method_results, add_result_total.
    rewrite IHl, IHt, length_app, <- app_assoc. simpl. split; [ done | lia ].
Qed.

(** X1: [add_result] is append-only: after any sequence of calls the list
    of results is the old list followed by the added results in the order
    of the calls, and [total] has grown by the number of calls, whatever
    their statuses. *)
Theorem add_results_appends (r : TestResult) (ms : list MethodResult) :
  method_results (add_results r ms) = method_results r ++ ms /\
  total (add_results r ms) = total r + Z.of_nat (length ms).
Proof.
  exact (add_results_app r ms).
Qed.

(** X2: on a [TestResult] filled from a fresh one by [add_result] calls of
    any statuses, each counter is the number of results of its status, and
    [get_failed_results] returns as many results as [failed + errors]. *)
Theorem get_failed_results_counts (ms : list MethodResult) :
  let r := add_results TestResult_init ms in
  passed r = count_status "pass" ms /\
  failed r = count_status "fail" ms /\
  errors r = count_status "error" ms /\
  Z.of_nat (length (get_failed_results r)) = failed r + errors r.
Proof.
  cbv zeta.
  assert (Hex : counters_exact (add_results TestResult_init ms)).
  { apply add_results_exact. repeat split. }
  destruct Hex as (Hp & Hf & He).
  destruct (add_results_app TestResult_init ms) as [Hl _].
  simpl in Hl.
  rewrite length_get_failed_results, Hp, Hf, He, Hl. auto.
Qed.



(** ** The configuration as a dictionary *)

Section ConfigDict.

Lemma has_test_type_true (c : Config) (t : string) :
  has_test_type c t = true <-> is_Some (test_patterns c !! t).
Proof. unfold has_test_type. apply bool_decide_eq_true. Qed.

Lemma elem_of_get_test_types (c : Config) (t : string) :
  t ∈ get_test_types c <-> is_Some (test_patterns c !! t).
Proof.
  unfold get_test_types. rewrite list_elem_of_fmap. split.
  - intros ([k v] & -> & Hin). apply elem_of_map_to_list in Hin. by exists v.
  - intros [v Hv]. exists (t, v). split; [ done | ].
    by apply elem_of_map_to_list.
Qed.

Lemma elem_of_concat {A} (x : A) (ls : list (list A)) :
  x ∈ concat ls <-> exists l, x ∈ l /\ l ∈ ls.
Proof.
  induction ls as [| l ls IH]; simpl.
  - split; [ by intros ?%elem_of_nil | intros (l & _ & Hl) ].
    by apply elem_of_nil in Hl.
  - rewrite elem_of_app, IH. split.
    + intros [Hx | (l' & Hx & Hl')].
      * exists l. split; [ done | apply elem_of_cons; by left ].
      * exists l'. split; [ done | apply elem_of_cons; by right ].
    + intros (l' & Hx & Hl'). apply elem_of_cons in Hl' as [-> | Hl'].
      * by left.
      * right. eauto.
Qed.

Lemma elem_of_map_values (m : gmap string (list string)) (ps : list string) :
  ps ∈ (map_to_list m).*2 <-> exists t, m !! t = Some ps.
Proof.
  rewrite list_elem_of_fmap. split.
  - intros ([k v] & -> & Hin). exists k. by apply elem_of_map_to_list.
  - intros [t Ht]. exists (t, ps). split; [ done | ].
    by apply elem_of_map_to_list.
Qed.

End ConfigDict.

(** A test type is configured exactly when it is among
    [get_test_types], no type is listed twice, and a type that is not
    configured has no patterns: [get_patterns_for_test_type] returns the
    empty list for it. *)
Lemma config_test_types (c : Config) (t : string) :
  (has_test_type c t = true <-> t ∈ get_test_types c) /\
  NoDup (get_test_types c) /\
  (has_test_type c t = false -> get_patterns_for_test_type c t = []).
Proof.
  split; [ | split ].
  - by rewrite has_test_type_true, elem_of_get_test_types.
  - unfold get_test_types. apply NoDup_fst_map_to_list.
  - intros Hno. unfold get_patterns_for_test_type.
    destruct (test_patterns c !! t) as [ps |] eqn:E; [ | reflexivity ].
    assert (has_test_type c t = true) as Hyes
      by (apply has_test_type_true; rewrite E; eauto).
    congruence.
Qed.

(** X4: after [add_custom_test_type] the new type is configured and has
    the given patterns (an older entry of that name is replaced), every
    other type keeps its patterns, and groups and coverage settings are
    as before. *)
Theorem add_custom_test_type_lookup (c : Config) (t : string)
    (patterns : list string) :
  let c' := add_custom_test_type c t patterns in
  has_test_type c' t = true /\
  t ∈ get_test_types c' /\
  get_patterns_for_test_type c' t = patterns /\
  (forall t', t' <> t ->
     has_test_type c' t' = has_test_type c t' /\
     get_patterns_for_test_type c' t' = get_patterns_for_test_type c t') /\
  test_groups c' = test_groups c /\
  coverage_enabled c' = coverage_enabled c /\
  html_coverage c' = html_coverage c /\
  html_coverage_dir c' = html_coverage_dir c.
Proof.
  cbv zeta.
  assert (Hnew : test_patterns (add_custom_test_type c t patterns) !! t
                 = Some patterns) by apply lookup_insert_eq.
  split; [ apply has_test_type_true; rewrite Hnew; eauto | ].
  split; [ apply elem_of_get_test_types; rewrite Hnew; eauto | ].
  split; [ unfold get_patterns_for_test_type; by rewrite Hnew | ].
  split; [ | repeat split ].
  intros t' Hne.
  assert (Hold : test_patterns (add_custom_test_type c t patterns) !! t'
                 = test_patterns c !! t') by (by apply lookup_insert_ne).
  unfold has_test_type, get_patterns_for_test_type. by rewrite Hold.
Qed.

(** X5: [get_all_patterns] lists every pattern of every configured type
    once: it has no repetition, and a pattern is in it exactly when some
    type has it. *)
Theorem get_all_patterns_spec (c : Config) (p : string) :
  NoDup (get_all_patterns c) /\
  (p ∈ get_all_patterns c <->
   exists t patterns, test_patterns c !! t = Some patterns /\ p ∈ patterns).
Proof.
  unfold get_all_patterns. split; [ apply NoDup_elements | ].
  rewrite elem_of_elements, elem_of_list_to_set, fold_left_app_concat.
  simpl. rewrite elem_of_concat. split.
  - intros (ps & Hp & Hps). apply elem_of_map_values in Hps as [t Ht]. eauto.
  - intros (t & ps & Ht & Hp). exists ps. split; [ done | ].
    apply elem_of_map_values. eauto.
Qed.

(** ** What discovery finds *)

Section DiscoveryContents.

Context (fs : FileSystem).

Lemma sorted_set_ext (xs ys : list string) :
  (forall x, x ∈ xs <-> x ∈ ys) -> sorted_set xs = sorted_set ys.
Proof.
  intros Hext. unfold sorted_set.
  assert (list_to_set (C := gset string) xs = list_to_set ys) as ->;
    [ | reflexivity ].
  apply set_eq. intros x. rewrite !elem_of_list_to_set. apply Hext.
Qed.

Lemma fold_left_extend {A B} (g : A -> list B) (l : list A) (acc : list B) :
  fold_left (fun acc a => acc ++ g a) l acc = acc ++ concat (map g l).
Proof.
  revert acc. induction l as [| a l IH]; intros acc; simpl.
  - by rewrite app_nil_r.
  - by rewrite IH, <- app_assoc.
Qed.

Lemma get_test_files_by_type_known (test_type : string) (config : Config)
    (search_path : string) :
  has_test_type config test_type = true ->
  get_test_files_by_type fs test_type config search_path
  = (sorted_set
       (concat (map (fun pattern =>
                       glob_recursive fs (path_join search_path ["**"; pattern]))
                    (get_patterns_for_test_type config test_type))),
     []).
Proof.
  intros Hhas. unfold get_test_files_by_type. rewrite Hhas. cbn [negb].
  unfold out_ret. f_equal. f_equal.
  apply (fold_left_extend
           (fun pattern => glob_recursive fs (path_join search_path ["**"; pattern]))).
Qed.

Lemma get_test_files_by_type_unknown (test_type : string) (config : Config)
    (search_path : string) :
  has_test_type config test_type = false ->
  get_test_files_by_type fs test_type config search_path
  = ([], [UnknownTestType test_type]).
Proof.
  intros Hhas. unfold get_test_files_by_type. rewrite Hhas. reflexivity.
Qed.

Lemma elem_of_get_test_files_by_type (test_type : string) (config : Config)
    (search_path f : string) :
  f ∈ (get_test_files_by_type fs test_type config search_path).1 <->
  exists pattern,
    pattern ∈ get_patterns_for_test_type config test_type /\
    f ∈ glob_recursive fs (path_join search_path ["**"; pattern]).
Proof.
  destruct (has_test_type config test_type) eqn:Hhas.
  - rewrite (get_test_files_by_type_known _ _ _ Hhas). cbn [fst].
    rewrite elem_of_sorted_set, elem_of_concat. split.
    + intros (l & Hf & Hl). apply list_elem_of_fmap in Hl as (p & -> & Hp).
      eauto.
    + intros (p & Hp & Hf). eexists. split; [ exact Hf | ].
      apply list_elem_of_fmap. eauto.
  - rewrite (get_test_files_by_type_unknown _ _ _ Hhas). cbn [fst].
    destruct (config_test_types config test_type) as (_ & _ & Hnone).
    rewrite (Hnone Hhas). split.
    + by intros ?%elem_of_nil.
    + intros (p & Hp & _). by apply elem_of_nil in Hp.
Qed.

(** The dictionary [get_all_test_files] builds, entry by entry. *)
Lemma get_all_test_files_fold (config : Config) (search_path : string)
    (types : list string) (acc : Out (gmap string (list string)))
    (t : string) :
  (fold_left
     (fun acc test_type =>
        do all_test_files <- acc;
        do test_files <- get_test_files_by_type fs test_type config search_path;
        out_ret (if list_truthy test_files
                 then <[test_type := test_files]> all_test_files
                 else all_test_files))
     types acc).1 !! t
  = if bool_decide (t ∈ types)
       && list_truthy (get_test_files_by_type fs t config search_path).1
    then Some (get_test_files_by_type fs t config search_path).1
    else acc.1 !! t.
Proof.
  revert acc. induction types as [| t0 types IH]; intros acc; cbn [fold_left].
  - reflexivity.
  - rewrite IH. rewrite !out_bind_fst. cbn [out_ret fst].
    destruct (decide (t = t0)) as [-> | Hne].
    + rewrite (bool_decide_eq_true_2 (t0 ∈ t0 :: types))
        by (apply elem_of_cons; by left).
      destruct (list_truthy _) eqn:Htr.
      * rewrite andb_true_r, lookup_insert_eq.
        by destruct (bool_decide (t0 ∈ types)).
      * by rewrite !andb_false_r.
    + assert (Hsame : bool_decide (t ∈ t0 :: types) = bool_decide (t ∈ types)).
      { apply bool_decide_ext. rewrite elem_of_cons. tauto. }
      rewrite Hsame.
      destruct (bool_decide (t ∈ types)
                && list_truthy (get_test_files_by_type fs t config search_path).1);
        [ reflexivity | ].
      destruct (list_truthy _); [ by rewrite lookup_insert_ne | reflexivity ].
Qed.

Lemma get_all_test_files_lookup (config : Config) (search_path t : string) :
  (get_all_test_files fs config search_path).1 !! t
  = if has_test_type config t
       && list_truthy (get_test_files_by_type fs t config search_path).1
    then Some (get_test_files_by_type fs t config search_path).1
    else None.
Proof.
  unfold get_all_test_files. rewrite get_all_test_files_fold.
  cbn [out_ret fst]. rewrite lookup_empty.
  assert (Hsame : bool_decide (t ∈ get_test_types config)
                  = has_test_type config t).
  { unfold has_test_type. apply bool_decide_ext.
    apply elem_of_get_test_types. }
  by rewrite Hsame.
Qed.

Lemma list_truthy_elem {A} (l : list A) (x : A) : x ∈ l -> list_truthy l = true.
Proof. destruct l; [ by intros ?%elem_of_nil | reflexivity ]. Qed.

Lemma discover_tests_all (config : option Config) (search_path : string) :
  (discover_tests fs None None None config search_path).1
  = sorted_set
      (concat (map_to_list
                 (get_all_test_files fs (default Config_default config)
                    search_path).1).*2).
Proof.
  unfold discover_tests. rewrite !out_bind_fst.
  cbn [opt_list_truthy opt_str_truthy].
  rewrite !out_bind_fst. cbn [out_ret fst].
  by rewrite fold_left_app_concat.
Qed.

End DiscoveryContents.

(** X6: the files [get_test_files_by_type] returns for a type are the
    matches of the recursive globs [<search_path>/**/<pattern>] over the
    patterns of the type, and no other; for a type that is not configured
    it warns and returns the empty list. *)
Theorem get_test_files_by_type_spec (fs : FileSystem) (test_type : string)
    (config : Config) (search_path : string) :
  (forall f,
     f ∈ (get_test_files_by_type fs test_type config search_path).1 <->
     exists pattern,
       pattern ∈ get_patterns_for_test_type config test_type /\
       f ∈ glob_recursive fs (path_join search_path ["**"; pattern])) /\
  (has_test_type config test_type = false ->
   get_test_files_by_type fs test_type config search_path
   = ([], [UnknownTestType test_type])) /\
  (has_test_type config test_type = true ->
   (get_test_files_by_type fs test_type config search_path).2 = []).
Proof.
  split; [ | split ].
  - intros f. apply elem_of_get_test_files_by_type.
  - apply get_test_files_by_type_unknown.
  - intros Hhas. by rewrite (get_test_files_by_type_known fs _ _ _ Hhas).
Qed.

Lemma get_test_files_by_type_spec_witness :
  has_test_type sample_config "nope" = false /\
  get_test_files_by_type sample_fs "nope" sample_config "."
  = ([], [UnknownTestType "nope"]) /\
  has_test_type sample_config "unit" = true /\
  "./pkg/test_deep.py"
    ∈ (get_test_files_by_type sample_fs "unit" sample_config ".").1 /\
  (get_test_files_by_type sample_fs "unit" sample_config ".").2 = [].
Proof.
  destruct (get_test_files_by_type_spec sample_fs "nope" sample_config ".")
    as (_ & Hno & _).
  destruct (get_test_files_by_type_spec sample_fs "unit" sample_config ".")
    as (Hfiles & _ & Hyes).
  split; [ reflexivity | ]. split; [ exact (Hno eq_refl) | ].
  split; [ reflexivity | ]. split; [ | exact (Hyes eq_refl) ].
  apply Hfiles. exists "test_*.py". split.
  - apply (bool_decide_unpack
             ("test_*.py" ∈ get_patterns_for_test_type sample_config "unit")).
    vm_compute. exact I.
  - apply (bool_decide_unpack
             ("./pkg/test_deep.py"
                ∈ glob_recursive sample_fs (path_join "." ["**"; "test_*.py"]))).
    vm_compute. exact I.
Defined.

(** X7: the order of the patterns of a type, and a pattern listed twice,
    make no difference: two configurations that give a type the same set
    of patterns give it the same list of files. *)
Theorem get_test_files_by_type_pattern_order (fs : FileSystem)
    (test_type : string) (config config' : Config) (search_path : string) :
  has_test_type config test_type = true ->
  has_test_type config' test_type = true ->
  (forall pattern,
     pattern ∈ get_patterns_for_test_type config test_type <->
     pattern ∈ get_patterns_for_test_type config' test_type) ->
  get_test_files_by_type fs test_type config search_path
  = get_test_files_by_type fs test_type config' search_path.
Proof.
  intros Hhas Hhas' Hsame.
  rewrite (get_test_files_by_type_known fs _ _ _ Hhas).
  rewrite (get_test_files_by_type_known fs _ _ _ Hhas').
  f_equal. apply sorted_set_ext. intros f.
  rewrite !elem_of_concat. split.
  - intros (l & Hf & Hl). apply list_elem_of_fmap in Hl as (p & -> & Hp).
    eexists. split; [ exact Hf | ].
    apply list_elem_of_fmap. exists p. split; [ done | by apply Hsame ].
  - intros (l & Hf & Hl). apply list_elem_of_fmap in Hl as (p & -> & Hp).
    eexists. split; [ exact Hf | ].
    apply list_elem_of_fmap. exists p. split; [ done | by apply Hsame ].
Qed.

(** X8: with no modules, group or type given, [discover_tests] returns the
    union over the configured types: a file is found exactly when the
    discovery of some type finds it; hence what the discovery of one type
    returns is part of what the discovery of everything returns. *)
Theorem discover_tests_all_is_union (fs : FileSystem) (config : Config)
    (search_path : string) :
  (forall f,
     f ∈ (discover_tests fs None None None (Some config) search_path).1 <->
     exists test_type,
       f ∈ (get_test_files_by_type fs test_type config search_path).1) /\
  (forall test_type f,
     test_type <> "" ->
     f ∈ (discover_tests fs (Some test_type) None None (Some config)
            search_path).1 ->
     f ∈ (discover_tests fs None None None (Some config) search_path).1).
Proof.
  assert (Hall : forall f,
     f ∈ (discover_tests fs None None None (Some config) search_path).1 <->
     exists test_type,
       f ∈ (get_test_files_by_type fs test_type config search_path).1).
  { intros f. rewrite discover_tests_all.
    change (default Config_default (Some config)) with config.
    rewrite elem_of_sorted_set, elem_of_concat. split.
    - intros (l & Hf & Hl). apply elem_of_map_values in Hl as [t Ht].
      rewrite get_all_test_files_lookup in Ht.
      destruct (has_test_type config t
                && list_truthy (get_test_files_by_type fs t config search_path).1);
        [ | discriminate ].
      injection Ht as <-. eauto.
    - intros (t & Hf).
      exists (get_test_files_by_type fs t config search_path).1.
      split; [ exact Hf | ].
      apply elem_of_map_values. exists t.
      rewrite get_all_test_files_lookup.
      rewrite (list_truthy_elem _ _ Hf), andb_true_r.
      destruct (has_test_type config t) eqn:Hhas; [ reflexivity | ].
      rewrite (get_test_files_by_type_unknown fs _ _ _ Hhas) in Hf.
      by apply elem_of_nil in Hf. }
  split; [ exact Hall | ].
  intros t f Hne Hf. apply Hall. exists t.
  unfold discover_tests in Hf. rewrite !out_bind_fst in Hf.
  cbn [opt_list_truthy opt_str_truthy default from_option] in Hf.
  rewrite (str_truthy_true t Hne) in Hf.
  by rewrite !out_bind_fst in Hf.
Qed.

Lemma discover_tests_all_is_union_witness :
  "unit" <> "" /\
  "./test_clean.py"
    ∈ (discover_tests sample_fs (Some "unit") None None (Some Config_default)
         ".").1 /\
  "./test_clean.py"
    ∈ (discover_tests sample_fs None None None (Some Config_default) ".").1.
Proof.
  assert (Hin : "./test_clean.py"
    ∈ (discover_tests sample_fs (Some "unit") None None (Some Config_default)
         ".").1).
  { vm_compute. repeat constructor. }
  split; [ discriminate | ]. split; [ exact Hin | ].
  destruct (discover_tests_all_is_union sample_fs Config_default ".")
    as [_ Hsub].
  apply (Hsub "unit" "./test_clean.py"); [ discriminate | exact Hin ].
Defined.

Lemma get_test_files_by_type_pattern_order_witness :
  has_test_type Config_default "unit" = true /\
  has_test_type reordered_config "unit" = true /\
  get_patterns_for_test_type Config_default "unit"
  <> get_patterns_for_test_type reordered_config "unit" /\
  get_test_files_by_type sample_fs "unit" Config_default "."
  = get_test_files_by_type sample_fs "unit" reordered_config ".".
Proof.
  split; [ reflexivity | ].
  split; [ reflexivity | ].
  split; [ vm_compute; discriminate | ].
  apply get_test_files_by_type_pattern_order; [ reflexivity | reflexivity | ].
  intros pattern.
  change (get_patterns_for_test_type Config_default "unit")
    with ["test_*.py"; "*_test.py"].
  change (get_patterns_for_test_type reordered_config "unit")
    with ["*_test.py"; "test_*.py"; "*_test.py"].
  rewrite !elem_of_cons. tauto.
Defined.

(** ** The strategies of [discover_tests] *)

Section Strategies.

Context (fs : FileSystem).

Lemma discover_tests_modules_full (test_type : option string)
    (module_names : list string) (group : option string)
    (config : option Config) (search_path : string) :
  module_names <> [] ->
  discover_tests fs test_type (Some module_names) group config search_path
  = (do test_files <-
       (say DiscoveringModules module_names;
        discover_files_by_modules fs module_names search_path);
     say FoundTestFiles (length test_files);
     out_ret test_files).
Proof.
  intros Hne. unfold discover_tests.
  by destruct module_names; [ contradiction | ].
Qed.

Lemma discover_tests_group_full (test_type : option string) (group : string)
    (config : option Config) (search_path : string) :
  group <> "" ->
  discover_tests fs test_type None (Some group) config search_path
  = (do test_files <-
       (say DiscoveringGroup group;
        do group_modules <-
          resolve_test_group group (default Config_default config);
        if list_truthy group_modules then
          discover_files_by_modules fs group_modules search_path
        else
          say NoModulesInGroup group;
          out_ret []);
     say FoundTestFiles (length test_files);
     out_ret test_files).
Proof.
  intros Hne. unfold discover_tests.
  cbn [opt_list_truthy opt_str_truthy default from_option id].
  by rewrite (str_truthy_true group Hne).
Qed.

End Strategies.

(** X9: the first strategy that applies decides alone.  With a non-empty
    list of modules the result and the printed lines do not depend on the
    group, the test type or the configuration; with no modules and a
    non-empty group name they do not depend on the test type. *)
Theorem discover_tests_priority (fs : FileSystem)
    (module_names : list string) (group_name : string)
    (test_type test_type' group group' : option string)
    (config config' : option Config) (search_path : string) :
  (module_names <> [] ->
   discover_tests fs test_type (Some module_names) group config search_path
   = discover_tests fs test_type' (Some module_names) group' config'
       search_path) /\
  (group_name <> "" ->
   discover_tests fs test_type None (Some group_name) config search_path
   = discover_tests fs test_type' None (Some group_name) config search_path).
Proof.
  split.
  - intros Hne. by rewrite !discover_tests_modules_full.
  - intros Hne. by rewrite !discover_tests_group_full.
Qed.

Lemma discover_tests_priority_witness :
  ["test_clean"] <> [] /\ "core" <> "" /\
  discover_tests sample_fs (Some "unit") (Some ["test_clean"]) (Some "core")
    (Some sample_config) "."
  = discover_tests sample_fs None (Some ["test_clean"]) None None "." /\
  discover_tests sample_fs (Some "unit") None (Some "core")
    (Some sample_config) "."
  = discover_tests sample_fs None None (Some "core") (Some sample_config) ".".
Proof.
  split; [ discriminate | ]. split; [ discriminate | ].
  destruct (discover_tests_priority sample_fs ["test_clean"] "core"
              (Some "unit") None (Some "core") None
              (Some sample_config) None ".") as [Hmod _].
  destruct (discover_tests_priority sample_fs ["test_clean"] "core"
              (Some "unit") None None None
              (Some sample_config) None ".") as [_ Hgrp].
  split; [ apply Hmod; discriminate | apply Hgrp; discriminate ].
Defined.

(** X10: a strategy that applies and finds nothing ends the discovery
    with the empty list; no later strategy is tried.  That is so for a
    group the configuration does not have, for a group whose list of
    modules is empty, and for a test type the configuration does not
    have. *)
Theorem discover_tests_dead_ends (fs : FileSystem) (name : string)
    (test_type : option string) (config : Config) (search_path : string) :
  name <> "" ->
  (test_groups config !! name = None ->
   discover_tests fs test_type None (Some name) (Some config) search_path
   = ([], [DiscoveringGroup name; GroupNotFound name; NoModulesInGroup name;
           FoundTestFiles 0])) /\
  (test_groups config !! name = Some [] ->
   discover_tests fs test_type None (Some name) (Some config) search_path
   = ([], [DiscoveringGroup name; GroupContains name [];
           NoModulesInGroup name; FoundTestFiles 0])) /\
  (has_test_type config name = false ->
   discover_tests fs (Some name) None None (Some config) search_path
   = ([], [DiscoveringType name; UnknownTestType name; FoundTestFiles 0])).
Proof.
  intros Hne. split; [ | split ].
  - intros Hlook. rewrite (discover_tests_group_full fs _ _ _ _ Hne).
    cbn [default from_option id]. unfold resolve_test_group.
    by rewrite Hlook.
  - intros Hlook. rewrite (discover_tests_group_full fs _ _ _ _ Hne).
    cbn [default from_option id]. unfold resolve_test_group.
    by rewrite Hlook.
  - intros Hhas. unfold discover_tests.
    cbn [opt_list_truthy opt_str_truthy default from_option id].
    rewrite (str_truthy_true name Hne).
    by rewrite (get_test_files_by_type_unknown fs _ _ _ Hhas).
Qed.

Lemma discover_tests_dead_ends_witness :
  "all" <> "" /\
  test_groups Config_default !! "all" = Some [] /\
  discover_tests sample_fs (Some "unit") None (Some "all")
    (Some Config_default) "."
  = ([], [DiscoveringGroup "all"; GroupContains "all" [];
          NoModulesInGroup "all"; FoundTestFiles 0]).
Proof.
  split; [ discriminate | ]. split; [ reflexivity | ].
  destruct (discover_tests_dead_ends sample_fs "all" (Some "unit")
              Config_default ".") as (_ & Hempty & _);
    [ discriminate | ].
  exact (Hempty eq_refl).
Defined.

(** X11: the files [discover_files_by_modules] returns are those of the
    names asked for: a file is returned exactly when it is among the files
    of one of the names.  So neither the order of the names nor a name
    given twice changes the list of files. *)
Theorem discover_files_by_modules_names_as_set (fs : FileSystem)
    (module_names module_names' : list string) (search_path : string) :
  (forall f,
     f ∈ (discover_files_by_modules fs module_names search_path).1 <->
     exists module_name,
       module_name ∈ module_names /\
       f ∈ spec_module_files fs search_path module_name) /\
  ((forall module_name,
      module_name ∈ module_names <-> module_name ∈ module_names') ->
   (discover_files_by_modules fs module_names search_path).1
   = (discover_files_by_modules fs module_names' search_path).1).
Proof.
  assert (Hmem : forall names f,
     f ∈ concat (map (spec_module_files fs search_path) names) <->
     exists module_name,
       module_name ∈ names /\ f ∈ spec_module_files fs search_path module_name).
  { intros names f. rewrite elem_of_concat. split.
    - intros (l & Hf & Hl). apply list_elem_of_fmap in Hl as (n & -> & Hn).
      eauto.
    - intros (n & Hn & Hf). eexists. split; [ exact Hf | ].
      apply list_elem_of_fmap. eauto. }
  rewrite !discover_files_by_modules_spec. unfold spec_discover_modules.
  cbn [fst]. split.
  - intros f. rewrite elem_of_sorted_set. apply Hmem.
  - intros Hsame. apply sorted_set_ext. intros f. rewrite !Hmem. split.
    + intros (n & Hn & Hf). exists n. split; [ by apply Hsame | done ].
    + intros (n & Hn & Hf). exists n. split; [ by apply Hsame | done ].
Qed.

Lemma discover_files_by_modules_names_as_set_witness :
  (forall module_name,
     module_name ∈ ["test_deep"; "test_clean"; "test_deep"] <->
     module_name ∈ ["test_clean"; "test_deep"]) /\
  (discover_files_by_modules sample_fs ["test_deep"; "test_clean"; "test_deep"]
     ".").1
  = (discover_files_by_modules sample_fs ["test_clean"; "test_deep"] ".").1.
Proof.
  assert (Hsame : forall module_name,
     module_name ∈ ["test_deep"; "test_clean"; "test_deep"] <->
     module_name ∈ ["test_clean"; "test_deep"]).
  { intros n. rewrite !elem_of_cons. tauto. }
  split; [ exact Hsame | ].
  destruct (discover_files_by_modules_names_as_set sample_fs
              ["test_deep"; "test_clean"; "test_deep"]
              ["test_clean"; "test_deep"] ".") as [_ Heq].
  exact (Heq Hsame).
Defined.

(** ** Importing and inspecting a module *)

Section Importing.

Context (fs : FileSystem).

Lemma safe_import_module_try_shape (ld : Loader) (module_name : string)
    (file_path : option string) (sys_path : list string) :
  match (safe_import_module_try fs ld module_name file_path sys_path).1 with
  | inr (Some _, true, None) => True
  | inr (None, false, Some _) => True
  | inr _ => False
  | inl _ => True
  end.
Proof.
  unfold safe_import_module_try.
  destruct (opt_str_truthy file_path && path_exists fs (default "" file_path)).
  - destruct (spec_from_file_location ld module_name (default "" file_path));
      [ | exact I ].
    destruct (negb (bool_decide (_ ∈ sys_path))).
    + destruct (exec_module ld _ _ _) as [[e | m] q]; cbn [loaded];
        destruct (py_list_remove _ q); exact I.
    + destruct (exec_module ld _ _ _) as [[e | m] q]; exact I.
  - destruct (import_module ld module_name sys_path) as [[e | m] q]; exact I.
Qed.

Lemma fold_left_out_extend {A B} (g : A -> Out (list B)) (l : list A)
    (acc : Out (list B)) :
  (fold_left (fun acc a => do xs <- acc; do ys <- g a; out_ret (xs ++ ys))
             l acc).1
  = acc.1 ++ concat (map (fun a => (g a).1) l).
Proof.
  revert acc. induction l as [| a l IH]; intros acc; cbn [fold_left map concat].
  - by rewrite app_nil_r.
  - rewrite IH, !out_bind_fst. cbn [out_ret fst]. by rewrite <- app_assoc.
Qed.

Lemma class_test_methods_fst (module_name : string) (file_path : option string)
    (class_name : string) (members : list (string * Member)) :
  (class_test_methods module_name file_path class_name members).1
  = concat (map (member_test_methods module_name file_path class_name) members).
Proof.
  unfold class_test_methods.
  assert (Hgen : forall acc : Out (list TestMethod),
    (fold_left
       (fun acc '(method_name, member) =>
          do test_methods <- acc;
          if startswith method_name "test" then
            match member with
            | MemberCallable =>
                out_ret (test_methods ++
                  [TestMethod_init method_name module_name (Some class_name)
                     file_path])
            | MemberPlain => out_ret test_methods
            | MemberRaises e =>
                say ErrorAccessingMethod method_name class_name (str_exc e);
                out_ret test_methods
            end
          else out_ret test_methods)
       members acc).1
    = acc.1 ++ concat (map (member_test_methods module_name file_path class_name)
                           members)).
  { induction members as [| [n mem] members IH]; intros acc;
      cbn [fold_left map concat].
    - by rewrite app_nil_r.
    - rewrite IH, out_bind_fst. unfold member_test_methods. cbn [fst snd].
      destruct (startswith n "test"), mem;
        rewrite ?out_bind_fst; cbn [out_ret fst app];
        rewrite <- ?app_assoc, ?app_nil_r; reflexivity. }
  apply (Hgen (out_ret [])).
Qed.

Lemma class_pass_fst (module_name : string) (file_path : option string)
    (attrs : list (string * Attr)) (acc : Out (list TestMethod)) :
  (fold_left
     (fun acc '(attr_name, attr) =>
        do test_methods <- acc;
        match attr with
        | TestCaseClass members =>
            do ms <- class_test_methods module_name file_path attr_name members;
            out_ret (test_methods ++ ms)
        | AttrRaises e =>
            say ErrorAccessingAttribute attr_name module_name (str_exc e);
            out_ret test_methods
        | _ => out_ret test_methods
        end)
     attrs acc).1
  = acc.1 ++ concat (map (class_attr_test_methods module_name file_path) attrs).
Proof.
  revert acc. induction attrs as [| [n a] l IH]; intros acc;
    cbn [fold_left map concat].
  - by rewrite app_nil_r.
  - rewrite IH, out_bind_fst. unfold class_attr_test_methods at 2.
    cbn [fst snd].
    destruct a; rewrite ?out_bind_fst; cbn [out_ret fst app];
      rewrite ?class_test_methods_fst, <- ?app_assoc, ?app_nil_r;
      reflexivity.
Qed.

Lemma function_pass_fst (module_name : string) (file_path : option string)
    (attrs : list (string * Attr)) (acc : Out (list TestMethod)) :
  (fold_left
     (fun acc '(attr_name, attr) =>
        do test_methods <- acc;
        if startswith attr_name "test" then
          match attr with
          | Function =>
              out_ret (test_methods ++
                [TestMethod_init attr_name module_name None file_path])
          | AttrRaises e =>
              say ErrorAccessingFunction attr_name module_name (str_exc e);
              out_ret test_methods
          | _ => out_ret test_methods
          end
        else out_ret test_methods)
     attrs acc).1
  = acc.1 ++ concat (map (function_attr_test_methods module_name file_path)
                         attrs).
Proof.
  revert acc. induction attrs as [| [n a] l IH]; intros acc;
    cbn [fold_left map concat].
  - by rewrite app_nil_r.
  - rewrite IH, out_bind_fst. unfold function_attr_test_methods at 2.
    cbn [fst snd].
    destruct (startswith n "test"), a;
      rewrite ?out_bind_fst; cbn [out_ret fst app];
      rewrite <- ?app_assoc, ?app_nil_r; reflexivity.
Qed.

Lemma inspect_loaded (ld : Loader) (module_name : string)
    (file_path : option string) (sys_path sys_path' : list string)
    (module : Module) (msg : option string) :
  safe_import_module fs ld module_name file_path sys_path
  = ((Some module, true, msg), sys_path') ->
  (inspect_module_for_tests fs ld module_name file_path sys_path).1.1
  = concat (map (class_attr_test_methods module_name file_path) (mod_dir module))
    ++ concat (map (function_attr_test_methods module_name file_path)
                   (mod_dir module)).
Proof.
  intros Himp. unfold inspect_module_for_tests. rewrite Himp. cbn [fst].
  rewrite out_bind_fst, function_pass_fst, class_pass_fst.
  reflexivity.
Qed.

End Importing.

(** What [safe_import_module] returns is one of two shapes: a module
    with the success flag set and no error message, or no module with the
    flag unset and an error message. *)
Lemma safe_import_module_shape (fs : FileSystem) (ld : Loader)
    (module_name : string) (file_path : option string)
    (sys_path : list string) :
  let '(module, success, error_msg) :=
    (safe_import_module fs ld module_name file_path sys_path).1 in
  (success = true /\ is_Some module /\ error_msg = None) \/
  (success = false /\ module = None /\ is_Some error_msg).
Proof.
  unfold safe_import_module.
  pose proof (safe_import_module_try_shape fs ld module_name file_path sys_path)
    as Hshape.
  destruct (safe_import_module_try fs ld module_name file_path sys_path)
    as [[e | [[module success] error_msg]] q]; cbn [fst] in *.
  - destruct e; right; eauto.
  - destruct module, success, error_msg; try contradiction; eauto.
Qed.

Lemma py_list_remove_None (x : string) (l : list string) :
  py_list_remove x l = None <-> x ∉ l.
Proof.
  induction l as [| y l IH]; cbn [py_list_remove].
  - split; [ intros _; apply not_elem_of_nil | done ].
  - destruct (decide (x = y)) as [-> | Hne].
    + split; [ discriminate | ]. intros Hnot. exfalso. apply Hnot.
      apply elem_of_cons. by left.
    + rewrite not_elem_of_cons. destruct (py_list_remove x l).
      * split; [ discriminate | ]. intros [_ Hnot].
        by apply IH in Hnot.
      * split; [ | done ]. intros _. split; [ done | by apply IH ].
Qed.

(** X12: which loader runs, and what comes back.  With a file path that
    is given and exists, and a module spec for it, the module is executed
    from the file, with the directory of the file on [sys.path], and the
    call returns what that execution comes to: the module and [True], or
    the message for the exception raised.  One case apart: when the
    directory was prepended and the module's code took it off [sys.path]
    again, removing it raises and the call returns the message of that
    error, also for a module that loaded.  When no module spec can be
    made nothing is loaded, [sys.path] stays as it is and the error names
    the module and the file.  Without such a file the module is imported
    by name and the call returns what that import comes to. *)
Theorem safe_import_module_route (fs : FileSystem) (ld : Loader)
    (module_name : string) (file_path : option string)
    (sys_path : list string) :
  let from_file :=
    opt_str_truthy file_path && path_exists fs (default "" file_path) in
  let returned := (safe_import_module fs ld module_name file_path sys_path).1 in
  (from_file = true ->
   spec_from_file_location ld module_name (default "" file_path) = true ->
   let module_dir := module_dir_of ld (default "" file_path) in
   let during :=
     if bool_decide (module_dir ∈ sys_path) then sys_path
     else module_dir :: sys_path in
   let executed := exec_module ld module_name (default "" file_path) during in
   returned
   = if bool_decide (module_dir ∈ sys_path)
        || bool_decide (module_dir ∈ executed.2)
     then import_outcome module_name executed.1
     else (None, false,
           Some ("Unexpected error importing " +:+ module_name
                 +:+ ": list.remove(x): x not in list"))) /\
  (from_file = true ->
   spec_from_file_location ld module_name (default "" file_path) = false ->
   safe_import_module fs ld module_name file_path sys_path
   = ((None, false,
       Some ("Could not create module spec for " +:+ module_name
             +:+ " at " +:+ default "" file_path)),
      sys_path)) /\
  (from_file = false ->
   returned = import_outcome module_name (import_module ld module_name sys_path).1).
Proof.
  cbv zeta. unfold safe_import_module, safe_import_module_try.
  split; [ | split ].
  - intros -> ->.
    destruct (bool_decide (module_dir_of ld (default "" file_path) ∈ sys_path));
      cbn [negb orb].
    + destruct (exec_module ld module_name (default "" file_path) sys_path)
        as [[e | module] q]; cbn [fst loaded import_outcome]; [ | reflexivity ].
      by destruct e.
    + destruct (exec_module ld module_name (default "" file_path)
                  (module_dir_of ld (default "" file_path) :: sys_path))
        as [r q]. cbn [fst snd].
      destruct (py_list_remove (module_dir_of ld (default "" file_path)) q)
        as [q' |] eqn:Hremove.
      * rewrite bool_decide_eq_true_2.
        2: { destruct (decide (module_dir_of ld (default "" file_path) ∈ q))
               as [Hin | Hnot]; [ exact Hin | ].
             apply py_list_remove_None in Hnot. congruence. }
        destruct r as [e | module]; cbn [fst loaded import_outcome];
          [ | reflexivity ].
        by destruct e.
      * rewrite bool_decide_eq_false_2; [ reflexivity | ].
        by apply py_list_remove_None.
  - intros -> ->. reflexivity.
  - intros ->.
    destruct (import_module ld module_name sys_path) as [[e | module] q];
      cbn [fst loaded import_outcome]; [ | reflexivity ].
    by destruct e.
Qed.

Lemma safe_import_module_route_witness :
  opt_str_truthy (Some "./test_clean.py")
  && path_exists sample_fs (default "" (Some "./test_clean.py")) = true /\
  spec_from_file_location sibling_loader "test_clean" "./test_clean.py" = true /\
  (safe_import_module sample_fs sibling_loader "test_clean"
     (Some "./test_clean.py") ["/usr/lib/python3"]).1
  = (Some (mkModule [("test_helper", Function)]), true, None) /\
  (safe_import_module sample_fs tidying_loader "test_clean"
     (Some "./test_clean.py") ["/usr/lib/python3"]).1
  = (None, false,
     Some "Unexpected error importing test_clean: list.remove(x): x not in list") /\
  opt_str_truthy (Some "./notes.txt")
  && path_exists example_fs (default "" (Some "./notes.txt")) = false /\
  (safe_import_module example_fs sample_loader "notes" (Some "./notes.txt") []).1
  = (None, false, Some "ImportError: No module named notes").
Proof.
  destruct (safe_import_module_route sample_fs sibling_loader "test_clean"
              (Some "./test_clean.py") ["/usr/lib/python3"]) as (Hexec & _ & _).
  destruct (safe_import_module_route sample_fs tidying_loader "test_clean"
              (Some "./test_clean.py") ["/usr/lib/python3"]) as (Htidy & _ & _).
  destruct (safe_import_module_route example_fs sample_loader "notes"
              (Some "./notes.txt") []) as (_ & _ & Himport).
  split; [ reflexivity | ]. split; [ reflexivity | ].
  split; [ exact (Hexec eq_refl eq_refl) | ].
  split; [ exact (Htidy eq_refl eq_refl) | ].
  split; [ reflexivity | ].
  exact (Himport eq_refl).
Defined.

(** The test methods found in a module, by the outcome of the import. *)
Lemma inspect_module_for_tests_found (fs : FileSystem) (ld : Loader)
    (module_name : string) (file_path : option string)
    (sys_path : list string) :
  let '(module, success, error_msg) :=
    (safe_import_module fs ld module_name file_path sys_path).1 in
  let found := (inspect_module_for_tests fs ld module_name file_path sys_path).1 in
  match module with
  | Some module =>
      forall tm,
        tm ∈ found.1 <->
        (exists class_name members name,
           (class_name, TestCaseClass members) ∈ mod_dir module /\
           (name, MemberCallable) ∈ members /\
           startswith name "test" = true /\
           tm = TestMethod_init name module_name (Some class_name) file_path) \/
        (exists name,
           (name, Function) ∈ mod_dir module /\
           startswith name "test" = true /\
           tm = TestMethod_init name module_name None file_path)
  | None =>
      found = ([], [FailedToImport module_name (default "" error_msg)])
  end.
Proof.
  pose proof (safe_import_module_shape fs ld module_name file_path sys_path)
    as Hshape.
  destruct (safe_import_module fs ld module_name file_path sys_path)
    as [[[module success] error_msg] q] eqn:Himp.
  cbn [fst] in *.
  destruct Hshape as [(-> & [m ->] & ->) | (-> & -> & _)].
  - intros tm. rewrite (inspect_loaded fs ld _ _ _ _ _ _ Himp).
    rewrite elem_of_app, !elem_of_concat. split.
    + intros [(l & Htm & Hl) | (l & Htm & Hl)];
        apply list_elem_of_fmap in Hl as ([n a] & -> & Hin).
      * left. unfold class_attr_test_methods in Htm. cbn [fst snd] in Htm.
        destruct a; try (by apply elem_of_nil in Htm).
        apply elem_of_concat in Htm as (l' & Htm & Hl').
        apply list_elem_of_fmap in Hl' as ([n' mem] & -> & Hin').
        unfold member_test_methods in Htm. cbn [fst snd] in Htm.
        destruct (startswith n' "test") eqn:Hst;
          [ | by apply elem_of_nil in Htm ].
        destruct mem; try (by apply elem_of_nil in Htm).
        apply list_elem_of_singleton in Htm. exists n, members, n'. auto.
      * right. unfold function_attr_test_methods in Htm. cbn [fst snd] in Htm.
        destruct (startswith n "test") eqn:Hst;
          [ | by apply elem_of_nil in Htm ].
        destruct a; try (by apply elem_of_nil in Htm).
        apply list_elem_of_singleton in Htm. exists n. auto.
    + intros [(c & members & n & Hc & Hn & Hst & ->) | (n & Hn & Hst & ->)].
      * left. exists (class_attr_test_methods module_name file_path
                        (c, TestCaseClass members)).
        split; [ | apply list_elem_of_fmap; eauto ].
        unfold class_attr_test_methods. cbn [fst snd].
        apply elem_of_concat.
        exists (member_test_methods module_name file_path c (n, MemberCallable)).
        split; [ | apply list_elem_of_fmap; eauto ].
        unfold member_test_methods. cbn [fst snd]. rewrite Hst.
        by apply list_elem_of_singleton.
      * right. exists (function_attr_test_methods module_name file_path
                         (n, Function)).
        split; [ | apply list_elem_of_fmap; eauto ].
        unfold function_attr_test_methods. cbn [fst snd]. rewrite Hst.
        by apply list_elem_of_singleton.
  - unfold inspect_module_for_tests. rewrite Himp. reflexivity.
Qed.

(** X13: the test methods [inspect_module_for_tests] finds in a module
    that loaded are exactly: for each attribute that is a test-case class,
    its callable members whose name starts with [test], with the class
    name set; and each attribute that is a function whose name starts with
    [test], with no class name.  All of them carry the module name and the
    file path of the call.  When the module fails to load the list is
    empty and the failure is printed. *)
Theorem inspect_module_for_tests_spec (fs : FileSystem) (ld : Loader)
    (module_name : string) (file_path : option string)
    (sys_path : list string) :
  let '(module, success, error_msg) :=
    (safe_import_module fs ld module_name file_path sys_path).1 in
  let found := (inspect_module_for_tests fs ld module_name file_path sys_path).1 in
  match module with
  | Some module =>
      forall tm,
        tm ∈ found.1 <->
        (exists class_name members name,
           (class_name, TestCaseClass members) ∈ mod_dir module /\
           (name, MemberCallable) ∈ members /\
           startswith name "test" = true /\
           tm = TestMethod_init name module_name (Some class_name) file_path) \/
        (exists name,
           (name, Function) ∈ mod_dir module /\
           startswith name "test" = true /\
           tm = TestMethod_init name module_name None file_path)
  | None =>
      found = ([], [FailedToImport module_name (default "" error_msg)])
  end.
Proof.
  exact (inspect_module_for_tests_found fs ld module_name file_path sys_path).
Qed.

(** X14: in the list [inspect_module_for_tests] returns, the methods of
    the test-case classes come first, class by class in the order of the
    module's attributes and within a class in the order of its members,
    and the standalone functions follow in the order of the attributes. *)
Theorem inspect_module_for_tests_order (fs : FileSystem) (ld : Loader)
    (module_name : string) (file_path : option string)
    (sys_path sys_path' : list string) (module : Module)
    (msg : option string) :
  safe_import_module fs ld module_name file_path sys_path
  = ((Some module, true, msg), sys_path') ->
  let in_classes :=
    concat (map (class_attr_test_methods module_name file_path)
                (mod_dir module)) in
  let standalone :=
    concat (map (function_attr_test_methods module_name file_path)
                (mod_dir module)) in
  (inspect_module_for_tests fs ld module_name file_path sys_path).1.1
  = in_classes ++ standalone /\
  Forall (fun tm => is_Some (tm_class_name tm)) in_classes /\
  Forall (fun tm => tm_class_name tm = None) standalone.
Proof.
  intros Himp. cbv zeta.
  split; [ by apply (inspect_loaded fs ld _ _ _ _ _ _ Himp) | ].
  split; apply Forall_forall; intros tm Htm;
    apply elem_of_concat in Htm as (l & Htm & Hl);
    apply list_elem_of_fmap in Hl as ([n a] & -> & _).
  - unfold class_attr_test_methods in Htm. cbn [fst snd] in Htm.
    destruct a; try (by apply elem_of_nil in Htm).
    apply elem_of_concat in Htm as (l' & Htm & Hl').
    apply list_elem_of_fmap in Hl' as ([n' mem] & -> & _).
    unfold member_test_methods in Htm. cbn [fst snd] in Htm.
    destruct (startswith n' "test"); [ | by apply elem_of_nil in Htm ].
    destruct mem; try (by apply elem_of_nil in Htm).
    apply list_elem_of_singleton in Htm as ->. simpl. eauto.
  - unfold function_attr_test_methods in Htm. cbn [fst snd] in Htm.
    destruct (startswith n "test"); [ | by apply elem_of_nil in Htm ].
    destruct a; try (by apply elem_of_nil in Htm).
    by apply list_elem_of_singleton in Htm as ->.
Qed.

Lemma inspect_module_for_tests_order_witness :
  safe_import_module sample_fs sample_loader "test_with_failures"
    (Some "./test_with_failures.py") ["/usr/lib/python3"]
  = ((Some sample_module, true, None), ["/usr/lib/python3"]) /\
  map tm_full_name
    (inspect_module_for_tests sample_fs sample_loader "test_with_failures"
       (Some "./test_with_failures.py") ["/usr/lib/python3"]).1.1
  = [ "test_with_failures.TestWithFailures.test_fail";
      "test_with_failures.TestWithFailures.test_teardown";
      "test_with_failures.test_standalone" ].
Proof.
  split; [ reflexivity | ].
  destruct (inspect_module_for_tests_order sample_fs sample_loader
              "test_with_failures" (Some "./test_with_failures.py")
              ["/usr/lib/python3"] ["/usr/lib/python3"] sample_module None
              eq_refl) as (Heq & _ & _).
  rewrite Heq. reflexivity.
Defined.

(** ** Running the methods *)

Section Running.

Context (fs : FileSystem) (ld : Loader) (rn : Runner).

Lemma method_result_of_valid (tm : TestMethod) (d : Q) (r : FrameworkResult) :
  valid_status (status (method_result_of tm d r)) /\
  method (method_result_of tm d r) = tm /\
  mr_duration (method_result_of tm d r) = d.
Proof.
  unfold method_result_of, valid_status.
  destruct (wasSuccessful r); [ simpl; auto | ].
  destruct (fr_failures r); [ destruct (fr_errors r) | ]; simpl; auto.
Qed.

Lemma run_single_test_method_valid (t0 t1 : Q) (tm : TestMethod)
    (sys_path : list string) :
  let m := (run_single_test_method fs ld rn t0 t1 tm sys_path).1 in
  valid_status (status m) /\ method m = tm /\ mr_duration m = (t1 - t0)%Q.
Proof.
  unfold run_single_test_method.
  destruct (safe_import_module fs ld (tm_module tm) (tm_file_path tm) sys_path)
    as [[[module success] error_msg] q].
  destruct success, module as [module |]; cbn [fst];
    try (unfold valid_status; simpl; auto; fail).
  destruct (if opt_str_truthy (tm_class_name tm) then _ else _) as [e | r];
    cbn [fst].
  - unfold valid_status; simpl; auto.
  - apply method_result_of_valid.
Qed.


End Running.

(** X15: no [Exception] raised on the way leaves [run_single_test_method]:
    when the import fails, the class or the function is missing, building
    or running the suite raises an [Exception], or the framework result
    is in an unknown state, the call still returns a result for the method
    it was given, whose status is one of pass, fail and error and whose
    duration is the difference of the two clock readings.  (What is no
    [Exception], a [SystemExit] raised by the module for one, is not
    caught and is not covered.) *)
Theorem run_single_test_method_catches_exceptions (fs : FileSystem) (ld : Loader)
    (rn : Runner) (t0 t1 : Q) (tm : TestMethod) (sys_path : list string) :
  let m := (run_single_test_method fs ld rn t0 t1 tm sys_path).1 in
  valid_status (status m) /\ method m = tm /\ mr_duration m = (t1 - t0)%Q.
Proof. apply run_single_test_method_valid. Qed.

(** X16: when the module of a test method cannot be imported the method is
    not run: the result is an error whose text is "Failed to import
    module: " followed by the import error, with no traceback, whatever
    the runner would do. *)
Theorem run_single_test_method_import_failure (fs : FileSystem)
    (ld : Loader) (rn rn' : Runner) (t0 t1 : Q) (tm : TestMethod)
    (sys_path sys_path' : list string) (msg : string) :
  safe_import_module fs ld (tm_module tm) (tm_file_path tm) sys_path
  = ((None, false, Some msg), sys_path') ->
  run_single_test_method fs ld rn t0 t1 tm sys_path
  = ({| method := tm; status := "error"; mr_duration := (t1 - t0)%Q;
        error := Some ("Failed to import module: " +:+ msg);
        traceback_str := None |}, sys_path') /\
  run_single_test_method fs ld rn' t0 t1 tm sys_path
  = run_single_test_method fs ld rn t0 t1 tm sys_path.
Proof.
  intros Himp. unfold run_single_test_method. rewrite Himp. split; reflexivity.
Qed.

Lemma run_single_test_method_import_failure_witness :
  safe_import_module sample_fs failing_loader (tm_module sample_method)
    (tm_file_path sample_method) []
  = ((None, false,
      Some "SyntaxError in test_with_failures: invalid syntax (line 3)"), []) /\
  (run_single_test_method sample_fs failing_loader sample_runner 0%Q 1%Q
     sample_method []).1
  = {| method := sample_method; status := "error"; mr_duration := (1 - 0)%Q;
       error := Some ("Failed to import module: "
                      +:+ "SyntaxError in test_with_failures: invalid syntax (line 3)");
       traceback_str := None |}.
Proof.
  split; [ reflexivity | ].
  destruct (run_single_test_method_import_failure sample_fs failing_loader
              sample_runner sample_runner 0%Q 1%Q sample_method [] []
              "SyntaxError in test_with_failures: invalid syntax (line 3)"
              eq_refl) as [Heq _].
  by rewrite Heq.
Defined.

Section RunTests.

Context (fs : FileSystem) (ld : Loader) (rn : Runner) (clock : Engine.Clock).

(** The results one pass over a list of methods adds, and the state it
    leaves. *)
Lemma run_methods_spec (test_methods : list TestMethod) (st : Engine.RunState) :
  exists ms,
    (fold_left (Engine.run_one fs ld rn clock) test_methods st).1.1
    = add_results st.1.1 ms /\
    map method ms = test_methods /\
    Forall (fun m => valid_status (status m)) ms /\
    (fold_left (Engine.run_one fs ld rn clock) test_methods st).2
    = (st.2 + 2 * length test_methods)%nat.
Proof.
  revert st. induction test_methods as [| tm tms IH]; intros [[tr sp] tick].
  - exists []. simpl. repeat split; [ constructor | lia ].
  - cbn [fold_left].
    destruct (IH (Engine.run_one fs ld rn clock (tr, sp, tick) tm))
      as (ms & Hres & Hmeth & Hvalid & Htick).
    unfold Engine.run_one in *.
    pose proof (run_single_test_method_valid fs ld rn (clock tick)
                  (clock (S tick)) tm sp) as (Hv & Hm & _).
    destruct (run_single_test_method fs ld rn (clock tick) (clock (S tick)) tm sp)
      as [mr sp'].
    cbn [fst snd] in *.
    exists (mr :: ms). rewrite Hres, Htick. cbn [map length].
    repeat split; [ by rewrite Hm, Hmeth | by constructor | lia ].
Qed.

Lemma run_modules_spec (test_methods_by_module : list (string * list TestMethod))
    (st : Engine.RunState) :
  exists ms,
    (fold_left
       (fun st '(module_name, test_methods) =>
          fold_left (Engine.run_one fs ld rn clock) test_methods st)
       test_methods_by_module st).1.1
    = add_results st.1.1 ms /\
    map method ms = concat test_methods_by_module.*2 /\
    Forall (fun m => valid_status (status m)) ms /\
    (fold_left
       (fun st '(module_name, test_methods) =>
          fold_left (Engine.run_one fs ld rn clock) test_methods st)
       test_methods_by_module st).2
    = (st.2 + 2 * length (concat test_methods_by_module.*2))%nat.
Proof.
  revert st.
  induction test_methods_by_module as [| [name tms] rest IH]; intros st.
  - exists []. simpl. repeat split; [ constructor | lia ].
  - cbn [fold_left].
    destruct (run_methods_spec tms st) as (ms1 & Hres1 & Hmeth1 & Hv1 & Ht1).
    destruct (IH (fold_left (Engine.run_one fs ld rn clock) tms st))
      as (ms2 & Hres2 & Hmeth2 & Hv2 & Ht2).
    exists (ms1 ++ ms2). rewrite Hres2, Hres1, Ht2, Ht1.
    unfold add_results. rewrite fold_left_app.
    cbn [fmap list_fmap snd concat]. rewrite map_app, Hmeth1, length_app.
    repeat split.
    + by rewrite <- Hmeth2.
    + by apply Forall_app.
    + lia.
Qed.

Lemma total_methods_length (test_methods_by_module : list (string * list TestMethod)) :
  total_methods test_methods_by_module
  = Z.of_nat (length (concat test_methods_by_module.*2)).
Proof.
  unfold total_methods.
  assert (Hgen : forall n,
    fold_left (fun n methods => n + Z.of_nat (length methods.2))
              test_methods_by_module n
    = n + Z.of_nat (length (concat test_methods_by_module.*2))).
  { induction test_methods_by_module as [| [name tms] rest IH]; intros n.
    - simpl. lia.
    - cbn [fold_left fmap list_fmap concat snd]. rewrite IH, length_app. lia. }
  by rewrite Hgen.
Qed.


End RunTests.

(** Name the three parts of the state the loop of [run_tests] ends in. *)
Ltac destruct_run_state l st tr :=
  match goal with
  | |- context [fold_left ?f l st] =>
      let sp := fresh "sp" in
      let tick := fresh "tick" in
      destruct (fold_left f l st) as [[tr sp] tick]
  end.

(** The results of a run, method by method. *)
Lemma run_tests_method_results {Cov : Type} (fs : FileSystem) (ld : Loader)
    (rn : Runner) (clock : Engine.Clock)
    (start_coverage_collection : Config -> option Cov)
    (test_methods_by_module : list (string * list TestMethod))
    (collect_coverage : bool) (config : option Config)
    (sys_path : list string) :
  let r :=
    (Engine.run_tests fs ld rn clock start_coverage_collection
       test_methods_by_module collect_coverage config sys_path).1.1 in
  map method (method_results r) = concat test_methods_by_module.*2 /\
  Forall (fun m => valid_status (status m)) (method_results r) /\
  total r = total_methods test_methods_by_module /\
  counters_consistent r.
Proof.
  cbv zeta. unfold Engine.run_tests.
  set (st0 := (Engine.start_timing TestResult_init (clock 0%nat), sys_path, 1%nat)).
  destruct (run_modules_spec fs ld rn clock test_methods_by_module st0)
    as (ms & Hres & Hmeth & Hvalid & _).
  destruct_run_state test_methods_by_module st0 tr.
  subst st0. cbn [fst snd] in *. subst tr.
  assert (Hinit : counters_consistent
                    (Engine.start_timing TestResult_init (clock 0%nat)))
    by (split; reflexivity).
  destruct (add_results_app
              (Engine.start_timing TestResult_init (clock 0%nat)) ms)
    as [Hl Ht].
  pose proof (add_results_consistent _ ms Hinit Hvalid) as Hcons.
  set (r := add_results (Engine.start_timing TestResult_init (clock 0%nat)) ms)
    in *.
  change (method_results (Engine.stop_timing r (clock tick)))
    with (method_results r).
  change (total (Engine.stop_timing r (clock tick))) with (total r).
  change (counters_consistent (Engine.stop_timing r (clock tick)))
    with (counters_consistent r).
  rewrite Hl, Ht. cbn [app Engine.start_timing method_results total].
  rewrite total_methods_length, <- Hmeth, length_map.
  split; [ done | ]. split; [ done | ]. split; [ simpl; lia | exact Hcons ].
Qed.

(** X17: [run_tests] runs every method once, module after module and
    within a module in the order given: the results it returns are for
    exactly those methods in that order, each status is one of pass, fail
    and error, [total] is the number of methods, and the counters agree
    with the list. *)
Theorem run_tests_results {Cov : Type} (fs : FileSystem) (ld : Loader)
    (rn : Runner) (clock : Engine.Clock)
    (start_coverage_collection : Config -> option Cov)
    (test_methods_by_module : list (string * list TestMethod))
    (collect_coverage : bool) (config : option Config)
    (sys_path : list string) :
  let r :=
    (Engine.run_tests fs ld rn clock start_coverage_collection
       test_methods_by_module collect_coverage config sys_path).1.1 in
  map method (method_results r) = concat test_methods_by_module.*2 /\
  Forall (fun m => valid_status (status m)) (method_results r) /\
  total r = total_methods test_methods_by_module /\
  counters_consistent r.
Proof.
  exact (run_tests_method_results fs ld rn clock start_coverage_collection
         test_methods_by_module collect_coverage config sys_path).
Qed.



Section AllPassed.

Lemma count_status_zero (st : string) (results : list MethodResult) :
  count_status st results = 0 <-> Forall (fun m => status m <> st) results.
Proof.
  unfold count_status. induction results as [| m ms IH]; cbn [List.filter].
  - split; [ constructor | reflexivity ].
  - destruct (String.eqb_spec (status m) st) as [E | N].
    + cbn [length]. split; [ lia | ].
      intros HF. inversion HF; subst. contradiction.
    + rewrite IH. split.
      * intros HF. by constructor.
      * intros HF. by inversion HF.
Qed.

Lemma count_status_nonneg (st : string) (results : list MethodResult) :
  0 <= count_status st results.
Proof. unfold count_status. lia. Qed.

Lemma start_timing_exact (now : Q) :
  counters_exact (Engine.start_timing TestResult_init now).
Proof. repeat split. Qed.

End AllPassed.

(** The counters of a run against its list of results. *)
Lemma run_tests_counters {Cov : Type} (fs : FileSystem) (ld : Loader)
    (rn : Runner) (clock : Engine.Clock)
    (start_coverage_collection : Config -> option Cov)
    (test_methods_by_module : list (string * list TestMethod))
    (collect_coverage : bool) (config : option Config)
    (sys_path : list string) :
  let r :=
    (Engine.run_tests fs ld rn clock start_coverage_collection
       test_methods_by_module collect_coverage config sys_path).1.1 in
  (0 <= passed r /\ 0 <= failed r /\ 0 <= errors r) /\
  (failed r = 0 /\ errors r = 0 <->
   Forall (fun m => status m = "pass") (method_results r)).
Proof.
  cbv zeta.
  destruct (run_tests_method_results fs ld rn clock start_coverage_collection
              test_methods_by_module collect_coverage config sys_path)
    as (_ & Hvalid & _ & _).
  unfold Engine.run_tests in *.
  set (st0 := (Engine.start_timing TestResult_init (clock 0%nat), sys_path, 1%nat))
    in *.
  destruct (run_modules_spec fs ld rn clock test_methods_by_module st0)
    as (ms & Hres & _ & _ & _).
  destruct_run_state test_methods_by_module st0 tr.
  subst st0. cbn [fst snd] in *. subst tr.
  pose proof (add_results_exact _ ms (start_timing_exact (clock 0%nat)))
    as (Hp & Hf & He).
  set (r := add_results (Engine.start_timing TestResult_init (clock 0%nat)) ms)
    in *.
  change (method_results (Engine.stop_timing r (clock tick)))
    with (method_results r) in *.
  change (passed (Engine.stop_timing r (clock tick))) with (passed r).
  change (failed (Engine.stop_timing r (clock tick))) with (failed r).
  change (errors (Engine.stop_timing r (clock tick))) with (errors r).
  rewrite Hp, Hf, He.
  split; [ repeat split; apply count_status_nonneg | ].
  rewrite !count_status_zero. split.
  - intros [HnF HnE]. apply Forall_forall. intros m Hm.
    rewrite Forall_forall in Hvalid, HnF, HnE.
    destruct (Hvalid m Hm) as [Hs | [Hs | Hs]]; [ exact Hs | | ].
    + by destruct (HnF m Hm).
    + by destruct (HnE m Hm).
  - intros Hall. split; apply Forall_forall; intros m Hm;
      rewrite Forall_forall in Hall; rewrite (Hall m Hm); discriminate.
Qed.

(** X19: after [run_tests], no test is counted as failed or in error
    exactly when every result in the list has status pass; and the
    counters are never negative. *)
Theorem run_tests_all_passed {Cov : Type} (fs : FileSystem) (ld : Loader)
    (rn : Runner) (clock : Engine.Clock)
    (start_coverage_collection : Config -> option Cov)
    (test_methods_by_module : list (string * list TestMethod))
    (collect_coverage : bool) (config : option Config)
    (sys_path : list string) :
  let r :=
    (Engine.run_tests fs ld rn clock start_coverage_collection
       test_methods_by_module collect_coverage config sys_path).1.1 in
  (0 <= passed r /\ 0 <= failed r /\ 0 <= errors r) /\
  (failed r = 0 /\ errors r = 0 <->
   Forall (fun m => status m = "pass") (method_results r)).
Proof.
  exact (run_tests_counters fs ld rn clock start_coverage_collection
         test_methods_by_module collect_coverage config sys_path).
Qed.

(** X20: with [run_tests] as the sub-activity that runs the tests, a
    [main] that got as far as running them exits 0 exactly when every
    method result has status pass and, for the [check] command, lint
    reported no violation. *)
Theorem main_zero_iff_all_passed {Cov : Type} (fs : FileSystem)
    (ld : Loader) (rn : Runner) (clock : Engine.Clock)
    (start_coverage_collection : Config -> option Cov)
    (json_load : JsonDecoder) (sys_path : list string) (lint : Z)
    (methods_of : list string -> list (string * list TestMethod))
    (args : list string) :
  let acts :=
    engine_activities fs ld rn clock start_coverage_collection json_load
      sys_path lint methods_of in
  let act := action (main_parsed_args fs json_load args) in
  let files := main_discovered_files fs json_load args in
  act = Check \/ act = Test ->
  files <> [] ->
  total_methods (methods_of files) <> 0 ->
  (main fs json_load acts args = 0 <->
   Forall (fun m => status m = "pass")
          (method_results (run_tests acts (methods_of files))) /\
   (act = Check -> lint <= 0)).
Proof.
  cbv zeta. intros Hact Hfiles Hmethods.
  pose proof (main_tests_ran fs json_load
                (engine_activities fs ld rn clock start_coverage_collection
                   json_load sys_path lint methods_of)
                args Hact Hfiles Hmethods) as Hmain.
  cbv zeta in Hmain. rewrite Hmain. clear Hmain.
  cbn [engine_activities run_tests run_lint discover_test_methods].
  destruct (run_tests_counters fs ld rn clock start_coverage_collection
              (methods_of (main_discovered_files fs json_load args))
              (coverage_enabled (main_config fs json_load))
              (Some (main_config fs json_load)) sys_path)
    as ((_ & Hf0 & He0) & Hiff).
  cbv zeta in *.
  set (r := (Engine.run_tests fs ld rn clock start_coverage_collection
               (methods_of (main_discovered_files fs json_load args))
               (coverage_enabled (main_config fs json_load))
               (Some (main_config fs json_load)) sys_path).1.1) in *.
  rewrite <- Hiff.
  destruct (Z.ltb_spec 0 (failed r)) as [Hf | Hf]; cbn [orb].
  { split; [ discriminate | intros [[? ?] _]; lia ]. }
  destruct (Z.ltb_spec 0 (errors r)) as [He | He]; cbn [orb].
  { split; [ discriminate | intros [[? ?] _]; lia ]. }
  destruct Hact as [-> | ->].
  - destruct (Z.ltb_spec 0 lint) as [Hl | Hl].
    + split; [ discriminate | intros [_ Hc]; specialize (Hc eq_refl); lia ].
    + split; [ intros _ | reflexivity ].
      split; [ split; lia | intros _; exact Hl ].
  - split; [ intros _ | reflexivity ].
    split; [ split; lia | discriminate ].
Qed.

Lemma main_zero_iff_all_passed_witness :
  let acts :=
    engine_activities sample_fs sample_loader sample_runner ticking_clock
      no_coverage config_decoder ["/usr/lib/python3"] (-1) clean_methods_of in
  action (main_parsed_args sample_fs config_decoder ["check"]) = Check /\
  main_discovered_files sample_fs config_decoder ["check"] <> [] /\
  total_methods
    (clean_methods_of (main_discovered_files sample_fs config_decoder ["check"]))
  = 1 /\
  main sample_fs config_decoder acts ["check"] = 0.
Proof.
  cbv zeta.
  split; [ reflexivity | ].
  split; [ vm_compute; discriminate | ].
  split; [ reflexivity | ].
  apply (main_zero_iff_all_passed sample_fs sample_loader sample_runner
           ticking_clock no_coverage config_decoder ["/usr/lib/python3"] (-1)
           clean_methods_of ["check"]).
  - left; reflexivity.
  - vm_compute; discriminate.
  - vm_compute; discriminate.
  - split; [ | intros _; lia ].
    apply List.Forall_cons; [ reflexivity | apply List.Forall_nil ].
Defined.

(** ** The command line *)

Ltac finish_selectors :=
  cbn; repeat split; try lia; intros; simplify_eq; try done.

(** X21: of the three selectors (test type, modules, group)
    [parse_arguments] sets at most one, and none for help, [lint] and
    [check]; a list of modules it sets is never empty, a test type it sets
    is configured and a group it sets is in the configuration. *)
Theorem parse_arguments_one_selector (args : list string) (config : Config) :
  let p := parse_arguments args config in
  (selectors_set p <= 1)%nat /\
  (action p <> Test -> selectors_set p = 0%nat) /\
  (forall modules, pa_modules p = Some modules -> modules <> []) /\
  (forall t, pa_test_type p = Some t -> has_test_type config t = true) /\
  (forall g, pa_group p = Some g -> is_Some (test_groups config !! g)).
Proof.
  cbv zeta. unfold parse_arguments.
  destruct args as [| command [| arg2 rest]].
  - finish_selectors.
  - destruct (bool_decide (command ∈ ["help"; "--help"; "-h"]));
      [ finish_selectors | ].
    destruct (String.eqb command "lint"); [ finish_selectors | ].
    destruct (String.eqb command "check"); [ finish_selectors | ].
    destruct (bool_decide (command ∈ get_test_types config)) eqn:Htype.
    { apply bool_decide_eq_true in Htype.
      apply (config_test_types config command) in Htype.
      finish_selectors. }
    destruct (bool_decide (is_Some (test_groups config !! command))) eqn:Hgrp.
    { apply bool_decide_eq_true in Hgrp. finish_selectors. }
    finish_selectors.
  - finish_selectors.
Qed.

Lemma parse_arguments_one_selector_witness :
  pa_group (parse_arguments ["core"] sample_config) = Some "core" /\
  is_Some (test_groups sample_config !! "core") /\
  pa_test_type (parse_arguments ["unit"] sample_config) = Some "unit" /\
  has_test_type sample_config "unit" = true /\
  pa_modules (parse_arguments ["lint"; "check"] sample_config)
  = Some ["lint"; "check"] /\
  action (parse_arguments ["lint"] sample_config) = Lint /\
  selectors_set (parse_arguments ["lint"] sample_config) = 0%nat.
Proof.
  destruct (parse_arguments_one_selector ["core"] sample_config)
    as (_ & _ & _ & _ & Hgroup).
  destruct (parse_arguments_one_selector ["unit"] sample_config)
    as (_ & _ & _ & Htype & _).
  destruct (parse_arguments_one_selector ["lint"] sample_config)
    as (_ & Hnone & _).
  split; [ reflexivity | ]. split; [ exact (Hgroup "core" eq_refl) | ].
  split; [ reflexivity | ]. split; [ exact (Htype "unit" eq_refl) | ].
  split; [ reflexivity | ]. split; [ reflexivity | ].
  apply Hnone. discriminate.
Defined.

(** The reading of one word, and of two words or more. *)
Lemma parse_arguments_word (config : Config) (command : string)
    (arg1 arg2 : string) (rest : list string) :
  (reserved_command command = true ->
   parse_arguments [command] config
   = mkParsedArgs
       (if String.eqb command "lint" then Lint
        else if String.eqb command "check" then Check else Help)
       None None None) /\
  (reserved_command command = false ->
   parse_arguments [command] config
   = if has_test_type config command
     then mkParsedArgs Test (Some command) None None
     else if bool_decide (is_Some (test_groups config !! command))
     then mkParsedArgs Test None None (Some command)
     else mkParsedArgs Test None (Some [command]) None) /\
  parse_arguments (arg1 :: arg2 :: rest) config
  = mkParsedArgs Test None (Some (arg1 :: arg2 :: rest)) None.
Proof.
  assert (Htypes : bool_decide (command ∈ get_test_types config)
                   = has_test_type config command).
  { unfold has_test_type. apply bool_decide_ext, elem_of_get_test_types. }
  unfold reserved_command, parse_arguments. rewrite Htypes.
  split; [ | split; [ | reflexivity ] ].
  - intros Hres. apply bool_decide_eq_true in Hres.
    repeat (apply elem_of_cons in Hres as [-> | Hres]; [ reflexivity | ]).
    by apply elem_of_nil in Hres.
  - intros Hres. apply bool_decide_eq_false in Hres.
    rewrite bool_decide_eq_false_2.
    2: { intros Hin. apply Hres.
         repeat (apply elem_of_cons in Hin as [-> | Hin];
                 [ set_solver | ]).
         by apply elem_of_nil in Hin. }
    destruct (String.eqb_spec command "lint") as [-> | _].
    { exfalso. apply Hres. set_solver. }
    destruct (String.eqb_spec command "check") as [-> | _].
    { exfalso. apply Hres. set_solver. }
    reflexivity.
Qed.

(** X22: how one word is read.  The words help, --help, -h, lint and check
    are commands whatever the configuration defines, so a test type or a
    group of such a name cannot be selected; a configured test type wins
    over a group of the same name; a group wins over a module of the same
    name; any other word is a module.  Two or more words are always
    modules, also when one of them is lint, check or help. *)
Theorem parse_arguments_precedence (config : Config) (command : string)
    (arg1 arg2 : string) (rest : list string) :
  (reserved_command command = true ->
   parse_arguments [command] config
   = mkParsedArgs
       (if String.eqb command "lint" then Lint
        else if String.eqb command "check" then Check else Help)
       None None None) /\
  (reserved_command command = false ->
   parse_arguments [command] config
   = if has_test_type config command
     then mkParsedArgs Test (Some command) None None
     else if bool_decide (is_Some (test_groups config !! command))
     then mkParsedArgs Test None None (Some command)
     else mkParsedArgs Test None (Some [command]) None) /\
  parse_arguments (arg1 :: arg2 :: rest) config
  = mkParsedArgs Test None (Some (arg1 :: arg2 :: rest)) None.
Proof.
  exact (parse_arguments_word config command arg1 arg2 rest).
Qed.

Lemma parse_arguments_precedence_witness :
  let config :=
    add_custom_test_type (add_custom_test_type sample_config "lint" ["lint_*.py"])
      "core" ["core_*.py"] in
  reserved_command "lint" = true /\
  has_test_type config "lint" = true /\
  action (parse_arguments ["lint"] config) = Lint /\
  reserved_command "core" = false /\
  is_Some (test_groups config !! "core") /\
  parse_arguments ["core"] config = mkParsedArgs Test (Some "core") None None.
Proof.
  cbv zeta.
  split; [ reflexivity | ]. split; [ reflexivity | ].
  destruct (parse_arguments_precedence
              (add_custom_test_type
                 (add_custom_test_type sample_config "lint" ["lint_*.py"])
                 "core" ["core_*.py"]) "lint" "" "" []) as (Hres & _ & _).
  destruct (parse_arguments_precedence
              (add_custom_test_type
                 (add_custom_test_type sample_config "lint" ["lint_*.py"])
                 "core" ["core_*.py"]) "core" "" "" []) as (_ & Hword & _).
  split; [ by rewrite (Hres eq_refl) | ].
  split; [ reflexivity | ].
  split; [ by eexists | ].
  by rewrite (Hword eq_refl).
Defined.

(** ** The exit code of [main] *)

(** What [main] returns, action by action. *)
Lemma main_zero_or_one (fs : FileSystem) (json_load : JsonDecoder)
    (acts : Activities) (args : list string) :
  let act := action (main_parsed_args fs json_load args) in
  let files := main_discovered_files fs json_load args in
  (main fs json_load acts args = 0 \/ main fs json_load acts args = 1) /\
  (act = Help -> main fs json_load acts args = 0) /\
  (act = Check \/ act = Test ->
   files = [] \/ total_methods (discover_test_methods acts files) = 0 ->
   main fs json_load acts args = 1).
Proof.
  cbv zeta. unfold main.
  destruct (action (main_parsed_args fs json_load args)) eqn:Hact.
  - repeat split; auto; intros [? | ?]; discriminate.
  - split; [ destruct (0 <? run_lint acts); auto | ].
    split; [ discriminate | intros [? | ?]; discriminate ].
  - destruct (main_discovered_files fs json_load args) as [| f files] eqn:Hd;
      cbn [list_truthy negb].
    { repeat split; auto; discriminate. }
    destruct (Z.eqb_spec (total_methods (discover_test_methods acts (f :: files))) 0)
      as [Hz | Hnz].
    { repeat split; auto; discriminate. }
    split; [ destruct (_ || _ || _); auto | ].
    split; [ discriminate | ].
    intros _ [? | ?]; [ discriminate | contradiction ].
  - destruct (main_discovered_files fs json_load args) as [| f files] eqn:Hd;
      cbn [list_truthy negb].
    { repeat split; auto; discriminate. }
    destruct (Z.eqb_spec (total_methods (discover_test_methods acts (f :: files))) 0)
      as [Hz | Hnz].
    { repeat split; auto; discriminate. }
    split; [ destruct (_ || _ || _); auto | ].
    split; [ discriminate | ].
    intros _ [? | ?]; [ discriminate | contradiction ].
Qed.

(** X23: the early exits of [main].  A help request exits 0, whatever
    the sub-activities would do.  A [check] or test run in which discovery
    finds no file, or inspection returns no test method, exits 1, whatever
    lint reports and without regard to what running the tests would
    give. *)
Theorem main_early_exits (fs : FileSystem) (json_load : JsonDecoder)
    (acts : Activities) (args : list string) :
  let act := action (main_parsed_args fs json_load args) in
  let files := main_discovered_files fs json_load args in
  (act = Help -> main fs json_load acts args = 0) /\
  (act = Check \/ act = Test ->
   files = [] \/ total_methods (discover_test_methods acts files) = 0 ->
   main fs json_load acts args = 1).
Proof.
  exact (proj2 (main_zero_or_one fs json_load acts args)).
Qed.

Lemma main_early_exits_witness :
  action (main_parsed_args sample_fs config_decoder ["--help"]) = Help /\
  main sample_fs config_decoder lint_unavailable ["--help"] = 0 /\
  action (main_parsed_args sample_fs config_decoder ["check"; "gone"]) = Test /\
  main_discovered_files sample_fs config_decoder ["check"; "gone"] = [] /\
  main sample_fs config_decoder lint_unavailable ["check"; "gone"] = 1.
Proof.
  destruct (main_early_exits sample_fs config_decoder lint_unavailable ["--help"])
    as (Hhelp & _).
  destruct (main_early_exits sample_fs config_decoder lint_unavailable
              ["check"; "gone"]) as (_ & Hone).
  split; [ reflexivity | ]. split; [ exact (Hhelp eq_refl) | ].
  split; [ reflexivity | ]. split; [ reflexivity | ].
  apply Hone; [ right | left ]; reflexivity.
Defined.

(** X24: a single word that is no command, no configured test type and no
    group is taken as a module, and when none of the three candidate
    paths of that module is there [main] exits 1 without running a
    test. *)
Theorem main_unknown_word (fs : FileSystem) (json_load : JsonDecoder)
    (acts : Activities) (word : string) :
  reserved_command word = false ->
  has_test_type (main_config fs json_load) word = false ->
  test_groups (main_config fs json_load) !! word = None ->
  spec_module_files fs "." word = [] ->
  main_parsed_args fs json_load [word]
  = mkParsedArgs Test None (Some [word]) None /\
  main_discovered_files fs json_load [word] = [] /\
  main fs json_load acts [word] = 1.
Proof.
  intros Hres Htype Hgroup Hfiles.
  destruct (parse_arguments_word (main_config fs json_load) word "" "" [])
    as (_ & Hword & _).
  assert (Hparsed : main_parsed_args fs json_load [word]
                    = mkParsedArgs Test None (Some [word]) None).
  { unfold main_parsed_args. rewrite (Hword Hres), Htype.
    rewrite bool_decide_eq_false_2; [ reflexivity | ].
    rewrite Hgroup. by intros [? ?]. }
  assert (Hnone : main_discovered_files fs json_load [word] = []).
  { unfold main_discovered_files. rewrite Hparsed. cbn [pa_test_type pa_modules pa_group].
    rewrite discover_tests_modules by discriminate.
    rewrite discover_files_by_modules_spec. unfold spec_discover_modules.
    cbn [fst map concat]. rewrite Hfiles. reflexivity. }
  split; [ exact Hparsed | ]. split; [ exact Hnone | ].
  destruct (main_zero_or_one fs json_load acts [word]) as (_ & _ & Hone).
  apply Hone; [ right; by rewrite Hparsed | left; exact Hnone ].
Qed.

Lemma main_unknown_word_witness :
  reserved_command "customtype" = false /\
  has_test_type (main_config sample_fs config_decoder) "customtype" = false /\
  test_groups (main_config sample_fs config_decoder) !! "customtype" = None /\
  spec_module_files sample_fs "." "customtype" = [] /\
  main sample_fs config_decoder lint_unavailable ["customtype"] = 1.
Proof.
  split; [ reflexivity | ]. split; [ reflexivity | ].
  split; [ reflexivity | ]. split; [ reflexivity | ].
  apply (main_unknown_word sample_fs config_decoder lint_unavailable
           "customtype"); reflexivity.
Defined.

(** ** The ranges of missing lines *)

Section MissingRanges.

Lemma range_lines_single (line : Z) : range_lines (line, line) = [line].
Proof.
  unfold range_lines. cbn [fst snd].
  replace (line - line + 1) with 1 by lia. reflexivity.
Qed.

Lemma range_lines_extend (start end_ : Z) :
  start <= end_ ->
  range_lines (start, end_ + 1) = range_lines (start, end_) ++ [end_ + 1].
Proof.
  intros Hle. unfold range_lines. cbn [fst snd].
  replace (end_ + 1 - start + 1) with ((end_ - start + 1) + 1) by lia.
  rewrite seqZ_app by lia.
  replace (start + (end_ - start + 1)) with (end_ + 1) by lia.
  reflexivity.
Qed.

Lemma TlRel_apart_end (start end_ end' : Z) (ranges : list (Z * Z)) :
  TlRel ranges_apart (start, end_) ranges ->
  TlRel ranges_apart (start, end') ranges.
Proof. intros H. inversion H; subst; constructor. assumption. Qed.

(** What the loop keeps: the open range is in order, the closed ranges
    are in order and apart from each other and from the open one, and
    together they stand for the lines read so far. *)
Lemma range_loop_spec (rest : list Z) (start end_ : Z)
    (ranges : list (Z * Z)) :
  start <= end_ ->
  Sorted ranges_apart ranges ->
  TlRel ranges_apart (start, end_) ranges ->
  Forall (fun r => r.1 <= r.2) ranges ->
  let '(start', end', ranges') :=
    fold_left range_step rest (start, end_, ranges) in
  start' <= end' /\
  Sorted ranges_apart ranges' /\
  TlRel ranges_apart (start', end') ranges' /\
  Forall (fun r => r.1 <= r.2) ranges' /\
  concat (map range_lines (ranges' ++ [(start', end')]))
  = concat (map range_lines (ranges ++ [(start, end_)])) ++ rest.
Proof.
  revert start end_ ranges.
  induction rest as [| line rest IH]; intros start end_ ranges Hle Hs Ht Hv.
  - cbn [fold_left]. rewrite app_nil_r. auto.
  - cbn [fold_left]. unfold range_step at 2.
    destruct (Z.eqb_spec line (end_ + 1)) as [-> | Hne].
    + specialize (IH start (end_ + 1) ranges ltac:(lia) Hs
                    (TlRel_apart_end _ _ _ _ Ht) Hv).
      destruct (fold_left range_step rest (start, end_ + 1, ranges))
        as [[start' end'] ranges'].
      destruct IH as (? & ? & ? & ? & Hlines).
      repeat split; try assumption.
      rewrite Hlines, !map_app, !concat_app. cbn [map concat].
      rewrite !app_nil_r, (range_lines_extend _ _ Hle), <- !app_assoc.
      reflexivity.
    + specialize (IH line line (ranges ++ [(start, end_)]) ltac:(lia)).
      destruct (fold_left range_step rest (line, line, ranges ++ [(start, end_)]))
        as [[start' end'] ranges'].
      destruct IH as (? & ? & ? & ? & Hlines).
      * by apply Sorted_snoc.
      * by constructor.
      * apply Forall_app. split; [ assumption | ]. by constructor.
      * repeat split; try assumption.
        rewrite Hlines, !map_app, !concat_app. cbn [map concat].
        rewrite !app_nil_r, range_lines_single, <- !app_assoc.
        reflexivity.
Qed.

Lemma line_ranges_spec (missing_lines : list Z) :
  concat (map range_lines (line_ranges missing_lines)) = missing_lines /\
  Forall (fun r => r.1 <= r.2) (line_ranges missing_lines) /\
  Sorted ranges_apart (line_ranges missing_lines).
Proof.
  unfold line_ranges. destruct missing_lines as [| first rest].
  - repeat constructor.
  - pose proof (range_loop_spec rest first first [] ltac:(lia)
                  ltac:(constructor) ltac:(constructor) ltac:(constructor))
      as Hloop.
    destruct (fold_left range_step rest (first, first, []))
      as [[start end_] ranges].
    destruct Hloop as (Hle & Hs & Ht & Hv & Hlines).
    split; [ | split ].
    + rewrite Hlines. cbn [app map concat].
      by rewrite range_lines_single.
    + apply Forall_app. split; [ assumption | ]. by constructor.
    + by apply Sorted_snoc.
Qed.

End MissingRanges.

(** X25: the ranges shown after "Missing:" lose nothing: written out again,
    they give the sorted missing lines, each as often as it was listed;
    every range runs from a line to the same or a later line; and two
    ranges next to each other could not have been one, the second does not
    start on the line after the end of the first.  They are shown for
    files with one to ten missing lines and for no other. *)
Theorem missing_ranges_round_trip (str_int : Z -> string)
    (missing_list : list Z) :
  let missing_lines := merge_sort Z.le missing_list in
  let ranges := line_ranges missing_lines in
  concat (map range_lines ranges) = missing_lines /\
  Forall (fun r => r.1 <= r.2) ranges /\
  Sorted ranges_apart ranges /\
  (is_Some (missing_ranges str_int missing_list) <->
   (0 < length missing_list <= 10)%nat) /\
  (forall texts,
     missing_ranges str_int missing_list = Some texts ->
     texts = map (range_text str_int) ranges).
Proof.
  cbv zeta.
  destruct (line_ranges_spec (merge_sort Z.le missing_list))
    as (Hlines & Hvalid & Hapart).
  split; [ exact Hlines | ]. split; [ exact Hvalid | ].
  split; [ exact Hapart | ].
  unfold missing_ranges.
  destruct (Z.ltb_spec 0 (Z.of_nat (length missing_list)));
    destruct (Z.leb_spec (Z.of_nat (length missing_list)) 10); cbn [andb];
    (split; [ split; [ intros [? ?]; try discriminate; lia
                     | intros ?; try lia; eauto ]
            | intros texts Ht; congruence ]).
Qed.

Lemma missing_ranges_round_trip_witness :
  let digit := fun z => String (ascii_of_nat (48 + Z.to_nat z)) "" in
  missing_ranges digit [5; 1; 2; 9; 2] = Some ["1-2"; "2"; "5"; "9"] /\
  map (range_text digit) (line_ranges (merge_sort Z.le [5; 1; 2; 9; 2]))
  = ["1-2"; "2"; "5"; "9"] /\
  missing_ranges digit [] = None.
Proof.
  cbv zeta.
  destruct (missing_ranges_round_trip
              (fun z => String (ascii_of_nat (48 + Z.to_nat z)) "")
              [5; 1; 2; 9; 2]) as (_ & _ & _ & _ & Htexts).
  split; [ reflexivity | ].
  split; [ symmetry; apply Htexts; reflexivity | reflexivity ].
Defined.

Section DistinctLines.

Lemma StronglySorted_lt_of_NoDup (l : list Z) :
  StronglySorted Z.le l -> NoDup l -> StronglySorted Z.lt l.
Proof.
  induction 1 as [| x l Hs IH Hall]; intros Hnd; [ constructor | ].
  apply NoDup_cons in Hnd as [Hx Hnd].
  constructor; [ by apply IH | ].
  rewrite Forall_forall in Hall |- *. intros y Hy.
  specialize (Hall y Hy).
  assert (x <> y) by (intros ->; contradiction). lia.
Qed.

Lemma merge_sort_strict (l : list Z) :
  NoDup l -> StronglySorted Z.lt (merge_sort Z.le l).
Proof.
  intros Hnd. apply StronglySorted_lt_of_NoDup.
  - apply StronglySorted_merge_sort; apply _.
  - by rewrite merge_sort_Permutation.
Qed.

Lemma TlRel_gap_end (start end_ end' : Z) (ranges : list (Z * Z)) :
  TlRel ranges_gap (start, end_) ranges ->
  TlRel ranges_gap (start, end') ranges.
Proof. intros H. inversion H; subst; constructor. assumption. Qed.

Lemma range_loop_gap (rest : list Z) (start end_ : Z) (ranges : list (Z * Z)) :
  StronglySorted Z.lt rest ->
  Forall (fun line => end_ < line) rest ->
  Sorted ranges_gap ranges ->
  TlRel ranges_gap (start, end_) ranges ->
  let '(start', end', ranges') :=
    fold_left range_step rest (start, end_, ranges) in
  Sorted ranges_gap (ranges' ++ [(start', end')]).
Proof.
  revert start end_ ranges.
  induction rest as [| line rest IH]; intros start end_ ranges Hrest Hend Hs Ht.
  - cbn [fold_left]. by apply Sorted_snoc.
  - cbn [fold_left]. unfold range_step at 2.
    apply StronglySorted_inv in Hrest as [Hrest Hline].
    apply Forall_cons in Hend as [Hlt Hend].
    destruct (Z.eqb_spec line (end_ + 1)) as [-> | Hne].
    + apply IH; try assumption. by apply (TlRel_gap_end _ end_).
    + apply IH; try assumption.
      * by apply Sorted_snoc.
      * constructor. unfold ranges_gap. cbn [fst snd]. lia.
Qed.

End DistinctLines.

(** X26: when no missing line is listed twice, as the coverage backend
    reports them, the ranges come in ascending order and do not touch:
    each range starts at least two lines after the end of the one before
    it. *)
Theorem missing_ranges_ascending (missing_list : list Z) :
  NoDup missing_list ->
  Sorted ranges_gap (line_ranges (merge_sort Z.le missing_list)).
Proof.
  intros Hnd. pose proof (merge_sort_strict missing_list Hnd) as Hsorted.
  unfold line_ranges.
  destruct (merge_sort Z.le missing_list) as [| first rest]; [ constructor | ].
  apply StronglySorted_inv in Hsorted as [Hrest Hfirst].
  pose proof (range_loop_gap rest first first [] Hrest Hfirst
                ltac:(constructor) ltac:(constructor)) as Hloop.
  by destruct (fold_left range_step rest (first, first, []))
    as [[start end_] ranges].
Qed.

Lemma missing_ranges_ascending_witness :
  NoDup [12; 3; 5; 4; 9; 13; 14] /\
  line_ranges (merge_sort Z.le [12; 3; 5; 4; 9; 13; 14])
  = [(3, 5); (9, 9); (12, 14)] /\
  Sorted ranges_gap (line_ranges (merge_sort Z.le [12; 3; 5; 4; 9; 13; 14])).
Proof.
  assert (Hnd : NoDup [12; 3; 5; 4; 9; 13; 14]).
  { apply (bool_decide_unpack (NoDup [12; 3; 5; 4; 9; 13; 14])).
    vm_compute. exact I. }
  split; [ exact Hnd | ]. split; [ reflexivity | ].
  exact (missing_ranges_ascending [12; 3; 5; 4; 9; 13; 14] Hnd).
Defined.

(** ** What gets linted *)

Section Walk.

Lemma Dir_nested_ind (P : Dir -> Prop) :
  (forall files dirs, Forall (fun entry => P entry.2) dirs -> P (mkDir files dirs)) ->
  forall tree, P tree.
Proof.
  intros Hstep. fix IH 1. intros [files dirs]. apply Hstep.
  induction dirs as [| [d sub] dirs IHdirs]; constructor.
  - apply IH.
  - apply IHdirs.
Qed.

Lemma elem_of_walk_python_files (tree : Dir) (root path : string) :
  path ∈ walk_python_files root tree <->
  exists via file,
    reaches root tree via file path /\
    endswith file ".py" = true /\
    Forall (fun d => skipped_dir d = false) via.
Proof.
  revert root path.
  induction tree as [files dirs IH] using Dir_nested_ind; intros root path.
  cbn [walk_python_files]. rewrite elem_of_app. split.
  - intros [Hhere | Hbelow].
    + apply list_elem_of_fmap in Hhere as (file & -> & Hfile).
      apply list_elem_of_In, List.filter_In in Hfile as [Hin Hpy].
      exists [], file. split; [ | split; [ exact Hpy | constructor ] ].
      constructor. by apply list_elem_of_In.
    + apply elem_of_concat in Hbelow as (l & Hpath & Hl).
      apply list_elem_of_fmap in Hl as ([d sub] & -> & Hin).
      destruct (skipped_dir d) eqn:Hskip; [ by apply elem_of_nil in Hpath | ].
      rewrite Forall_forall in IH.
      apply (IH (d, sub) Hin) in Hpath as (via & file & Hreach & Hpy & Hvia).
      exists (d :: via), file. split; [ | split; [ exact Hpy | by constructor ] ].
      by apply (reaches_below _ _ _ d sub).
  - intros (via & file & Hreach & Hpy & Hvia).
    inversion Hreach; subst.
    + left. apply list_elem_of_fmap. exists file. split; [ done | ].
      apply list_elem_of_In, List.filter_In. split; [ | exact Hpy ].
      by apply list_elem_of_In.
    + right. apply Forall_cons in Hvia as [Hd Hvia].
      apply elem_of_concat. eexists. split; [ | apply list_elem_of_fmap; eauto ].
      cbn beta iota. rewrite Hd.
      rewrite Forall_forall in IH.
      apply (IH (d, sub)); [ assumption | ]. eauto.
Qed.

Lemma endswith_refl (s : string) : endswith s s = true.
Proof.
  destruct s; [ reflexivity | ].
  by rewrite endswith_cons, String.eqb_refl.
Qed.

Lemma endswith_app_l (a s p : string) :
  endswith s p = true -> endswith (a +:+ s) p = true.
Proof.
  intros Hs. induction a as [| c a IH]; [ exact Hs | ].
  change (String c a +:+ s) with (String c (a +:+ s)).
  rewrite endswith_cons, IH. apply orb_true_r.
Qed.

Lemma endswith_join_step (root file p : string) :
  endswith file p = true -> endswith (join_step root file) p = true.
Proof.
  intros Hp. unfold join_step.
  destruct (startswith file "/"); [ exact Hp | ].
  destruct (String.eqb root "" || endswith root "/").
  - by apply endswith_app_l.
  - apply endswith_app_l. by apply (endswith_app_l "/").
Qed.

Lemma reaches_endswith (root : string) (tree : Dir) (via : list string)
    (file path p : string) :
  reaches root tree via file path ->
  endswith file p = true -> endswith path p = true.
Proof.
  induction 1 as [root files dirs file Hin | ]; intros Hp; [ | auto ].
  by apply endswith_join_step.
Qed.

End Walk.

(** X27: without a list of files, [run_lint] hands to the backend exactly
    the files below [search_path] whose name ends with [.py] and that are
    reached without passing through a directory named [.git],
    [__pycache__], [.pytest_cache], [htmlcov], [.coverage], [venv], [env],
    [.venv] or [.env]; with a list of files, exactly those of the list
    that end with [.py] and exist.  Either way every path it hands over
    ends with [.py]. *)
Theorem run_lint_files (fs : FileSystem) (lb : LintBackend)
    (search_path : string) (specific_files : list string) (tree : Dir)
    (path : string) :
  (tree_at lb search_path = Some tree ->
   (path ∈ Lint.python_files fs lb search_path None <->
    exists via file,
      reaches search_path tree via file path /\
      endswith file ".py" = true /\
      Forall (fun d => d ∉ skipped_dirs) via)) /\
  (specific_files <> [] ->
   (path ∈ Lint.python_files fs lb search_path (Some specific_files) <->
    path ∈ specific_files /\ endswith path ".py" = true
    /\ path_exists fs path = true)) /\
  (forall files, path ∈ Lint.python_files fs lb search_path files ->
                 endswith path ".py" = true).
Proof.
  assert (Hwalk : forall t,
    tree_at lb search_path = Some t ->
    (path ∈ Lint.python_files fs lb search_path None <->
     exists via file,
       reaches search_path t via file path /\
       endswith file ".py" = true /\
       Forall (fun d => d ∉ skipped_dirs) via)).
  { intros t Htree. unfold Lint.python_files. cbn [opt_list_truthy].
    rewrite Htree, elem_of_walk_python_files.
    assert (Hskip : forall via,
      Forall (fun d => skipped_dir d = false) via
      <-> Forall (fun d => d ∉ skipped_dirs) via).
    { intros via. apply Forall_proper; [ | done ]. intros d.
      unfold skipped_dir. apply bool_decide_eq_false. }
    split; intros (via & file & ? & ? & ?); exists via, file;
      repeat split; try assumption; by apply Hskip. }
  assert (Hlist : forall l, l <> [] ->
    (path ∈ Lint.python_files fs lb search_path (Some l) <->
     path ∈ l /\ endswith path ".py" = true /\ path_exists fs path = true)).
  { intros l Hne. unfold Lint.python_files.
    destruct l as [| f l]; [ contradiction | ].
    cbn [opt_list_truthy list_truthy default from_option id].
    rewrite list_elem_of_In, List.filter_In, andb_true_iff, <- list_elem_of_In.
    tauto. }
  split; [ apply Hwalk | ]. split; [ apply Hlist | ].
  intros [[| f l] |] Hin.
  - unfold Lint.python_files in Hin. cbn [opt_list_truthy list_truthy] in Hin.
    destruct (tree_at lb search_path) as [t |] eqn:Ht;
      [ | by apply elem_of_nil in Hin ].
    apply elem_of_walk_python_files in Hin as (via & file & Hreach & Hpy & _).
    by apply (reaches_endswith _ _ _ _ _ _ Hreach).
  - by apply (Hlist (f :: l)) in Hin as (_ & Hpy & _).
  - destruct (tree_at lb search_path) as [t |] eqn:Ht.
    + apply (Hwalk t eq_refl) in Hin as (via & file & Hreach & Hpy & _).
      by apply (reaches_endswith _ _ _ _ _ _ Hreach).
    + unfold Lint.python_files in Hin. cbn [opt_list_truthy] in Hin.
      rewrite Ht in Hin. by apply elem_of_nil in Hin.
Qed.

(** X28: [run_lint] returns -1 or a count that is not negative.  It
    returns -1 exactly when the backend is not installed, the style guide
    cannot be made, or checking the files raises; with no Python file to
    check it returns 0 without calling the backend's check. *)
Theorem run_lint_result (fs : FileSystem) (lb : LintBackend)
    (search_path : string) (specific_files : option (list string)) :
  let files := Lint.python_files fs lb search_path specific_files in
  -1 <= Lint.run_lint fs lb search_path specific_files /\
  (Lint.run_lint fs lb search_path specific_files = -1 <->
   flake8_available lb = false \/ is_Some (get_style_guide lb) \/
   (files <> [] /\ exists e, check_files lb files = inl e)) /\
  (flake8_available lb = true -> get_style_guide lb = None -> files = [] ->
   Lint.run_lint fs lb search_path specific_files = 0).
Proof.
  cbv zeta. unfold Lint.run_lint.
  destruct (flake8_available lb); cbn [negb].
  2: { split; [ lia | ]. split; [ | intros ?; discriminate ].
       split; [ intros _; by left | reflexivity ]. }
  destruct (get_style_guide lb) as [e |].
  { split; [ lia | ]. split; [ | intros _ ?; discriminate ].
    split; [ intros _; right; left; eauto | reflexivity ]. }
  destruct (Lint.python_files fs lb search_path specific_files) as [| f l];
    cbn [list_truthy negb].
  { split; [ lia | ]. split; [ | reflexivity ]. split; [ discriminate | ].
    intros [? | [[? ?] | [? _]]]; try discriminate. contradiction. }
  destruct (check_files lb (f :: l)) as [e | [[es ws] fl]].
  - split; [ lia | ]. split; [ | intros _ _ ?; discriminate ].
    split; [ intros _ | reflexivity ].
    right; right. split; [ discriminate | eauto ].
  - split; [ lia | ]. split; [ | intros _ _ ?; discriminate ].
    split; [ lia | ].
    intros [? | [[? ?] | [_ [? ?]]]]; discriminate.
Qed.

Lemma run_lint_result_witness :
  flake8_available sample_lint_backend = true /\
  get_style_guide sample_lint_backend = None /\
  Lint.python_files sample_fs sample_lint_backend "." (Some ["README.md"]) = [] /\
  Lint.run_lint sample_fs sample_lint_backend "." (Some ["README.md"]) = 0 /\
  Lint.run_lint sample_fs sample_lint_backend "." None = 1.
Proof.
  destruct (run_lint_result sample_fs sample_lint_backend "."
              (Some ["README.md"])) as (_ & _ & Hzero).
  split; [ reflexivity | ]. split; [ reflexivity | ].
  split; [ reflexivity | ].
  split; [ apply Hzero; reflexivity | reflexivity ].
Defined.

Lemma run_lint_files_witness :
  tree_at sample_lint_backend "." = Some sample_tree /\
  Lint.python_files sample_fs sample_lint_backend "." None
  = ["./testrules.py"; "./pkg/a.py"] /\
  "./pkg/a.py" ∈ Lint.python_files sample_fs sample_lint_backend "." None /\
  ["test_clean.py"; "README.md"; "gone.py"] <> [] /\
  ("gone.py" ∈ Lint.python_files sample_fs sample_lint_backend "."
                 (Some ["test_clean.py"; "README.md"; "gone.py"]) <->
   "gone.py" ∈ ["test_clean.py"; "README.md"; "gone.py"] /\
   endswith "gone.py" ".py" = true /\ path_exists sample_fs "gone.py" = true).
Proof.
  destruct (run_lint_files sample_fs sample_lint_backend "."
              ["test_clean.py"; "README.md"; "gone.py"] sample_tree "./pkg/a.py")
    as (Hwalk & _ & _).
  destruct (run_lint_files sample_fs sample_lint_backend "."
              ["test_clean.py"; "README.md"; "gone.py"] sample_tree "gone.py")
    as (_ & Hlist & _).
  split; [ reflexivity | ]. split; [ reflexivity | ].
  split; [ | split; [ discriminate | apply Hlist; discriminate ] ].
  apply (Hwalk eq_refl). exists ["pkg"], "a.py".
  split; [ | split; [ reflexivity | ] ].
  - apply (reaches_below "." _ _ "pkg"
             (mkDir ["a.py"; "a.pyc"] [("__pycache__", mkDir ["a.cpython.py"] [])])).
    + apply elem_of_cons. by left.
    + apply (reaches_here "./pkg" ["a.py"; "a.pyc"]). apply elem_of_cons. by left.
  - constructor; [ | constructor ].
    apply (bool_decide_unpack ("pkg" ∉ skipped_dirs)). vm_compute. exact I.
Defined.

(** ** Module names and the dictionary of test methods *)

Section ModuleNames.

Lemma contains_char_cons (c x : ascii) (s : string) :
  str_contains (String c "") (String x s)
  = bool_decide (c = x) || str_contains (String c "") s.
Proof.
  change (str_contains (String c "") (String x s))
    with (String.prefix (String c "") (String x s) || str_contains (String c "") s).
  by rewrite prefix_char_cons.
Qed.

Lemma contains_char_app (c : ascii) (a b : string) :
  str_contains (String c "") (a +:+ b)
  = str_contains (String c "") a || str_contains (String c "") b.
Proof.
  induction a as [| x a IH]; [ reflexivity | ].
  change (String x a +:+ b) with (String x (a +:+ b)).
  rewrite !contains_char_cons, IH. by rewrite orb_assoc.
Qed.

(** Replacing leaves no character that was in neither the string nor the
    replacement. *)
Lemma py_replace_from_chars (c : ascii) (old new : string) (s : string)
    (skip : nat) :
  str_contains (String c "") (py_replace_from old new skip s) = true ->
  str_contains (String c "") s = true \/ str_contains (String c "") new = true.
Proof.
  revert skip. induction s as [| x s IH]; intros skip; [ discriminate | ].
  cbn [py_replace_from]. rewrite contains_char_cons.
  destruct skip as [| k].
  - destruct (String.prefix old (String x s)).
    + rewrite contains_char_app. intros [Hn | Hr]%orb_true_iff; [ by right | ].
      destruct (IH _ Hr) as [H | H]; [ left | by right ].
      rewrite H. apply orb_true_r.
    + rewrite contains_char_cons. intros [Hx | Hr]%orb_true_iff.
      * left. by rewrite Hx.
      * destruct (IH _ Hr) as [H | H]; [ left | by right ].
        rewrite H. apply orb_true_r.
  - intros Hr. destruct (IH _ Hr) as [H | H]; [ left | by right ].
    rewrite H. apply orb_true_r.
Qed.

(** Replacing a character by a text without it leaves none of it. *)
Lemma py_replace_char_gone (c : ascii) (new s : string) (skip : nat) :
  str_contains (String c "") new = false ->
  str_contains (String c "") (py_replace_from (String c "") new skip s) = false.
Proof.
  intros Hnew. revert skip. induction s as [| x s IH]; intros skip;
    [ reflexivity | ].
  cbn [py_replace_from]. destruct skip as [| k]; [ | apply IH ].
  rewrite prefix_char_cons.
  destruct (bool_decide (c = x)) eqn:Hcx.
  - by rewrite contains_char_app, Hnew, IH.
  - by rewrite contains_char_cons, Hcx, IH.
Qed.

Lemma strip_leading_dots_chars (c : ascii) (s : string) :
  str_contains (String c "") (strip_leading_dots s) = true ->
  str_contains (String c "") s = true.
Proof.
  induction s as [| x s IH]; [ done | ].
  cbn [strip_leading_dots]. destruct (Ascii.eqb x "."); [ | done ].
  intros H. rewrite contains_char_cons, (IH H). apply orb_true_r.
Qed.

Lemma strip_leading_dots_start (s : string) :
  startswith (strip_leading_dots s) "." = false.
Proof.
  induction s as [| x s IH]; [ reflexivity | ].
  cbn [strip_leading_dots].
  destruct (Ascii.eqb_spec x ".") as [-> | Hne]; [ exact IH | ].
  unfold startswith. rewrite prefix_char_cons.
  apply bool_decide_eq_false_2. congruence.
Qed.

End ModuleNames.

(** X29: the module name [discover_test_methods] makes of a file path
    does not start with a dot and holds neither a slash nor a backslash,
    whatever the path looks like. *)
Theorem module_name_of_dotted (normpath : string -> string)
    (file_path : string) :
  let module_name := module_name_of normpath file_path in
  startswith module_name "." = false /\
  str_contains "/" module_name = false /\
  str_contains "\" module_name = false.
Proof.
  cbv zeta. unfold module_name_of, py_replace.
  set (p := if startswith (normpath file_path) "./" then _ else _).
  split; [ apply strip_leading_dots_start | ].
  assert (Hslash : str_contains "/" (py_replace_from "/" "." 0 p) = false)
    by (by apply py_replace_char_gone).
  set (p1 := py_replace_from "/" "." 0 p) in *.
  assert (Hback : str_contains "\" (py_replace_from "\" "." 0 p1) = false)
    by (by apply py_replace_char_gone).
  assert (Hslash' : str_contains "/" (py_replace_from "\" "." 0 p1) = false).
  { destruct (str_contains "/" (py_replace_from "\" "." 0 p1)) eqn:E;
      [ | reflexivity ].
    apply py_replace_from_chars in E as [E | E]; [ congruence | discriminate ]. }
  set (p2 := py_replace_from "\" "." 0 p1) in *.
  split.
  - destruct (str_contains "/" (strip_leading_dots _)) eqn:E; [ | reflexivity ].
    apply strip_leading_dots_chars, py_replace_from_chars in E as [E | E];
      [ congruence | discriminate ].
  - destruct (str_contains "\" (strip_leading_dots _)) eqn:E; [ | reflexivity ].
    apply strip_leading_dots_chars, py_replace_from_chars in E as [E | E];
      [ congruence | discriminate ].
Qed.

Section MethodsDict.

Context (fs : FileSystem) (ld : Loader) (normpath : string -> string).

Lemma dict_set_keys {V} (k : string) (v : V) (d : list (string * V)) :
  forall k', k' ∈ (dict_set k v d).*1 <-> k' = k \/ k' ∈ d.*1.
Proof.
  induction d as [| [k0 v0] d IH]; intros k'; cbn [dict_set fmap list_fmap].
  - rewrite list_elem_of_singleton. cbn. rewrite elem_of_nil. tauto.
  - destruct (String.eqb_spec k0 k) as [-> | Hne]; cbn [fmap list_fmap fst].
    + rewrite !elem_of_cons. tauto.
    + rewrite !elem_of_cons. cbn [fst]. rewrite IH. tauto.
Qed.

Lemma dict_set_NoDup {V} (k : string) (v : V) (d : list (string * V)) :
  NoDup d.*1 -> NoDup (dict_set k v d).*1.
Proof.
  induction d as [| [k0 v0] d IH]; cbn [dict_set fmap list_fmap fst].
  - intros _. apply NoDup_singleton.
  - intros [Hk0 Hnd]%NoDup_cons.
    destruct (String.eqb_spec k0 k) as [-> | Hne]; cbn [fmap list_fmap fst].
    + by apply NoDup_cons.
    + apply NoDup_cons. split; [ | by apply IH ].
      rewrite dict_set_keys. intros [? | ?]; [ congruence | contradiction ].
Qed.

Lemma dict_set_entries {V} (P : string * V -> Prop) (k : string) (v : V)
    (d : list (string * V)) :
  P (k, v) -> Forall P d -> Forall P (dict_set k v d).
Proof.
  intros Hkv. induction 1 as [| [k0 v0] d Hx Hd IH]; cbn [dict_set].
  - by constructor.
  - destruct (String.eqb k0 k); by constructor.
Qed.

Lemma inspect_file_ok (test_files : list string) (file_path : string)
    (st : list (string * list TestMethod) * list string) :
  file_path ∈ test_files ->
  methods_dict_ok fs normpath test_files st.1 ->
  methods_dict_ok fs normpath test_files
    (Inspector.inspect_file fs ld normpath st file_path).1.
Proof.
  intros Hin [Hnd Hall]. destruct st as [d sp]. cbn [fst] in *.
  unfold Inspector.inspect_file.
  destruct (path_exists fs file_path) eqn:Hex; cbn [negb]; [ | by split ].
  pose proof (inspect_module_for_tests_found fs ld
                (module_name_of normpath file_path) (Some file_path) sp) as Hspec.
  destruct (safe_import_module fs ld (module_name_of normpath file_path)
              (Some file_path) sp) as [[[module success] msg] q].
  cbn [fst] in Hspec.
  destruct (inspect_module_for_tests fs ld (module_name_of normpath file_path)
              (Some file_path) sp) as [found sp'].
  cbn [fst] in *.
  destruct (found.1) as [| tm tms] eqn:Hfound; cbn [list_truthy fst];
    [ by split | ].
  split; [ by apply dict_set_NoDup | ].
  apply dict_set_entries; [ | exact Hall ].
  cbn [fst snd]. split; [ discriminate | ].
  exists file_path. repeat split; try assumption.
  apply Forall_forall. intros tm' Htm'.
  destruct module as [module |].
  - apply Hspec in Htm' as [(c & ms & n & _ & _ & _ & ->) | (n & _ & _ & ->)];
      split; reflexivity.
  - rewrite Hspec in Hfound. discriminate.
Qed.

Lemma discover_test_methods_ok (test_files : list string)
    (sys_path : list string) :
  methods_dict_ok fs normpath test_files
    (Inspector.discover_test_methods fs ld normpath test_files sys_path).1.
Proof.
  unfold Inspector.discover_test_methods.
  assert (Hgen : forall files st,
            (forall f, f ∈ files -> f ∈ test_files) ->
            methods_dict_ok fs normpath test_files st.1 ->
            methods_dict_ok fs normpath test_files
              (fold_left (Inspector.inspect_file fs ld normpath) files st).1).
  { induction files as [| f files IH]; intros st Hsub Hok; [ exact Hok | ].
    cbn [fold_left]. apply IH.
    - intros f' Hf'. apply Hsub. apply elem_of_cons. by right.
    - apply inspect_file_ok; [ | exact Hok ].
      apply Hsub. apply elem_of_cons. by left. }
  apply Hgen; [ auto | ].
  split; [ constructor | constructor ].
Qed.

End MethodsDict.

(** X30: in the dictionary [discover_test_methods] returns no module name
    appears twice, every module has at least one test method, each module
    is the module name of a file of the list that exists, and its methods
    carry that module name and that file path.  So the number of test
    methods is zero only for the empty dictionary. *)
Theorem discover_test_methods_dict (fs : FileSystem) (ld : Loader)
    (normpath : string -> string) (test_files : list string)
    (sys_path : list string) :
  let d :=
    (Inspector.discover_test_methods fs ld normpath test_files sys_path).1 in
  NoDup d.*1 /\
  (forall module_name test_methods,
     (module_name, test_methods) ∈ d ->
     test_methods <> [] /\
     exists file_path,
       file_path ∈ test_files /\ path_exists fs file_path = true /\
       module_name = module_name_of normpath file_path /\
       Forall (fun tm => tm_module tm = module_name
                         /\ tm_file_path tm = Some file_path) test_methods) /\
  (total_methods d = 0 <-> d = []).
Proof.
  cbv zeta.
  destruct (discover_test_methods_ok fs ld normpath test_files sys_path)
    as [Hnd Hall].
  split; [ exact Hnd | ]. split.
  - intros name tms Hin. rewrite Forall_forall in Hall.
    exact (Hall (name, tms) Hin).
  - rewrite total_methods_length. split.
    + destruct (Inspector.discover_test_methods fs ld normpath test_files sys_path).1
        as [| [name tms] rest]; [ reflexivity | ].
      apply Forall_cons in Hall as [[Hne _] _]. cbn [snd] in Hne.
      cbn [fmap list_fmap snd concat]. rewrite length_app.
      destruct tms; [ contradiction | ]. cbn [length]. lia.
    + intros ->. reflexivity.
Qed.

Lemma discover_test_methods_dict_witness :
  let test_files := ["./test_clean.py"; "./gone.py"; "./test_clean.py"] in
  let d :=
    (Inspector.discover_test_methods sample_fs sample_loader id test_files
       ["/site"]).1 in
  d.*1 = ["test_clean"] /\
  Forall (fun entry =>
            entry.2 <> [] /\
            exists file_path,
              file_path ∈ test_files /\
              path_exists sample_fs file_path = true /\
              entry.1 = module_name_of id file_path) d.
Proof.
  cbv zeta.
  destruct (discover_test_methods_dict sample_fs sample_loader id
              ["./test_clean.py"; "./gone.py"; "./test_clean.py"] ["/site"])
    as (_ & Hentries & _).
  split; [ reflexivity | ].
  apply Forall_forall. intros [module_name test_methods] Hin.
  destruct (Hentries module_name test_methods Hin)
    as (Hne & file_path & Hfile & Hex & Hname & _).
  split; [ exact Hne | ]. exists file_path. auto.
Defined.
